(** * blogue: frontmatter pattern learning and schema field extraction

    A shallow embedding of the inference core of [blogue-core]:
    - [pattern-detection.ts]   (statistical pattern learner, template defaults),
    - [schema-introspection.ts] (mock-Zod introspection and the text fallback),
    - [astro-schema-analyzer.ts] (JSON-Schema projection),
    - [index.ts]               (choice between pattern and framework template,
                                assembly of a new post, publishing),
    - [framework-detection.ts] (detection of the site generator),
    - [validation.ts]          (validation of frontmatter).

    JavaScript numbers are modelled by exact rationals [Q]: the only numbers
    the modelled code computes are quotients of small counters and sums of
    one-decimal literals, which are compared with one-decimal thresholds. *)

From Stdlib Require Import List String Ascii Bool Arith ZArith QArith Qminmax Lia Permutation.
From Stdlib Require Import DecimalString Qround.
Set Warnings "-register-all".
Import ListNotations.
Local Open Scope string_scope.
Local Open Scope list_scope.

(** ** JavaScript values *)

Module Js.

(** A [Date], kept by its UTC calendar fields. *)
Record JsDate : Type := mkDate {
  year : nat; month : nat; day : nat;
  hours : nat; minutes : nat; seconds : nat; milliseconds : nat
}.

(** The values YAML frontmatter and schema literals can hold. *)
Inductive JsValue : Type :=
| VUndefined
| VNull
| VBool (b : bool)
| VNum (q : Q)
| VStr (s : string)
| VDate (d : JsDate)
| VArray (items : list JsValue)
| VObject (members : list (string * JsValue)).

(** [typeof v] *)
Definition typeof (v : JsValue) : string :=
  match v with
  | VUndefined => "undefined"
  | VNull => "object"
  | VBool _ => "boolean"
  | VNum _ => "number"
  | VStr _ => "string"
  | VDate _ => "object"
  | VArray _ => "object"
  | VObject _ => "object"
  end.

(** [Array.isArray(v)] *)
Definition isArray (v : JsValue) : bool :=
  match v with VArray _ => true | _ => false end.

(** [v instanceof Date] *)
Definition instanceofDate (v : JsValue) : bool :=
  match v with VDate _ => true | _ => false end.

(** The comparison behind [Array.prototype.includes].  Primitives compare by
    value.  Dates, arrays and objects compare by identity, and every parsed
    file yields fresh ones, so two of them met in different samples are never
    the same. *)
Definition sameValueZero (a b : JsValue) : bool :=
  match a, b with
  | VUndefined, VUndefined => true
  | VNull, VNull => true
  | VBool x, VBool y => Bool.eqb x y
  | VNum x, VNum y => Qeq_bool x y
  | VStr x, VStr y => String.eqb x y
  | _, _ => false
  end.

Definition includes (v : JsValue) (l : list JsValue) : bool :=
  existsb (fun e => sameValueZero e v) l.

Definition includesStr (s : string) (l : list string) : bool :=
  existsb (fun e => String.eqb e s) l.

(** [typeof v === 'object' && v !== null && Object.keys(v).length === 0] *)
Definition isEmptyObject (v : JsValue) : bool :=
  match v with
  | VDate _ => true
  | VArray items => match items with [] => true | _ => false end
  | VObject members => match members with [] => true | _ => false end
  | _ => false
  end.

(** A plain object used as a record: its own enumerable entries in
    [Object.entries] order. *)
Definition Obj : Type := list (string * JsValue).

Definition keys (o : Obj) : list string := map fst o.

(** [k in o] *)
Definition hasKey (k : string) (o : Obj) : bool :=
  existsb (fun e => String.eqb (fst e) k) o.

(** [o[k] = v] : overwrite in place, or append a new entry. *)
Fixpoint setKey (k : string) (v : JsValue) (o : Obj) : Obj :=
  match o with
  | [] => [(k, v)]
  | (k', v') :: rest =>
      if String.eqb k' k then (k, v) :: rest else (k', v') :: setKey k v rest
  end.

(** What a JavaScript call does: it returns or it throws. *)
Inductive Completion (E A : Type) : Type :=
| Returns (a : A)
| Throws (e : E).
Arguments Returns {E A} a.
Arguments Throws {E A} e.

End Js.
Import Js.

(** ** pattern-detection.ts *)

Module PatternDetection.

Record FieldPattern : Type := mkFieldPattern {
  fieldName : string;
  frequency : Q;
  types : list string;
  examples : list JsValue
}.

Record FrontmatterPattern : Type := mkPattern {
  commonFields : list FieldPattern;
  requiredFields : list string;
  optionalFields : list string;
  rareFields : list string;
  totalPosts : nat;
  confidence : Q
}.

Record DetectionResult : Type := mkDetection {
  pattern : option FrontmatterPattern;
  success : bool;
  message : string;
  suggestedTemplate : option Obj
}.

(** The [Map<string, FieldPattern>] of [analyzeFrontmatterPatterns], in
    insertion order; the key of an entry is its [fieldName]. *)
Definition FieldMap : Type := list FieldPattern.

Definition mapHas (k : string) (m : FieldMap) : bool :=
  existsb (fun p => String.eqb (fieldName p) k) m.

Fixpoint mapAdjust (k : string) (f : FieldPattern -> FieldPattern) (m : FieldMap) : FieldMap :=
  match m with
  | [] => []
  | p :: rest =>
      if String.eqb (fieldName p) k then f p :: rest else p :: mapAdjust k f rest
  end.

Definition emptyPattern (name : string) : FieldPattern :=
  {| fieldName := name; frequency := 0; types := []; examples := [] |}.

(** [Array.isArray(value) ? 'array' : typeof value] *)
Definition valueTypeOf (value : JsValue) : string :=
  if isArray value then "array" else typeof value.

(** The body of the inner loop once the entry exists: count, record the
    type, keep up to three distinct examples. *)
Definition observe (value : JsValue) (p : FieldPattern) : FieldPattern :=
  let valueType := valueTypeOf value in
  {| fieldName := fieldName p;
     frequency := frequency p + 1;
     types := if includesStr valueType (types p) then types p
              else types p ++ [valueType];
     examples := if (List.length (examples p) <? 3)%nat && negb (includes value (examples p))
                 then examples p ++ [value] else examples p |}.

Definition recordEntry (m : FieldMap) (entry : string * JsValue) : FieldMap :=
  let m' := if mapHas (fst entry) m then m else m ++ [emptyPattern (fst entry)] in
  mapAdjust (fst entry) (observe (snd entry)) m'.

Definition recordSample (m : FieldMap) (sample : Obj) : FieldMap :=
  fold_left recordEntry sample m.

Definition countFields (samples : list Obj) : FieldMap :=
  fold_left recordSample samples [].

(** A JavaScript number holding a count. *)
Definition ofNat (n : nat) : Q := inject_Z (Z.of_nat n).

Definition normalize (total : nat) (m : FieldMap) : FieldMap :=
  map (fun p => {| fieldName := fieldName p;
                   frequency := frequency p / ofNat total;
                   types := types p;
                   examples := examples p |}) m.

Definition atLeast (threshold x : Q) : bool := Qle_bool threshold x.

(** The three [push] targets of the categorising loop. *)
Definition categorizeStep (acc : list string * list string * list string)
    (field : FieldPattern) : list string * list string * list string :=
  let '(req, opt, rare) := acc in
  if atLeast 0.8 (frequency field) then (req ++ [fieldName field], opt, rare)
  else if atLeast 0.2 (frequency field) then (req, opt ++ [fieldName field], rare)
  else (req, opt, rare ++ [fieldName field]).

Definition categorize (fields : list FieldPattern) : list string * list string * list string :=
  fold_left categorizeStep fields ([], [], []).

Definition isDateAlias (name : string) : bool :=
  String.eqb name "date" || String.eqb name "publishedAt" || String.eqb name "publishDate".

Definition calculateConfidence (fields : list FieldPattern) (totalPosts : nat) : Q :=
  if (totalPosts <? 2)%nat then 0.5
  else
    let requiredFieldCount :=
      List.length (filter (fun f => atLeast 0.8 (frequency f)) fields) in
    let hasTitle :=
      existsb (fun f => String.eqb (fieldName f) "title" && atLeast 0.8 (frequency f)) fields in
    let hasDate :=
      existsb (fun f => isDateAlias (fieldName f) && atLeast 0.8 (frequency f)) fields in
    let confidence := 0.6 in
    let confidence := if hasTitle then confidence + 0.2 else confidence in
    let confidence := if hasDate then confidence + 0.2 else confidence in
    let confidence := if (3 <=? requiredFieldCount)%nat then confidence + 0.1 else confidence in
    let confidence := if (5 <=? totalPosts)%nat then confidence + 0.1 else confidence in
    Qmin confidence 1.0.

Definition analyzeFrontmatterPatterns (samples : list Obj) : FrontmatterPattern :=
  let totalPosts := List.length samples in
  let commonFields := normalize totalPosts (countFields samples) in
  let '(req, opt, rare) := categorize commonFields in
  {| commonFields := commonFields;
     requiredFields := req;
     optionalFields := opt;
     rareFields := rare;
     totalPosts := totalPosts;
     confidence := calculateConfidence commonFields totalPosts |}.

(** *** Template synthesis *)

Definition shouldSkipField (fieldPattern : FieldPattern) : bool :=
  includesStr "object" (types fieldPattern) &&
  forallb isEmptyObject (examples fieldPattern).

Definition isDigit (c : ascii) : bool :=
  let n := nat_of_ascii c in (48 <=? n)%nat && (n <=? 57)%nat.

(** [/^\d{4}-\d{2}-\d{2}$/.test(s)] *)
Definition isSimpleDate (s : string) : bool :=
  match list_ascii_of_string s with
  | [y1; y2; y3; y4; d1; m1; m2; d2; a1; a2] =>
      isDigit y1 && isDigit y2 && isDigit y3 && isDigit y4 &&
      Ascii.eqb d1 "-" && isDigit m1 && isDigit m2 &&
      Ascii.eqb d2 "-" && isDigit a1 && isDigit a2
  | _ => false
  end.

Definition digitChar (n : nat) : ascii :=
  match (n mod 10)%nat with
  | 0 => "0" | 1 => "1" | 2 => "2" | 3 => "3" | 4 => "4"
  | 5 => "5" | 6 => "6" | 7 => "7" | 8 => "8" | _ => "9"
  end%nat%char.

Definition pad2 (n : nat) : string :=
  String (digitChar (n / 10)) (String (digitChar n) "").

Definition pad3 (n : nat) : string :=
  String (digitChar (n / 100)) (pad2 n).

Definition pad4 (n : nat) : string :=
  String (digitChar (n / 1000)) (pad3 n).

Definition pad6 (n : nat) : string :=
  String (digitChar (n / 1000 / 100)) (String (digitChar (n / 1000 / 10)) (pad4 n)).

(** [Date.prototype.toISOString]: [YYYY-MM-DDTHH:mm:ss.sssZ], with the
    expanded six-digit year beyond 9999. *)
Definition toISOString (d : JsDate) : string :=
  ((if (year d / 1000 <? 10)%nat then pad4 (year d) else "+" ++ pad6 (year d))
   ++ "-" ++ pad2 (month d) ++ "-" ++ pad2 (day d)
   ++ "T" ++ pad2 (hours d) ++ ":" ++ pad2 (minutes d) ++ ":" ++ pad2 (seconds d)
   ++ "." ++ pad3 (milliseconds d) ++ "Z")%string.

(** [s.split(sep)[0]] for a one-character separator. *)
Fixpoint splitHead (sep : ascii) (s : string) : string :=
  match s with
  | EmptyString => EmptyString
  | String c rest => if Ascii.eqb c sep then EmptyString else String c (splitHead sep rest)
  end.

Definition isString (v : JsValue) : bool :=
  match v with VStr _ => true | _ => false end.

Definition testSimpleDate (v : JsValue) : bool :=
  match v with VStr s => isSimpleDate s | _ => false end.

(** [now] is the instant [new Date()] yields. *)
Definition getDateValueMatchingPattern (now : JsDate) (pattern : FieldPattern) : JsValue :=
  let hasStringDates := existsb isString (examples pattern) in
  let hasDateObjects := existsb instanceofDate (examples pattern) in
  if hasStringDates && negb hasDateObjects then
    let stringExamples := filter isString (examples pattern) in
    let isSimpleDateFormat := existsb testSimpleDate stringExamples in
    if isSimpleDateFormat then VStr (splitHead "T" (toISOString now))
    else VStr (toISOString now)
  else if hasDateObjects && negb hasStringDates then VDate now
  else VDate now.

(** [toLowerCase] on the ASCII letters. *)
Definition lowerChar (c : ascii) : ascii :=
  let n := nat_of_ascii c in
  if (65 <=? n)%nat && (n <=? 90)%nat then ascii_of_nat (n + 32) else c.

Fixpoint toLowerCase (s : string) : string :=
  match s with
  | EmptyString => EmptyString
  | String c rest => String (lowerChar c) (toLowerCase rest)
  end.

Definition isDateLikeName (lower : string) : bool :=
  includesStr lower
    ["date"; "publishedat"; "publishdate"; "created"; "updatedat"; "modified"; "lastmod"].

Definition typeDefault (primaryType : option string) : JsValue :=
  match primaryType with
  | Some t =>
      if String.eqb t "boolean" then VBool false
      else if String.eqb t "number" then VNum 0
      else if String.eqb t "array" then VArray []
      else if String.eqb t "object" then VObject []
      else VStr ""
  | None => VStr ""
  end.

Definition getDefaultValueForField (now : JsDate) (name : string)
    (pattern : FieldPattern) : JsValue :=
  let primaryType := hd_error (types pattern) in
  let lower := toLowerCase name in
  if String.eqb lower "title" then VStr ""
  else if isDateLikeName lower then getDateValueMatchingPattern now pattern
  else if String.eqb lower "draft" then VBool true
  else if String.eqb lower "tags" || String.eqb lower "categories" then VArray []
  else if String.eqb lower "author" || String.eqb lower "description" then VStr ""
  else if String.eqb lower "published" then VBool false
  else typeDefault primaryType.

Definition addTemplateField (now : JsDate) (fields : list FieldPattern)
    (template : Obj) (name : string) : Obj :=
  match find (fun f => String.eqb (fieldName f) name) fields with
  | None => template
  | Some fieldPattern =>
      if shouldSkipField fieldPattern then template
      else setKey name (getDefaultValueForField now name fieldPattern) template
  end.

Definition generateTemplate (now : JsDate) (pattern : FrontmatterPattern) : Obj :=
  let afterRequired :=
    fold_left (addTemplateField now (commonFields pattern)) (requiredFields pattern) [] in
  fold_left (addTemplateField now (commonFields pattern)) (optionalFields pattern) afterRequired.

(** *** Reading the content directory *)

(** What [readFileSync] finds under a name listed by [readdirSync]. *)
Inductive DirEntry : Type :=
| RegularFile (content : string)
| Unreadable.

(** What a path leads to.  [existsSync] holds of everything but [Missing];
    [readdirSync] lists a [Directory] and throws on anything else. *)
Inductive PathState : Type :=
| Missing
| NotADirectory
| Directory (entries : list (string * DirEntry)).

Definition FileSystem : Type := string -> PathState.

Definition existsSync (fs : FileSystem) (path : string) : bool :=
  match fs path with Missing => false | _ => true end.

Definition readdirSync (fs : FileSystem) (path : string)
    : Completion string (list (string * DirEntry)) :=
  match fs path with
  | Directory entries => Returns entries
  | NotADirectory => Throws "ENOTDIR"
  | Missing => Throws "ENOENT"
  end.

Definition readFileSync (entry : DirEntry) : Completion string string :=
  match entry with
  | RegularFile content => Returns content
  | Unreadable => Throws "EISDIR"
  end.

Fixpoint lastDotSuffix (s : string) : option string :=
  match s with
  | EmptyString => None
  | String c rest =>
      match lastDotSuffix rest with
      | Some ext => Some ext
      | None => if Ascii.eqb c "." then Some s else None
      end
  end.

(** [path.extname] on a name without separators: from the last dot on,
    unless that dot opens the name; [..] has no extension. *)
Definition extname (name : string) : string :=
  match name with
  | EmptyString => ""
  | String _ rest =>
      match lastDotSuffix rest with
      | Some ext => if String.eqb name ".." then "" else ext
      | None => ""
      end
  end.

Definition showNat (n : nat) : string :=
  NilEmpty.string_of_uint (Nat.to_uint n).

(** [Math.round(x)] for a non-negative [x]. *)
Definition mathRound (x : Q) : nat := Z.to_nat (Qfloor (x + (1 # 2))).

Section Detection.

(** The frontmatter codec: [matter(content).data], or the parser's error. *)
Variable matter : string -> Completion string Obj.

(** The instant [new Date()] yields while the template is built. *)
Variable now : JsDate.

(** The body of the [try] block for one file: [Some data] when a sample is
    pushed, [None] when the file is passed over. *)
Definition sampleOf (entry : DirEntry) : option Obj :=
  match readFileSync entry with
  | Throws _ => None
  | Returns content =>
      match matter content with
      | Throws _ => None
      | Returns data =>
          if (0 <? List.length (keys data))%nat then Some data else None
      end
  end.

Fixpoint collectSamples (files : list (string * DirEntry)) : list Obj :=
  match files with
  | [] => []
  | (_, entry) :: rest =>
      match sampleOf entry with
      | Some data => data :: collectSamples rest
      | None => collectSamples rest
      end
  end.

Definition failure (msg : string) : DetectionResult :=
  {| pattern := None; success := false; message := msg; suggestedTemplate := None |}.

(** [maxPosts] is taken to be a count.  A [readdirSync] that throws is not
    caught: the call stands outside every [try]. *)
Definition detectFrontmatterPattern (fs : FileSystem) (contentDir : string)
    (maxPosts : nat) : Completion string DetectionResult :=
  if negb (existsSync fs contentDir) then
    Returns (failure ("Directory not found: " ++ contentDir))
  else
    match readdirSync fs contentDir with
    | Throws e => Throws e
    | Returns listing =>
        let markdownFiles :=
          firstn maxPosts
            (filter (fun f => String.eqb (extname (fst f)) ".md") listing) in
        if (List.length markdownFiles =? 0)%nat then
          Returns (failure "No markdown files found to analyze")
        else
          let frontmatterSamples := collectSamples markdownFiles in
          if (List.length frontmatterSamples =? 0)%nat then
            Returns (failure "No valid frontmatter found in existing posts")
          else
            let pattern := analyzeFrontmatterPatterns frontmatterSamples in
            let template := generateTemplate now pattern in
            Returns
              {| pattern := Some pattern;
                 success := true;
                 message := "Analyzed " ++ showNat (List.length frontmatterSamples)
                            ++ " posts, confidence: "
                            ++ showNat (mathRound (confidence pattern * 100)) ++ "%";
                 suggestedTemplate := Some template |}
    end.

End Detection.

End PatternDetection.

(** ** String helpers shared by the schema readers

    Strings are read as ASCII: white space, word characters and letter case
    are those of the ASCII range. *)

Module Text.

Fixpoint startsWith (prefix s : string) : bool :=
  match prefix, s with
  | EmptyString, _ => true
  | String a p, String b r => Ascii.eqb a b && startsWith p r
  | String _ _, EmptyString => false
  end.

(** [s.includes(needle)] *)
Fixpoint strIncludes (needle s : string) : bool :=
  startsWith needle s ||
  match s with
  | EmptyString => false
  | String _ r => strIncludes needle r
  end.

Fixpoint drop (n : nat) (s : string) : string :=
  match n, s with
  | O, _ => s
  | S k, String _ r => drop k r
  | S _, EmptyString => EmptyString
  end.

(** [s.replace(needle, rep)] for a literal, non-empty [needle]: the first
    occurrence only. *)
Fixpoint replaceFirst (needle rep s : string) : string :=
  if startsWith needle s then (rep ++ drop (String.length needle) s)%string
  else match s with
       | EmptyString => EmptyString
       | String c r => String c (replaceFirst needle rep r)
       end.

Definition isSpace (c : ascii) : bool :=
  let n := nat_of_ascii c in
  ((9 <=? n) && (n <=? 13) || (n =? 32))%nat.

Definition isLineTerminator (c : ascii) : bool :=
  let n := nat_of_ascii c in ((n =? 10) || (n =? 13))%nat.

(** [\w] *)
Definition isWordChar (c : ascii) : bool :=
  let n := nat_of_ascii c in
  ((48 <=? n) && (n <=? 57) || (65 <=? n) && (n <=? 90)
   || (97 <=? n) && (n <=? 122) || (n =? 95))%nat.

Fixpoint trimStart (s : string) : string :=
  match s with
  | String c r => if isSpace c then trimStart r else s
  | EmptyString => EmptyString
  end.

Fixpoint trimEnd (s : string) : string :=
  match s with
  | EmptyString => EmptyString
  | String c r =>
      match trimEnd r with
      | EmptyString => if isSpace c then EmptyString else String c EmptyString
      | r' => String c r'
      end
  end.

Definition trim (s : string) : string := trimEnd (trimStart s).

Fixpoint endsWithChar (c : ascii) (s : string) : bool :=
  match s with
  | EmptyString => false
  | String a EmptyString => Ascii.eqb a c
  | String _ r => endsWithChar c r
  end.

Fixpoint dropLast (s : string) : string :=
  match s with
  | EmptyString => EmptyString
  | String _ EmptyString => EmptyString
  | String a r => String a (dropLast r)
  end.

Fixpoint noLineTerminator (s : string) : bool :=
  match s with
  | EmptyString => true
  | String c r => negb (isLineTerminator c) && noLineTerminator r
  end.

Fixpoint allDigits (s : string) : bool :=
  match s with
  | EmptyString => true
  | String c r => PatternDetection.isDigit c && allDigits r
  end.

(** The double quote character. *)
Definition quoteChar : ascii := ascii_of_nat 34.

(** [parseInt(s)] on a string of decimal digits. *)
Definition parseInt (s : string) : nat :=
  fold_left (fun acc c => (10 * acc + (nat_of_ascii c - 48))%nat)
            (list_ascii_of_string s) O.

End Text.

(** ** schema-introspection.ts *)

Module SchemaIntrospection.
Import Text.

Inductive SchemaFieldType : Type :=
| TString | TNumber | TBoolean | TDate | TArray | TObject | TImage | TUnknown.

Definition fieldTypeEqb (a b : SchemaFieldType) : bool :=
  match a, b with
  | TString, TString | TNumber, TNumber | TBoolean, TBoolean | TDate, TDate
  | TArray, TArray | TObject, TObject | TImage, TImage | TUnknown, TUnknown => true
  | _, _ => false
  end.

(** [defaultValue] is [VUndefined] when the field has none; [description]
    is left out, nothing below reads it. *)
Record SchemaField : Type := mkField {
  name : string;
  type : SchemaFieldType;
  required : bool;
  defaultValue : JsValue
}.

(** [field.defaultValue !== undefined] *)
Definition isDefined (v : JsValue) : bool :=
  match v with VUndefined => false | _ => true end.

(** The [message] text is left out. *)
Record SchemaAnalysis : Type := mkAnalysis {
  fields : list SchemaField;
  requiredFields : list SchemaField;
  optionalFields : list SchemaField;
  imageFields : list SchemaField;
  success : bool
}.

(** *** The schema expression of a configuration

    The expression that [new Function('z', 'return ' + schemaDefinition)]
    evaluates: calls on [z] and the chained [.optional()] and [.default(v)].
    The keys of an object literal are taken to be distinct. *)
Inductive ZExpr : Type :=
| EString                                  (* z.string() *)
| ENumber                                  (* z.number() *)
| EBoolean                                 (* z.boolean() *)
| EDate                                    (* z.date() *)
| ECoerceDate                              (* z.coerce.date() *)
| EArray (item : ZExpr)                    (* z.array(item) *)
| EObject (shape : list (string * ZExpr))  (* z.object({ ... }) *)
| EOptional (e : ZExpr)                    (* e.optional() *)
| EDefault (e : ZExpr) (value : JsValue).  (* e.default(value) *)

(** The [_def] of a schema object, by [typeName]. *)
Inductive ZodDef : Type :=
| ZodString
| ZodNumber
| ZodBoolean
| ZodDate
| ZodArray (elem : ZodDef)
| ZodObject (shape : list (string * ZodDef))
| ZodEffects (schema : ZodDef)
| ZodOptional (innerType : ZodDef)
| ZodDefault (value : JsValue) (innerType : ZodDef).

Inductive JsError : Type :=
| RangeError     (* Maximum call stack size exceeded *)
| TypeError.     (* ... is not a function *)

(** An object built by [mockZ]: its [_def], and whether [addChaining] gave
    it the [optional] and [default] methods. *)
Record MockValue : Type := mkMock {
  def : ZodDef;
  chainable : bool
}.

Definition addChaining (obj : MockValue) : MockValue :=
  {| def := def obj; chainable := true |}.

Definition bare (d : ZodDef) : MockValue :=
  {| def := d; chainable := false |}.

(** [mockZ.coerce.date] after the reassignment
    [mockZ.coerce.date = () => addChaining(mockZ.coerce.date())]:
    the new function calls itself.  [stack] is the number of frames the
    engine still grants; when none is left it throws [RangeError]. *)
Fixpoint mockCoerceDate (stack : nat) : Completion JsError MockValue :=
  match stack with
  | O => Throws RangeError
  | S frames =>
      match mockCoerceDate frames with
      | Returns v => Returns (addChaining v)
      | Throws err => Throws err
      end
  end.

Fixpoint evalMock (stack : nat) (e : ZExpr) {struct e} : Completion JsError MockValue :=
  match e with
  | EString => Returns (addChaining (bare ZodString))
  | ENumber => Returns (addChaining (bare ZodNumber))
  | EBoolean => Returns (addChaining (bare ZodBoolean))
  | EDate => Returns (addChaining (bare ZodDate))
  | ECoerceDate => mockCoerceDate stack
  | EArray item =>
      match evalMock stack item with
      | Returns v => Returns (addChaining (bare (ZodArray (def v))))
      | Throws err => Throws err
      end
  | EObject shape =>
      let fix evalShape (l : list (string * ZExpr))
          : Completion JsError (list (string * ZodDef)) :=
        match l with
        | [] => Returns []
        | (k, e') :: rest =>
            match evalMock stack e' with
            | Throws err => Throws err
            | Returns v =>
                match evalShape rest with
                | Throws err => Throws err
                | Returns vs => Returns ((k, def v) :: vs)
                end
            end
        end in
      match evalShape shape with
      | Returns s => Returns (addChaining (bare (ZodObject s)))
      | Throws err => Throws err
      end
  | EOptional e' =>
      match evalMock stack e' with
      | Returns v =>
          if chainable v then Returns (bare (ZodOptional (def v)))
          else Throws TypeError
      | Throws err => Throws err
      end
  | EDefault e' value =>
      match evalMock stack e' with
      | Returns v =>
          if chainable v then Returns (bare (ZodDefault value (def v)))
          else Throws TypeError
      | Throws err => Throws err
      end
  end.

(** The members of an object literal, evaluated in order. *)
Fixpoint evalMembers (stack : nat) (l : list (string * ZExpr))
    : Completion JsError (list (string * ZodDef)) :=
  match l with
  | [] => Returns []
  | (k, e) :: rest =>
      match evalMock stack e with
      | Throws err => Throws err
      | Returns v =>
          match evalMembers stack rest with
          | Throws err => Throws err
          | Returns vs => Returns ((k, def v) :: vs)
          end
      end
  end.

(** [extractAndExecuteZodSchema], from the isolated expression on. *)
Definition extractAndExecuteZodSchema (stack : nat) (schemaDefinition : ZExpr)
    : Completion JsError MockValue :=
  evalMock stack schemaDefinition.

Definition isZodFieldOptional (fieldDef : ZodDef) : bool :=
  match fieldDef with
  | ZodOptional _ => true
  | ZodDefault _ _ => true
  | _ => false
  end.

(** [shape.k], truthy when the member is there. *)
Definition shapeHas {A : Type} (k : string) (shape : list (string * A)) : bool :=
  existsb (fun m => String.eqb (fst m) k) shape.

Definition getZodFieldType (fieldDef : ZodDef) : SchemaFieldType * JsValue :=
  let baseDef := match fieldDef with ZodOptional inner => inner | d => d end in
  let '(defaultValue, baseDef) :=
    match baseDef with
    | ZodDefault value inner => (value, inner)
    | d => (VUndefined, d)
    end in
  let baseDef := match baseDef with ZodEffects schema => schema | d => d end in
  match baseDef with
  | ZodString => (TString, defaultValue)
  | ZodNumber => (TNumber, defaultValue)
  | ZodBoolean => (TBoolean, defaultValue)
  | ZodDate => (TDate, defaultValue)
  | ZodArray _ => (TArray, defaultValue)
  | ZodObject shape =>
      if shapeHas "src" shape && shapeHas "alt" shape then (TImage, defaultValue)
      else (TObject, defaultValue)
  | _ => (TUnknown, defaultValue)
  end.

(** The [try] around the body has nothing to catch on a schema object. *)
Definition parseZodFieldDefinition (fieldName : string) (fieldDef : ZodDef) : SchemaField :=
  let isOptional := isZodFieldOptional fieldDef in
  let '(ty, dv) := getZodFieldType fieldDef in
  {| name := fieldName; type := ty; required := negb isOptional; defaultValue := dv |}.

Definition extractFieldsFromZodShape (shape : list (string * ZodDef)) : list SchemaField :=
  map (fun m => parseZodFieldDefinition (fst m) (snd m)) shape.

Definition analysisOf (fs : list SchemaField) : SchemaAnalysis :=
  {| fields := fs;
     requiredFields := filter (fun f => required f) fs;
     optionalFields := filter (fun f => negb (required f)) fs;
     imageFields := filter (fun f => fieldTypeEqb (type f) TImage) fs;
     success := true |}.

Definition failedAnalysis : SchemaAnalysis :=
  {| fields := []; requiredFields := []; optionalFields := []; imageFields := [];
     success := false |}.

Definition analyzeSchemaFromConfig (stack : nat) (schemaDefinition : ZExpr) : SchemaAnalysis :=
  match extractAndExecuteZodSchema stack schemaDefinition with
  | Throws _ => failedAnalysis
  | Returns zodSchema =>
      match def zodSchema with
      | ZodObject shape => analysisOf (extractFieldsFromZodShape shape)
      | _ => failedAnalysis
      end
  end.

(** *** The text fallback *)

Fixpoint spanWord (s : string) : string * string :=
  match s with
  | EmptyString => (EmptyString, EmptyString)
  | String c r =>
      if isWordChar c then let '(w, rest) := spanWord r in (String c w, rest)
      else (EmptyString, s)
  end.

(** [\s*(.+)$] from the character after the colon: the white space is taken
    greedily and given back only when nothing is left for the group. *)
Fixpoint matchBody (s : string) : option string :=
  match s with
  | EmptyString => None
  | String c r =>
      if isSpace c then
        match matchBody r with
        | Some body => Some body
        | None => if noLineTerminator s then Some s else None
        end
      else if noLineTerminator s then Some s else None
  end.

(** [cleanLine.match(/^(\w+):\s*(.+)$/)]: the two groups. *)
Definition matchFieldLine (cleanLine : string) : option (string * string) :=
  match spanWord cleanLine with
  | (EmptyString, _) => None
  | (fieldName, String ":" rest) =>
      match matchBody rest with
      | Some fieldDefinition => Some (fieldName, fieldDefinition)
      | None => None
      end
  | _ => None
  end.

(** The characters before the first closing parenthesis, if there is one. *)
Fixpoint untilClose (s : string) : option string :=
  match s with
  | EmptyString => None
  | String c r =>
      if Ascii.eqb c ")" then Some EmptyString
      else match untilClose r with
           | Some arg => Some (String c arg)
           | None => None
           end
  end.

Fixpoint afterClose (s : string) : option string :=
  match s with
  | EmptyString => None
  | String c r => if Ascii.eqb c ")" then Some r else afterClose r
  end.

(** [definition.match(/\.default\(([^)]+)\)/)]: the group. *)
Fixpoint matchDefault (s : string) : option string :=
  match s with
  | EmptyString => None
  | String _ r =>
      if startsWith ".default(" s then
        match untilClose (drop 9 s) with
        | Some EmptyString => matchDefault r
        | Some arg => Some arg
        | None => None
        end
      else matchDefault r
  end.

(** [s.replace(/\.default\([^)]*\)/, '')] *)
Fixpoint removeDefault (s : string) : string :=
  if startsWith ".default(" s then
    match afterClose (drop 9 s) with
    | Some rest => rest
    | None => s
    end
  else match s with
       | EmptyString => EmptyString
       | String c r => String c (removeDefault r)
       end.

(** [/^\[.*\]$/.test(s)] *)
Definition looksLikeArray (s : string) : bool :=
  match s with
  | String "[" r => endsWithChar "]" r && noLineTerminator r
  | _ => false
  end.

Section TextFallback.

(** [JSON.parse]: the value, or [None] when it throws. *)
Variable JSON_parse : string -> option JsValue.

Definition parseDefaultLiteral (defaultStr : string) : JsValue :=
  if String.eqb defaultStr "true" || String.eqb defaultStr "false" then
    VBool (String.eqb defaultStr "true")
  else if negb (String.eqb defaultStr "") && allDigits defaultStr then
    VNum (PatternDetection.ofNat (parseInt defaultStr))
  else if looksLikeArray defaultStr then
    match JSON_parse defaultStr with
    | Some v => v
    | None => VStr defaultStr
    end
  else if startsWith (String quoteChar EmptyString) defaultStr
          && endsWithChar quoteChar defaultStr then
    VStr (dropLast (drop 1 defaultStr))
  else VUndefined.

Definition parseFieldType (definition : string) : SchemaFieldType * JsValue :=
  let baseDefinition := removeDefault (replaceFirst ".optional()" "" definition) in
  let defaultValue :=
    match matchDefault definition with
    | Some defaultStr => parseDefaultLiteral defaultStr
    | None => VUndefined
    end in
  if strIncludes "z.string()" baseDefinition then (TString, defaultValue)
  else if strIncludes "z.number()" baseDefinition then (TNumber, defaultValue)
  else if strIncludes "z.boolean()" baseDefinition then (TBoolean, defaultValue)
  else if strIncludes "z.date()" baseDefinition
          || strIncludes "z.coerce.date()" baseDefinition then (TDate, defaultValue)
  else if strIncludes "z.array(" baseDefinition then (TArray, defaultValue)
  else if strIncludes "image()" baseDefinition then (TImage, defaultValue)
  else if strIncludes "z.object(" baseDefinition then
    if strIncludes "src:" baseDefinition && strIncludes "alt:" baseDefinition
    then (TImage, defaultValue)
    else (TObject, defaultValue)
  else (TUnknown, defaultValue).

Definition parseSchemaField (fieldLine : string) : option SchemaField :=
  let cleanLine :=
    trim (if endsWithChar "," fieldLine then dropLast fieldLine else fieldLine) in
  match matchFieldLine cleanLine with
  | None => None
  | Some (fieldName, fieldDefinition) =>
      let isOptional := strIncludes ".optional()" fieldDefinition in
      let '(ty, dv) := parseFieldType fieldDefinition in
      Some {| name := fieldName; type := ty; required := negb isOptional;
              defaultValue := dv |}
  end.

End TextFallback.

End SchemaIntrospection.

(** ** astro-schema-analyzer.ts *)

Module AstroSchemaAnalyzer.
Import SchemaIntrospection.

(** A JSON-Schema node, with the keys the analyzer reads.  [jdefault] is
    [VUndefined] when the key is absent. *)
Inductive JsonSchema : Type := mkJson {
  ref : option string;
  definitions : option (list (string * JsonSchema));
  jtype : option string;
  format : option string;
  properties : option (list (string * JsonSchema));
  jrequired : option (list string);
  items : option JsonSchema;
  anyOf : option (list JsonSchema);
  jnot : option JsonSchema;
  jdefault : JsValue
}.

Definition emptySchema : JsonSchema :=
  mkJson None None None None None None None None None VUndefined.

Definition typed (t : string) : JsonSchema :=
  mkJson None None (Some t) None None None None None None VUndefined.

(** [itemsType] is the [items] of an array field; [description] is left
    out. *)
Record AstroCollectionField : Type := mkAstroField {
  name : string;
  type : SchemaFieldType;
  required : bool;
  defaultValue : JsValue;
  itemsType : option SchemaFieldType
}.

(** The collection's [type] (content or data) is left out. *)
Record AstroCollection : Type := mkCollection {
  collectionName : string;
  fields : list AstroCollectionField;
  requiredFields : list AstroCollectionField;
  optionalFields : list AstroCollectionField;
  imageFields : list AstroCollectionField;
  defaultDir : string
}.

(** [schema.properties.k], truthy when the property is there. *)
Definition hasProperty (k : string) (schema : JsonSchema) : bool :=
  match properties schema with
  | Some props => shapeHas k props
  | None => false
  end.

Definition mapJsonSchemaType (schema : JsonSchema) : SchemaFieldType :=
  match jtype schema with
  | None => TUnknown
  | Some t =>
      if String.eqb t "string" then
        if match format schema with
           | Some f => String.eqb f "date" || String.eqb f "date-time"
           | None => false
           end then TDate
        else if hasProperty "src" schema || hasProperty "url" schema then TImage
        else TString
      else if String.eqb t "number" || String.eqb t "integer" then TNumber
      else if String.eqb t "boolean" then TBoolean
      else if String.eqb t "array" then TArray
      else if String.eqb t "object" then
        if hasProperty "src" schema && hasProperty "alt" schema then TImage
        else TObject
      else TUnknown
  end.

Definition parseJsonSchemaField (fieldName : string) (schema : JsonSchema)
    (isRequired : bool) : AstroCollectionField :=
  let ty := mapJsonSchemaType schema in
  {| name := fieldName;
     type := ty;
     required := isRequired;
     defaultValue := jdefault schema;
     itemsType :=
       if fieldTypeEqb ty TArray then
         match items schema with
         | Some it => Some (mapJsonSchemaType it)
         | None => None
         end
       else None |}.

Definition lookupSchema (k : string) (l : list (string * JsonSchema)) : option JsonSchema :=
  match find (fun e => String.eqb (fst e) k) l with
  | Some e => Some (snd e)
  | None => None
  end.

Definition extractFieldsFromJsonSchema (jsonSchema : JsonSchema) : list AstroCollectionField :=
  let schema :=
    match ref jsonSchema, definitions jsonSchema with
    | Some r, Some defs =>
        if String.eqb r "" then Some jsonSchema
        else lookupSchema (Text.replaceFirst "#/definitions/" "" r) defs
    | _, _ => Some jsonSchema
    end in
  match schema with
  | None => []
  | Some schema =>
      match properties schema with
      | None => []
      | Some props =>
          let required := match jrequired schema with Some l => l | None => [] end in
          map (fun p => parseJsonSchemaField (fst p) (snd p) (includesStr (fst p) required))
              props
      end
  end.

(** *** The two dependencies

    [zod] and [zod-to-json-schema] are libraries the analyzer calls; they
    are not part of the repository.  What follows states their behaviour on
    the schema expressions above, as the analyzer's tests exercise it. *)

(** [schema.isOptional()]: does the schema accept [undefined]? *)
Definition zodIsOptional (e : ZExpr) : bool :=
  match e with
  | EOptional _ => true
  | EDefault _ _ => true
  | _ => false
  end.

(** [parseDef]: [atProperty] holds while the node is the schema of an object
    property, where an optional wrapper is dropped; elsewhere it becomes
    [anyOf [{not: {}}, inner]]. *)
Fixpoint zodToJson (atProperty : bool) (e : ZExpr) {struct e} : JsonSchema :=
  match e with
  | EString => typed "string"
  | ENumber => typed "number"
  | EBoolean => typed "boolean"
  | EDate | ECoerceDate =>
      mkJson None None (Some "string") (Some "date-time") None None None None None VUndefined
  | EArray item =>
      mkJson None None (Some "array") None None None (Some (zodToJson false item))
             None None VUndefined
  | EObject shape =>
      let props := map (fun m => (fst m, zodToJson true (snd m))) shape in
      let required :=
        map fst (filter (fun m => negb (zodIsOptional (snd m))) shape) in
      mkJson None None (Some "object") None (Some props)
             (match required with [] => None | _ => Some required end)
             None None None VUndefined
  | EOptional inner =>
      if atProperty then zodToJson true inner
      else
        mkJson None None None None None None None
               (Some [mkJson None None None None None None None None (Some emptySchema)
                             VUndefined;
                      zodToJson false inner])
               None VUndefined
  | EDefault inner value =>
      let s := zodToJson atProperty inner in
      mkJson (ref s) (definitions s) (jtype s) (format s) (properties s) (jrequired s)
             (items s) (anyOf s) (jnot s) value
  end.

(** [zodToJsonSchema(schema, { name })]: the schema goes under
    [definitions] and the root refers to it. *)
Definition zodToJsonSchema (schema : ZExpr) (schemaName : string) : JsonSchema :=
  mkJson (Some ("#/definitions/" ++ schemaName)%string)
         (Some [(schemaName, zodToJson false schema)])
         None None None None None None None VUndefined.

(** [parseCollectionDefinitionFromAST], from the schema expression on. *)
Definition parseCollection (collection : string) (schema : ZExpr) : AstroCollection :=
  let jsonSchema := zodToJsonSchema schema (collection ++ "Collection")%string in
  let fs := extractFieldsFromJsonSchema jsonSchema in
  {| collectionName := collection;
     fields := fs;
     requiredFields := filter (fun f => required f) fs;
     optionalFields := filter (fun f => negb (required f)) fs;
     imageFields := filter (fun f => fieldTypeEqb (type f) TImage) fs;
     defaultDir := ("src/content/" ++ collection)%string |}.

End AstroSchemaAnalyzer.

(** ** index.ts: which template seeds a new post *)

Module Index.
Import PatternDetection.

(** The part of [FrameworkInfo] the choice reads. *)
Record FrameworkInfo : Type := mkFramework {
  frameworkName : string;
  frameworkConfidence : Q
}.

(** [schemaAnalysis] is typed [SchemaAnalysis], and read as [any]:
    [analysisFields] is [None] when the object has no [fields]. *)
Record SchemaAnalysisView : Type := mkView {
  analysisSuccess : bool;
  analysisFields : option (list SchemaIntrospection.SchemaField)
}.

Record FrameworkDetectionResult : Type := mkFrameworkDetection {
  primary : option FrameworkInfo;
  frameworkTemplate : option Obj;
  schemaAnalysis : option SchemaAnalysisView
}.

(** A number in a condition: true unless it is zero. *)
Definition truthy (q : Q) : bool := negb (Qeq_bool q 0).

Definition lessThan (x y : Q) : bool := negb (Qle_bool y x).

Definition conflictsWith (schemaFields : list SchemaIntrospection.SchemaField)
    (entry : string * JsValue) : bool :=
  match find (fun f => String.eqb (SchemaIntrospection.name f) (fst entry)) schemaFields with
  | None => false
  | Some schemaField =>
      (SchemaIntrospection.fieldTypeEqb (SchemaIntrospection.type schemaField)
                                        SchemaIntrospection.TImage
       && negb (SchemaIntrospection.required schemaField)
       && isEmptyObject (snd entry))
      ||
      (SchemaIntrospection.fieldTypeEqb (SchemaIntrospection.type schemaField)
                                        SchemaIntrospection.TObject
       && negb (SchemaIntrospection.required schemaField)
       && isEmptyObject (snd entry))
  end.

Definition detectSchemaConflicts (patternTemplate : Obj) (analysis : SchemaAnalysisView) : bool :=
  match analysisFields analysis with
  | None => false
  | Some schemaFields => existsb (conflictsWith schemaFields) patternTemplate
  end.

Definition shouldPreferFrameworkOverPattern (patternDetection : DetectionResult)
    (frameworkDetection : FrameworkDetectionResult) : bool :=
  match primary frameworkDetection with
  | None => false
  | Some framework =>
      match success patternDetection, suggestedTemplate patternDetection with
      | true, Some template =>
          if match schemaAnalysis frameworkDetection with
             | Some analysis =>
                 analysisSuccess analysis && detectSchemaConflicts template analysis
             | None => false
             end
          then true
          else
            match pattern patternDetection with
            | Some p =>
                truthy (confidence p) && truthy (frameworkConfidence framework)
                && lessThan (confidence p) 0.7
                && lessThan 0.8 (frameworkConfidence framework)
            | None => false
            end
      | _, _ => true
      end
  end.

Inductive TemplateSource : Type :=
| FromPattern
| FromFramework
| FromDefault.

(** The branch [createPost] takes once both detections are in. *)
Definition selectTemplateSource (detection : DetectionResult)
    (frameworkDetection : FrameworkDetectionResult) : TemplateSource :=
  let useFrameworkInstead := shouldPreferFrameworkOverPattern detection frameworkDetection in
  match success detection, suggestedTemplate detection with
  | true, Some _ =>
      if negb useFrameworkInstead then FromPattern
      else match primary frameworkDetection, frameworkTemplate frameworkDetection with
           | Some _, Some _ => FromFramework
           | _, _ => FromDefault
           end
  | _, _ =>
      match primary frameworkDetection, frameworkTemplate frameworkDetection with
      | Some _, Some _ => FromFramework
      | _, _ => FromDefault
      end
  end.

End Index.

(** ** The properties, in the words of the specification *)

Module Spec.
Import PatternDetection SchemaIntrospection.

(** In how many samples the field occurs. *)
Definition occurrences (field : string) (samples : list Obj) : nat :=
  List.length (filter (hasKey field) samples).

(** The share of the samples in which the field occurs. *)
Definition sampleFrequency (field : string) (samples : list Obj) : Q :=
  ofNat (occurrences field samples) / ofNat (List.length samples).

(** How many of the entries carry the key. *)
Definition entryCount (field : string) (entries : list (string * JsValue)) : nat :=
  List.length (filter (fun e => String.eqb (fst e) field) entries).

(** The number the map holds for a field, zero when it has no entry. *)
Definition heldCount (field : string) (m : FieldMap) : Q :=
  match find (fun p => String.eqb (fieldName p) field) m with
  | Some p => frequency p
  | None => 0
  end.

(** Every field name seen in some sample, once. *)
Definition fieldNames (samples : list Obj) : list string :=
  nodup string_dec (List.concat (map keys samples)).



(** A sample is a JavaScript object: each key once. *)
Definition wellFormed (samples : list Obj) : Prop :=
  Forall (fun sample => NoDup (keys sample)) samples.

(** All samples carry the same set of field names. *)
Definition sameFieldSet (samples : list Obj) : Prop :=
  forall s1 s2, In s1 samples -> In s2 samples ->
    forall k, In k (keys s1) <-> In k (keys s2).

(** The declaration carries neither an optional wrapper nor a default. *)
Definition declaredRequired (e : ZExpr) : bool :=
  match e with
  | EOptional _ => false
  | EDefault _ _ => false
  | _ => true
  end.

(** The default a declaration gives the field, [VUndefined] for none. *)
Fixpoint declaredDefault (e : ZExpr) : JsValue :=
  match e with
  | EDefault _ v => v
  | EOptional e' => declaredDefault e'
  | _ => VUndefined
  end.

(** The six declarations of the round-trip schema. *)
Definition roundTripDeclarations : list ZExpr :=
  [EString; ENumber; EBoolean; ECoerceDate;
   EDefault (EArray EString) (VArray []); EDefault EBoolean (VBool false)].

(** Whether the object's members are exactly a source-like key and an
    alt-like key. *)
Definition isSourceKey (k : string) : bool := String.eqb k "src" || String.eqb k "url".

Definition onlySourceAndAlt (memberNames : list string) : bool :=
  match memberNames with
  | [a; b] => (isSourceKey a && String.eqb b "alt") || (String.eqb a "alt" && isSourceKey b)
  | _ => false
  end.

(** The suggested template holds an empty object where a schema that was
    analysed with success has an optional object or image field. *)
Definition emptyObjectConflict (detection : DetectionResult)
    (frameworkDetection : Index.FrameworkDetectionResult) : bool :=
  match suggestedTemplate detection, Index.schemaAnalysis frameworkDetection with
  | Some template, Some analysis =>
      Index.analysisSuccess analysis && Index.detectSchemaConflicts template analysis
  | _, _ => false
  end.

End Spec.

(** ** Sample data, after the repository's tests *)

Module Examples.
Import PatternDetection SchemaIntrospection.

Definition now : JsDate := mkDate 2025 7 20 10 0 0 0.

(** "should handle mixed patterns and find common fields" *)
Definition mixedPosts : list Obj :=
  [ [("title", VStr "Post 1"); ("date", VStr "2025-01-01"); ("author", VStr "John");
     ("tags", VArray [VStr "tech"])];
    [("title", VStr "Post 2"); ("date", VStr "2025-01-02"); ("category", VStr "tech")];
    [("title", VStr "Post 3"); ("date", VStr "2025-01-03"); ("author", VStr "Bob");
     ("description", VStr "A post")] ].

(** "should have higher confidence with more consistent data" *)
Definition consistentPost (n : string) (author : string) (tag : string) (draft : bool) : Obj :=
  [("title", VStr ("Post " ++ n)); ("date", VStr ("2025-01-0" ++ n));
   ("author", VStr author); ("tags", VArray [VStr tag]); ("draft", VBool draft)].

Definition consistentPosts : list Obj :=
  [consistentPost "1" "John" "tech" false; consistentPost "2" "Jane" "web" true;
   consistentPost "3" "Bob" "js" false; consistentPost "4" "Alice" "css" true;
   consistentPost "5" "Charlie" "html" false].

(** "should handle malformed markdown files gracefully": the codec reads
    the valid file and throws on the other. *)
Definition validPost : Obj := [("title", VStr "Valid Post"); ("date", VStr "2025-01-01")].

Definition matter (content : string) : Completion string Obj :=
  if String.eqb content "valid" then Returns validPost else Throws "YAMLException".

Definition disk : FileSystem :=
  fun path =>
    if String.eqb path "pattern-test-output" then
      Directory [("malformed.md", RegularFile "unclosed"); ("valid.md", RegularFile "valid")]
    else if String.eqb path "README.md" then NotADirectory
    else Missing.

(** The fields of the round-trip schema, under names of the test schema. *)
Definition roundTripSchema : ZExpr :=
  EObject [("title", EString); ("priority", ENumber); ("featured", EBoolean);
           ("date", ECoerceDate);
           ("tags", EDefault (EArray EString) (VArray []));
           ("draft", EDefault EBoolean (VBool false))].

(** The same schema with [z.date()] in place of [z.coerce.date()]. *)
Definition plainDateSchema : ZExpr :=
  EObject [("title", EString); ("priority", ENumber); ("featured", EBoolean);
           ("date", EDate);
           ("tags", EDefault (EArray EString) (VArray []));
           ("draft", EDefault EBoolean (VBool false))].

(** An image object with a caption, and one that names its source [url]. *)
Definition captionedImage : list (string * ZExpr) :=
  [("src", EString); ("alt", EString); ("caption", EString)].

Definition urlImage : list (string * ZExpr) :=
  [("url", EString); ("alt", EString)].

(** A [JSON.parse] that knows the one text the examples hand it. *)
Definition parseEmptyArray (text : string) : option JsValue :=
  if String.eqb text "[]" then Some (VArray []) else None.

(** An Astro project found with confidence 0.9, with a template. *)
Definition astro : Index.FrameworkDetectionResult :=
  {| Index.primary := Some {| Index.frameworkName := "Astro"; Index.frameworkConfidence := 0.9 |};
     Index.frameworkTemplate := Some [("title", VStr "")];
     Index.schemaAnalysis := None |}.

End Examples.

(** ** Reading an object *)

Module Objects.

(** [o[k]], [None] when the object has no such key. *)
Definition getKey (k : string) (o : Obj) : option JsValue :=
  match find (fun e => String.eqb (fst e) k) o with
  | Some e => Some (snd e)
  | None => None
  end.

(** [o[k]]: [undefined] when the key is absent.  Keys are taken not to be
    names of members every object inherits. *)
Definition lookup (k : string) (o : Obj) : JsValue :=
  match getKey k o with
  | Some v => v
  | None => VUndefined
  end.

(** [v.k] for a name no built-in object defines: a member of a plain
    object, [undefined] on anything else. *)
Definition getProp (k : string) (v : JsValue) : JsValue :=
  match v with
  | VObject members => lookup k members
  | _ => VUndefined
  end.

(** A value in a condition. *)
Definition truthyValue (v : JsValue) : bool :=
  match v with
  | VUndefined => false
  | VNull => false
  | VBool b => b
  | VNum q => negb (Qeq_bool q 0)
  | VStr s => negb (String.eqb s "")
  | VDate _ => true
  | VArray _ => true
  | VObject _ => true
  end.

Definition isUndefined (v : JsValue) : bool :=
  match v with VUndefined => true | _ => false end.

Definition isNull (v : JsValue) : bool :=
  match v with VNull => true | _ => false end.

(** [v === ''] *)
Definition isEmptyString (v : JsValue) : bool :=
  match v with VStr s => String.eqb s "" | _ => false end.

(** [s.length] of a string value. *)
Definition jsLength (v : JsValue) : nat :=
  match v with VStr s => String.length s | _ => O end.

(** The text between double quotes. *)
Definition quoted (s : string) : string :=
  String Text.quoteChar (s ++ String Text.quoteChar EmptyString).

End Objects.

(** ** pattern-detection.ts: validating a template against a pattern *)

Module PatternValidation.
Import PatternDetection.





End PatternValidation.

(** ** schema-introspection.ts: validation and templates *)

Module SchemaService.
Import Objects SchemaIntrospection.

Record SchemaValidationResult : Type := mkValidation {
  isValid : bool;
  missingRequiredFields : list string;
  invalidFields : list string;
  warnings : list string
}.

(** The field type as the string it is in the source. *)
Definition typeName (t : SchemaFieldType) : string :=
  match t with
  | TString => "string"
  | TNumber => "number"
  | TBoolean => "boolean"
  | TDate => "date"
  | TArray => "array"
  | TObject => "object"
  | TImage => "image"
  | TUnknown => "unknown"
  end.

Definition validateFieldType (value : JsValue) (field : SchemaField) : bool :=
  match type field with
  | TString => String.eqb (typeof value) "string"
  | TNumber => String.eqb (typeof value) "number"
  | TBoolean => String.eqb (typeof value) "boolean"
  | TDate => instanceofDate value || String.eqb (typeof value) "string"
  | TArray => isArray value
  | TObject | TImage => String.eqb (typeof value) "object" && negb (isNull value)
  | TUnknown => true
  end.

Record ImageCheck : Type := mkImageCheck {
  imageValid : bool;
  imageMessage : string
}.

Definition validateImageField (value : JsValue) : ImageCheck :=
  if String.eqb (typeof value) "string" then
    {| imageValid := (0 <? jsLength value)%nat;
       imageMessage := if (jsLength value =? 0)%nat then "Image path cannot be empty"
                       else "Image path looks valid" |}
  else if String.eqb (typeof value) "object" && negb (isNull value) then
    if negb (truthyValue (getProp "src" value)) then
      {| imageValid := false;
         imageMessage :=
           ("Image object missing required " ++ quoted "src" ++ " property")%string |}
    else if negb (truthyValue (getProp "alt" value)) then
      {| imageValid := false;
         imageMessage :=
           ("Image object missing required " ++ quoted "alt" ++ " property")%string |}
    else {| imageValid := true; imageMessage := "Image object structure is valid" |}
  else
    {| imageValid := false;
       imageMessage := "Image field must be a string path or object with src/alt" |}.

(** The first loop: is the required field reported missing? *)
Definition isMissing (frontmatter : Obj) (field : SchemaField) : bool :=
  negb (hasKey (name field) frontmatter)
  || isUndefined (lookup (name field) frontmatter)
  || isEmptyString (lookup (name field) frontmatter).

(** The second loop, for one field: what it pushes to [invalidFields] and
    to [warnings]. *)
Definition invalidEntry (frontmatter : Obj) (field : SchemaField) : list string :=
  let value := lookup (name field) frontmatter in
  if negb (isUndefined value) && negb (isEmptyString value)
     && negb (validateFieldType value field)
  then [(name field ++ ": expected " ++ typeName (type field) ++ ", got "
         ++ typeof value)%string]
  else [].

Definition imageWarning (frontmatter : Obj) (field : SchemaField) : list string :=
  let value := lookup (name field) frontmatter in
  if fieldTypeEqb (type field) TImage && truthyValue value
     && negb (imageValid (validateImageField value))
  then [(name field ++ ": " ++ imageMessage (validateImageField value))%string]
  else [].

Definition validateFrontmatter (frontmatter : Obj) (analysis : SchemaAnalysis)
    : SchemaValidationResult :=
  let missingRequiredFields :=
    map name (filter (isMissing frontmatter) (requiredFields analysis)) in
  let invalidFields := flat_map (invalidEntry frontmatter) (fields analysis) in
  let warnings := flat_map (imageWarning frontmatter) (fields analysis) in
  {| isValid := (List.length missingRequiredFields =? 0)%nat
                && (List.length invalidFields =? 0)%nat;
     missingRequiredFields := missingRequiredFields;
     invalidFields := invalidFields;
     warnings := warnings |}.

(** [now] is the instant [new Date()] yields. *)
Definition getPlaceholderValue (now : JsDate) (field : SchemaField) : JsValue :=
  match type field with
  | TString => VStr ""
  | TNumber => VNum 0
  | TBoolean => VBool false
  | TDate => VDate now
  | TArray => VArray []
  | TImage => VObject [("src", VStr ""); ("alt", VStr "")]
  | TObject => VObject []
  | TUnknown => VStr ""
  end.

Definition addSchemaField (now : JsDate) (template : Obj) (field : SchemaField) : Obj :=
  if negb (hasKey (name field) template) then
    if isDefined (defaultValue field) then setKey (name field) (defaultValue field) template
    else if negb (required field) then template
    else setKey (name field) (getPlaceholderValue now field) template
  else template.

Definition generateTemplate (now : JsDate) (analysis : SchemaAnalysis)
    (providedFields : Obj) : Obj :=
  fold_left (addSchemaField now) (fields analysis) providedFields.

End SchemaService.

(** ** astro-schema-analyzer.ts: templates and the analysis of a project *)

Module AstroTemplates.
Import Objects SchemaIntrospection AstroSchemaAnalyzer.

Definition mentionsImage (fieldName : string) : bool :=
  Text.strIncludes "image" (PatternDetection.toLowerCase fieldName)
  || Text.strIncludes "cover" (PatternDetection.toLowerCase fieldName).

Definition getPlaceholderValue (now : JsDate) (field : AstroCollectionField) : JsValue :=
  match type field with
  | TString => VStr ""
  | TNumber => VNum 0
  | TBoolean => VBool false
  | TDate => VDate now
  | TArray => VArray []
  | TImage => VObject [("src", VStr ""); ("alt", VStr "")]
  | TObject =>
      if mentionsImage (name field) then VObject [("src", VStr ""); ("alt", VStr "")]
      else VObject []
  | TUnknown => VStr ""
  end.

Definition addCollectionField (now : JsDate) (template : Obj) (field : AstroCollectionField)
    : Obj :=
  if negb (required field) && negb (isDefined (defaultValue field)) then template
  else if isDefined (defaultValue field) then
    setKey (name field) (defaultValue field) template
  else if required field then setKey (name field) (getPlaceholderValue now field) template
  else template.

Definition generateTemplate (now : JsDate) (collection : AstroCollection) : Obj :=
  fold_left (addCollectionField now) (fields collection) [].

(** The [message] is left out. *)
Record AstroSchemaAnalysis : Type := mkAstroAnalysis {
  collections : list AstroCollection;
  success : bool
}.

Definition noCollections : AstroSchemaAnalysis :=
  {| collections := []; success := false |}.

(** [configExists] : is there a [src/content/config.ts]?  [dependsOnAstro] :
    does [package.json] parse and list [astro]?  [parsed] : what reading the
    configuration and [parseConfigFromSource] come to. *)
Definition analyzeConfig (configExists dependsOnAstro : bool)
    (parsed : Completion string (list AstroCollection)) : AstroSchemaAnalysis :=
  if negb configExists then noCollections
  else if negb dependsOnAstro then noCollections
  else match parsed with
       | Returns collections => {| collections := collections; success := true |}
       | Throws _ => noCollections
       end.

End AstroTemplates.

(** ** framework-detection.ts *)

Module FrameworkDetection.
Import Objects AstroSchemaAnalyzer.

(** [setupDocs] is left out. *)
Record ContentConfig : Type := mkConfig {
  defaultDir : string;
  frontmatterTemplate : Obj;
  dateField : string;
  draftField : option string;
  publishedField : option string
}.

(** [version] is left out. *)
Record FrameworkInfo : Type := mkInfo {
  name : string;
  confidence : Q;
  detectedBy : list string;
  contentConfig : option ContentConfig
}.

Record FrameworkDetectionResult : Type := mkResult {
  frameworks : list FrameworkInfo;
  primary : option FrameworkInfo;
  contentDir : string;
  suggestedTemplate : option Obj;
  schemaAnalysis : option AstroTemplates.AstroSchemaAnalysis;
  astroCollections : option (list AstroCollection)
}.

Record AstroDetection : Type := mkAstroDetection {
  framework : option FrameworkInfo;
  astroSchemaAnalysis : option AstroTemplates.AstroSchemaAnalysis;
  astroResultCollections : option (list AstroCollection)
}.

(** [frameworks.sort((a, b) => b.confidence - a.confidence)]: the sort is
    stable, so of two frameworks with the same confidence the one pushed
    first stays first. *)
Fixpoint insertByConfidence (x : FrameworkInfo) (sorted : list FrameworkInfo)
    : list FrameworkInfo :=
  match sorted with
  | [] => [x]
  | y :: rest =>
      if Qle_bool (confidence y) (confidence x) then x :: y :: rest
      else y :: insertByConfidence x rest
  end.

Fixpoint sortByConfidence (l : list FrameworkInfo) : list FrameworkInfo :=
  match l with
  | [] => []
  | x :: rest => insertByConfidence x (sortByConfidence rest)
  end.

(** The first name of the list that is there, as the loops with [break]
    find it. *)
Definition firstPresent (present : string -> bool) (names : list string) : option string :=
  find present names.

Definition indicator (found : option string) : list string :=
  match found with Some config => [config] | None => [] end.

Definition gain (b : bool) (amount : Q) : Q := if b then amount else 0.

Definition isSome {A : Type} (o : option A) : bool :=
  match o with Some _ => true | None => false end.

Section Project.

(** [present name] : [existsSync(join(projectRoot, name))]. *)
Variable present : string -> bool.

(** [dependsOn name] : [package.json] is there, parses, and lists [name]
    with a truthy version among its dependencies or devDependencies. *)
Variable dependsOn : string -> bool.

(** What reading [src/content/config.ts] and [parseConfigFromSource] come
    to. *)
Variable parsedConfig : Completion string (list AstroCollection).

(** The instant [new Date()] yields. *)
Variable now : JsDate.

Definition today : JsValue :=
  VStr (PatternDetection.splitHead "T" (PatternDetection.toISOString now)).

Definition detectAstroWithCollections : AstroDetection :=
  let config := firstPresent present ["astro.config.mjs"; "astro.config.ts"; "astro.config.js"] in
  let confidence :=
    0 + gain (isSome config) 0.4 + gain (dependsOn "astro") 0.4
    + gain (present "src/content") 0.2 in
  let indicators :=
    indicator config
    ++ (if dependsOn "astro" then ["package.json:astro"] else [])
    ++ (if present "src/content" then ["src/content/"] else []) in
  if Qeq_bool confidence 0 then
    {| framework := None; astroSchemaAnalysis := None; astroResultCollections := None |}
  else
    let astroAnalysis :=
      AstroTemplates.analyzeConfig (present "src/content/config.ts") (dependsOn "astro")
                                   parsedConfig in
    let defaultTemplate : Obj :=
      [("title", VStr ""); ("description", VStr ""); ("publishedAt", VDate now);
       ("updatedAt", VDate now); ("tags", VArray []); ("draft", VBool false)] in
    let '(template, dir, collections, confidence) :=
      match AstroTemplates.success astroAnalysis, AstroTemplates.collections astroAnalysis with
      | true, firstCollection :: others =>
          (AstroTemplates.generateTemplate now firstCollection,
           AstroSchemaAnalyzer.defaultDir firstCollection,
           firstCollection :: others,
           confidence + 0.3)
      | _, _ => (defaultTemplate, "src/content/blog", [], confidence)
      end in
    {| framework :=
         Some {| name := "Astro";
                 confidence := Qmin confidence 1.0;
                 detectedBy := indicators;
                 contentConfig :=
                   Some {| defaultDir := dir;
                           frontmatterTemplate := template;
                           dateField := "publishedAt";
                           draftField := Some "draft";
                           publishedField := None |} |};
       astroSchemaAnalysis :=
         if AstroTemplates.success astroAnalysis then Some astroAnalysis else None;
       astroResultCollections := Some collections |}.

Definition detectHugo : option FrameworkInfo :=
  let config :=
    firstPresent present
      ["hugo.toml"; "hugo.yaml"; "hugo.json"; "config.toml"; "config.yaml"; "config.json"] in
  let confidence :=
    0 + gain (isSome config) 0.5 + gain (present "content") 0.3
    + gain (present "themes") 0.2 in
  let indicators :=
    indicator config
    ++ (if present "content" then ["content/"] else [])
    ++ (if present "themes" then ["themes/"] else []) in
  if Qeq_bool confidence 0 then None
  else
    Some {| name := "Hugo";
            confidence := Qmin confidence 1.0;
            detectedBy := indicators;
            contentConfig :=
              Some {| defaultDir := "content/posts";
                      frontmatterTemplate :=
                        [("title", VStr ""); ("publishDate", today); ("lastmod", today);
                         ("description", VStr ""); ("categories", VArray []);
                         ("tags", VArray []); ("draft", VBool false)];
                      dateField := "publishDate";
                      draftField := Some "draft";
                      publishedField := None |} |}.

Definition detectJekyll : option FrameworkInfo :=
  let confidence :=
    0 + gain (present "_config.yml") 0.5 + gain (present "_posts") 0.3
    + gain (present "Gemfile") 0.2 in
  let indicators :=
    (if present "_config.yml" then ["_config.yml"] else [])
    ++ (if present "_posts" then ["_posts/"] else [])
    ++ (if present "Gemfile" then ["Gemfile"] else []) in
  if Qeq_bool confidence 0 then None
  else
    Some {| name := "Jekyll";
            confidence := Qmin confidence 1.0;
            detectedBy := indicators;
            contentConfig :=
              Some {| defaultDir := "_posts";
                      frontmatterTemplate :=
                        [("layout", VStr "post"); ("title", VStr ""); ("date", today);
                         ("categories", VArray []); ("tags", VArray []);
                         ("published", VBool true)];
                      dateField := "date";
                      draftField := None;
                      publishedField := Some "published" |} |}.

(** The template Eleventy, Next.js and Gatsby share. *)
Definition datedTemplate : Obj :=
  [("title", VStr ""); ("date", today); ("description", VStr ""); ("tags", VArray []);
   ("draft", VBool false)].

Definition detectEleventy : option FrameworkInfo :=
  let config :=
    firstPresent present [".eleventy.js"; "eleventy.config.js"; ".eleventy.config.js"] in
  let confidence := 0 + gain (isSome config) 0.5 + gain (dependsOn "@11ty/eleventy") 0.4 in
  let indicators :=
    indicator config
    ++ (if dependsOn "@11ty/eleventy" then ["package.json:@11ty/eleventy"] else []) in
  if Qeq_bool confidence 0 then None
  else
    Some {| name := "Eleventy";
            confidence := Qmin confidence 1.0;
            detectedBy := indicators;
            contentConfig :=
              Some {| defaultDir := "src/posts";
                      frontmatterTemplate := datedTemplate;
                      dateField := "date";
                      draftField := Some "draft";
                      publishedField := None |} |}.

Definition detectNextJS : option FrameworkInfo :=
  let config := firstPresent present ["next.config.js"; "next.config.mjs"; "next.config.ts"] in
  let confidence := 0 + gain (isSome config) 0.4 + gain (dependsOn "next") 0.5 in
  let indicators :=
    indicator config ++ (if dependsOn "next" then ["package.json:next"] else []) in
  if Qeq_bool confidence 0 then None
  else
    Some {| name := "Next.js";
            confidence := Qmin confidence 1.0;
            detectedBy := indicators;
            contentConfig :=
              Some {| defaultDir := "posts";
                      frontmatterTemplate := datedTemplate;
                      dateField := "date";
                      draftField := Some "draft";
                      publishedField := None |} |}.

Definition detectGatsby : option FrameworkInfo :=
  let config := firstPresent present ["gatsby-config.js"; "gatsby-config.ts"] in
  let confidence := 0 + gain (isSome config) 0.5 + gain (dependsOn "gatsby") 0.4 in
  let indicators :=
    indicator config ++ (if dependsOn "gatsby" then ["package.json:gatsby"] else []) in
  if Qeq_bool confidence 0 then None
  else
    Some {| name := "Gatsby";
            confidence := Qmin confidence 1.0;
            detectedBy := indicators;
            contentConfig :=
              Some {| defaultDir := "content/blog";
                      frontmatterTemplate := datedTemplate;
                      dateField := "date";
                      draftField := Some "draft";
                      publishedField := None |} |}.

Definition pushed (found : option FrameworkInfo) : list FrameworkInfo :=
  match found with Some info => [info] | None => [] end.

(** The [frameworks] array before it is sorted. *)
Definition detectedFrameworks : list FrameworkInfo :=
  pushed (framework detectAstroWithCollections) ++ pushed detectHugo ++ pushed detectJekyll
  ++ pushed detectEleventy ++ pushed detectNextJS ++ pushed detectGatsby.

Definition detectFramework : FrameworkDetectionResult :=
  let astroResult := detectAstroWithCollections in
  let astroSchemaAnalysis :=
    match framework astroResult with
    | Some _ => astroSchemaAnalysis astroResult
    | None => None
    end in
  let astroCollections :=
    match framework astroResult with
    | Some _ => match astroResultCollections astroResult with Some l => l | None => [] end
    | None => []
    end in
  let frameworks := sortByConfidence detectedFrameworks in
  let primary := hd_error frameworks in
  {| frameworks := frameworks;
     primary := primary;
     contentDir :=
       match primary with
       | Some info =>
           match contentConfig info with
           | Some config => defaultDir config
           | None => "src/content/blog"
           end
       | None => "src/content/blog"
       end;
     suggestedTemplate :=
       match primary with
       | Some info =>
           match contentConfig info with
           | Some config => Some (frontmatterTemplate config)
           | None => None
           end
       | None => None
       end;
     schemaAnalysis :=
       match primary with
       | Some info => if String.eqb (name info) "Astro" then astroSchemaAnalysis else None
       | None => None
       end;
     astroCollections :=
       if (0 <? List.length astroCollections)%nat then Some astroCollections else None |}.

End Project.

(** What [createPost] reads of the result when it chooses between the two
    templates.  An [AstroSchemaAnalysis] has no [fields]. *)
Definition choiceView (r : FrameworkDetectionResult) : Index.FrameworkDetectionResult :=
  {| Index.primary :=
       option_map (fun info => {| Index.frameworkName := name info;
                                  Index.frameworkConfidence := confidence info |})
                  (primary r);
     Index.frameworkTemplate := suggestedTemplate r;
     Index.schemaAnalysis :=
       option_map (fun a => {| Index.analysisSuccess := AstroTemplates.success a;
                               Index.analysisFields := None |})
                  (schemaAnalysis r) |}.

End FrameworkDetection.

(** ** index.ts: writing and publishing a post *)

Module Posts.
Import Objects PatternDetection.

(** The options as the caller gives them; [interactive] is left out,
    [createPost] does not read it. *)
Record PostOptions : Type := mkOptions {
  title : string;
  contentDir : option string;
  author : option string;
  tags : option (list string);
  description : option string;
  draft : option bool;
  collectionName : option string
}.

(** [option ?? fallback], and the default of a destructured member. *)
Definition orElse {A : Type} (o : option A) (fallback : A) : A :=
  match o with Some a => a | None => fallback end.

(** A string in a condition. *)
Definition nonEmpty (s : string) : bool := negb (String.eqb s "").

(** "Override with user-provided values" *)
Definition withUserValues (title author : string) (tags : list string)
    (description : string) (frontmatter : Obj) : Obj :=
  let frontmatter := setKey "title" (VStr title) frontmatter in
  let frontmatter :=
    if nonEmpty author then setKey "author" (VStr author) frontmatter else frontmatter in
  let frontmatter :=
    if (0 <? List.length tags)%nat then setKey "tags" (VArray (map VStr tags)) frontmatter
    else frontmatter in
  if nonEmpty description then setKey "description" (VStr description) frontmatter
  else frontmatter.

(** The branch that starts from the detected pattern. *)
Definition fromPattern (currentDate : JsDate) (title author : string) (tags : list string)
    (description : string) (draft : bool) (template : Obj) : Obj :=
  let frontmatter := withUserValues title author tags description template in
  let frontmatter :=
    if hasKey "draft" frontmatter then setKey "draft" (VBool draft) frontmatter
    else if hasKey "published" frontmatter then
      setKey "published" (VBool (negb draft)) frontmatter
    else frontmatter in
  if hasKey "date" frontmatter then setKey "date" (VDate currentDate) frontmatter
  else if hasKey "publishedAt" frontmatter then
    setKey "publishedAt" (VDate currentDate) frontmatter
  else if hasKey "publishDate" frontmatter then
    setKey "publishDate" (VDate currentDate) frontmatter
  else frontmatter.

(** [field && field in frontmatter] *)
Definition namedIn (field : option string) (frontmatter : Obj) : bool :=
  match field with
  | Some f => nonEmpty f && hasKey f frontmatter
  | None => false
  end.

(** The branch that starts from the framework's template. *)
Definition fromFramework (currentDate : JsDate) (title author : string) (tags : list string)
    (description : string) (draft : bool) (config : FrameworkDetection.ContentConfig)
    (template : Obj) : Obj :=
  let frontmatter := withUserValues title author tags description template in
  let frontmatter :=
    if namedIn (FrameworkDetection.draftField config) frontmatter then
      setKey (orElse (FrameworkDetection.draftField config) "") (VBool draft) frontmatter
    else if namedIn (FrameworkDetection.publishedField config) frontmatter then
      setKey (orElse (FrameworkDetection.publishedField config) "") (VBool (negb draft))
             frontmatter
    else frontmatter in
  if hasKey (FrameworkDetection.dateField config) frontmatter then
    setKey (FrameworkDetection.dateField config) (VDate currentDate) frontmatter
  else frontmatter.

(** "Fall back to default structure" *)
Definition defaultStructure (currentDate : JsDate) (title author : string)
    (tags : list string) (description : string) (draft : bool) : Obj :=
  [("title", VStr title); ("date", VDate currentDate); ("author", VStr author);
   ("description", VStr description); ("tags", VArray (map VStr tags));
   ("draft", VBool draft)].

(** The template and the directory of the framework branch. *)
Definition frameworkBase (now : JsDate) (options : PostOptions) (contentDir : string)
    (framework : FrameworkDetection.FrameworkInfo) (suggested : Obj)
    (astroCollections : option (list AstroSchemaAnalyzer.AstroCollection))
    : Obj * string :=
  if String.eqb (FrameworkDetection.name framework) "Astro" then
    match astroCollections with
    | Some collections =>
        if nonEmpty (orElse (collectionName options) "") then
          match find (fun c => String.eqb (AstroSchemaAnalyzer.collectionName c)
                                          (orElse (collectionName options) ""))
                     collections with
          | Some selectedCollection =>
              (AstroTemplates.generateTemplate now selectedCollection,
               AstroSchemaAnalyzer.defaultDir selectedCollection)
          | None => (suggested, contentDir)
          end
        else (suggested, contentDir)
    | None => (suggested, contentDir)
    end
  else (suggested, contentDir).

(** The [else] branch of [createPost]: the framework's template, or the
    default structure.  With a framework that carries no [contentConfig]
    the read of [config.draftField] throws. *)
Definition fromFrameworkOrDefault (currentDate now : JsDate) (options : PostOptions)
    (title author : string) (tags : list string) (description : string) (draft : bool)
    (contentDir : string)
    (frameworkDetection : FrameworkDetection.FrameworkDetectionResult)
    : Completion SchemaIntrospection.JsError (Obj * string) :=
  match FrameworkDetection.primary frameworkDetection,
        FrameworkDetection.suggestedTemplate frameworkDetection with
  | Some framework, Some suggested =>
      let '(base, dir) :=
        frameworkBase now options contentDir framework suggested
          (FrameworkDetection.astroCollections frameworkDetection) in
      match FrameworkDetection.contentConfig framework with
      | Some config =>
          Returns (fromFramework currentDate title author tags description draft config base,
                   dir)
      | None => Throws SchemaIntrospection.TypeError
      end
  | _, _ =>
      Returns (defaultStructure currentDate title author tags description draft, contentDir)
  end.

(** [createPost] up to the serialisation: the frontmatter it hands to
    [matter.stringify] and the directory it writes to.  [currentDate] is
    the instant taken at the start, [now] the one a collection's template
    takes. *)
Definition createPost (currentDate now : JsDate) (options : PostOptions)
    (detection : DetectionResult)
    (frameworkDetection : FrameworkDetection.FrameworkDetectionResult)
    : Completion SchemaIntrospection.JsError (Obj * string) :=
  let title := title options in
  let author := orElse (author options) "" in
  let tags := orElse (tags options) [] in
  let description := orElse (description options) "" in
  let draft := orElse (draft options) true in
  let contentDir := orElse (contentDir options) "src/content/blog" in
  let useFrameworkInstead :=
    Index.shouldPreferFrameworkOverPattern detection
      (FrameworkDetection.choiceView frameworkDetection) in
  match suggestedTemplate detection with
  | Some template =>
      if success detection && negb useFrameworkInstead then
        Returns (fromPattern currentDate title author tags description draft template,
                 contentDir)
      else
        fromFrameworkOrDefault currentDate now options title author tags description draft
                               contentDir frameworkDetection
  | None =>
      fromFrameworkOrDefault currentDate now options title author tags description draft
                             contentDir frameworkDetection
  end.

(** "Update frontmatter" in [publishPost]. *)
Definition publishedData (publishDate : option JsDate) (data : Obj) : Obj :=
  let data := setKey "draft" (VBool false) data in
  match publishDate with
  | Some date => setKey "date" (VDate date) data
  | None => data
  end.

(** "Update frontmatter to make it a draft" in [unpublishPost]. *)
Definition unpublishedData (data : Obj) : Obj :=
  let data := setKey "draft" (VBool true) data in
  if hasKey "published" data then setKey "published" (VBool false) data else data.

(** The files of posts: what a path holds, if anything. *)
Definition PostFiles : Type := string -> option DirEntry.

Definition writeFileSync (filePath content : string) (files : PostFiles) : PostFiles :=
  fun path => if String.eqb path filePath then Some (RegularFile content) else files path.

Section Codec.

(** [matter(fileContent)]: the body and the data, or the parser's error. *)
Variable matter : string -> Completion string (string * Obj).

(** [matter.stringify(content, data)] *)
Variable stringify : string -> Obj -> string.

(** Rewrites the file with its data changed by [update]. *)
Definition rewritePost (update : Obj -> Obj) (files : PostFiles) (filePath : string)
    : Completion string PostFiles :=
  match files filePath with
  | None => Throws ("File not found: " ++ filePath)%string
  | Some entry =>
      match readFileSync entry with
      | Throws e => Throws e
      | Returns fileContent =>
          match matter fileContent with
          | Throws e => Throws e
          | Returns (content, data) =>
              Returns (writeFileSync filePath (stringify content (update data)) files)
          end
      end
  end.

Definition publishPost (files : PostFiles) (filePath : string) (publishDate : option JsDate)
    : Completion string PostFiles :=
  rewritePost (publishedData publishDate) files filePath.

Definition unpublishPost (files : PostFiles) (filePath : string)
    : Completion string PostFiles :=
  rewritePost unpublishedData files filePath.

End Codec.

End Posts.

(** ** validation.ts *)

Module Validation.
Import Objects.

(** The warnings, which do not bear on [isValid], are left out. *)
Record ValidationResult : Type := mkResult {
  isValid : bool;
  errors : list string
}.

Section DateParsing.

(** [!isNaN(new Date(s).getTime())] for a string of the form
    [YYYY-MM-DD]; engines differ on days a month does not have. *)
Variable parsesAsDate : string -> bool.

Definition titleErrors (frontmatter : Obj) : list string :=
  let title := lookup "title" frontmatter in
  if negb (truthyValue title)
     || negb (String.eqb (typeof title) "string")
     || match title with VStr s => String.eqb (Text.trim s) "" | _ => false end
  then ["Title is required and must be a non-empty string"]
  else [].

Definition dateErrors (frontmatter : Obj) : list string :=
  let date := lookup "date" frontmatter in
  if truthyValue date then
    if negb (String.eqb (typeof date) "string") || negb (PatternDetection.testSimpleDate date)
    then ["Date must be in YYYY-MM-DD format"]
    else if match date with VStr s => negb (parsesAsDate s) | _ => false end
    then ["Date must be a valid date"]
    else []
  else [].

Definition tagsErrors (frontmatter : Obj) : list string :=
  let tags := lookup "tags" frontmatter in
  if negb (isUndefined tags) then
    match tags with
    | VArray items =>
        let invalidTags := filter (fun tag => negb (String.eqb (typeof tag) "string")) items in
        if (0 <? List.length invalidTags)%nat then ["All tags must be strings"] else []
    | _ => ["Tags must be an array"]
    end
  else [].

Definition draftErrors (frontmatter : Obj) : list string :=
  let draft := lookup "draft" frontmatter in
  if negb (isUndefined draft) && negb (String.eqb (typeof draft) "boolean")
  then ["Draft must be a boolean value"]
  else [].

Definition validateFrontmatter (frontmatter : Obj) : ValidationResult :=
  let errors :=
    titleErrors frontmatter ++ dateErrors frontmatter ++ tagsErrors frontmatter
    ++ draftErrors frontmatter in
  {| isValid := (List.length errors =? 0)%nat; errors := errors |}.

End DateParsing.

End Validation.

(** ** Reference definitions

    What the functions above come to, said without their loops. *)

Module Reference.
Import PatternDetection.

(** The distinct members of [l], each at its first appearance. *)
Definition firstAppearances (l : list string) : list string :=
  fold_left (fun seen k => if includesStr k seen then seen else seen ++ [k]) l [].

(** The values met under a key among the entries, in reading order. *)
Definition valuesOf (field : string) (entries : list (string * JsValue)) : list JsValue :=
  map snd (filter (fun e => String.eqb (fst e) field) entries).

(** The values the samples hold under a key, in reading order. *)
Definition valuesUnder (field : string) (samples : list Obj) : list JsValue :=
  valuesOf field (List.concat samples).

(** The field is not written to the template: the pattern has no entry for
    it, or the entry is passed over. *)
Definition leftOut (pattern : FrontmatterPattern) (field : string) : bool :=
  match find (fun f => String.eqb (fieldName f) field) (commonFields pattern) with
  | Some fieldPattern => shouldSkipField fieldPattern
  | None => true
  end.

(** What a field name adds to the template: one entry, or nothing. *)
Definition templateEntry (now : JsDate) (fields : list FieldPattern) (field : string) : Obj :=
  match find (fun f => String.eqb (fieldName f) field) fields with
  | Some fieldPattern =>
      if shouldSkipField fieldPattern then []
      else [(field, getDefaultValueForField now field fieldPattern)]
  | None => []
  end.

(** A [Date] or an object without members. *)
Definition isDateOrEmptyRecord (v : JsValue) : bool :=
  match v with
  | VDate _ => true
  | VObject [] => true
  | _ => false
  end.



(** A framework carries a configuration, and the configuration names
    frontmatter keys of the usual kind. *)
Definition configured (info : FrameworkDetection.FrameworkInfo) : Prop :=
  exists config,
    FrameworkDetection.contentConfig info = Some config
    /\ (FrameworkDetection.dateField config = "date"
        \/ FrameworkDetection.dateField config = "publishedAt"
        \/ FrameworkDetection.dateField config = "publishDate")
    /\ (FrameworkDetection.draftField config = Some "draft"
        \/ FrameworkDetection.draftField config = None)
    /\ (FrameworkDetection.publishedField config = Some "published"
        \/ FrameworkDetection.publishedField config = None).

(** The names [createPost] may add to a template: those of the values the
    caller gave. *)
Definition suppliedNames (author : string) (tags : list string) (description : string)
    : list string :=
  ["title"] ++ (if Posts.nonEmpty author then ["author"] else [])
  ++ (if (0 <? List.length tags)%nat then ["tags"] else [])
  ++ (if Posts.nonEmpty description then ["description"] else []).

(** What a collection field adds to the template: one entry, or nothing. *)
Definition collectionEntry (now : JsDate) (field : AstroSchemaAnalyzer.AstroCollectionField)
    : Obj :=
  if SchemaIntrospection.isDefined (AstroSchemaAnalyzer.defaultValue field) then
    [(AstroSchemaAnalyzer.name field, AstroSchemaAnalyzer.defaultValue field)]
  else if AstroSchemaAnalyzer.required field then
    [(AstroSchemaAnalyzer.name field, AstroTemplates.getPlaceholderValue now field)]
  else [].

(** Does the declaration put the member in the template of the
    collection? *)
Definition declaredInTemplate (e : SchemaIntrospection.ZExpr) : bool :=
  Spec.declaredRequired e || SchemaIntrospection.isDefined (Spec.declaredDefault e).

End Reference.

(** ** More sample data *)

Module MoreExamples.

(** Two posts whose dates YAML reads as timestamps. *)
Definition datedPosts : list Obj :=
  [ [("title", VStr "a"); ("date", VDate Examples.now)];
    [("title", VStr "b"); ("date", VDate Examples.now)] ].

(** A schema with a required title and a draft flag that has a default. *)
Definition titleAndDraft : list SchemaIntrospection.SchemaField :=
  [ SchemaIntrospection.mkField "title" SchemaIntrospection.TString true VUndefined;
    SchemaIntrospection.mkField "draft" SchemaIntrospection.TBoolean false (VBool false) ].


(** The schema of "should generate template with required fields and
    defaults". *)
Definition blogSchema : list (string * SchemaIntrospection.ZExpr) :=
  [("title", SchemaIntrospection.EString);
   ("description", SchemaIntrospection.EOptional SchemaIntrospection.EString);
   ("tags", SchemaIntrospection.EDefault
              (SchemaIntrospection.EArray SchemaIntrospection.EString) (VArray []));
   ("draft", SchemaIntrospection.EDefault SchemaIntrospection.EBoolean (VBool false));
   ("date", SchemaIntrospection.ECoerceDate)].

(** A Jekyll site that also keeps a [content] directory, and a project
    with an Astro configuration file and nothing else. *)
Definition jekyllSite (name : string) : bool :=
  String.eqb name "_config.yml" || String.eqb name "_posts" || String.eqb name "content".

Definition astroSite (name : string) : bool := String.eqb name "astro.config.mjs".

Definition noDependencies (name : string) : bool := false.

(** An Astro project with its content configuration. *)
Definition astroProject (name : string) : bool :=
  String.eqb name "astro.config.mjs" || String.eqb name "src/content"
  || String.eqb name "src/content/config.ts".

Definition astroDependency (name : string) : bool := String.eqb name "astro".

Definition unreadableConfig : Completion string (list AstroSchemaAnalyzer.AstroCollection) :=
  Throws "ENOENT".

(** What [detectFrontmatterPattern] makes of the five consistent posts. *)
Definition consistentDetection : PatternDetection.DetectionResult :=
  {| PatternDetection.pattern :=
       Some (PatternDetection.analyzeFrontmatterPatterns Examples.consistentPosts);
     PatternDetection.success := true;
     PatternDetection.message := "";
     PatternDetection.suggestedTemplate :=
       Some (PatternDetection.generateTemplate Examples.now
               (PatternDetection.analyzeFrontmatterPatterns Examples.consistentPosts)) |}.

(** The configuration of the [blog] collection, as the analyzer reads it. *)
Definition blogConfig : Completion string (list AstroSchemaAnalyzer.AstroCollection) :=
  Returns [AstroSchemaAnalyzer.parseCollection "blog" (SchemaIntrospection.EObject blogSchema)].

Definition helloPost : Posts.PostOptions :=
  {| Posts.title := "Hello"; Posts.contentDir := None; Posts.author := None;
     Posts.tags := None; Posts.description := None; Posts.draft := None;
     Posts.collectionName := None |}.

(** A Jekyll post, published. *)
Definition jekyllPost : Obj :=
  [("layout", VStr "post"); ("title", VStr "Hello"); ("published", VBool true)].

(** A post with a draft flag, published. *)
Definition publishedPost : Obj :=
  [("title", VStr "Hello"); ("draft", VBool false)].

(** A codec that knows a post as it is and as it is once unpublished. *)
Definition toyMatter (post : Obj) (fileContent : string) : Completion string (string * Obj) :=
  if String.eqb fileContent "draft" then Returns ("body", Posts.unpublishedData post)
  else if String.eqb fileContent "published" then Returns ("body", post)
  else Throws "YAMLException".

Definition toyStringify (content : string) (data : Obj) : string :=
  match Objects.lookup "draft" data with
  | VBool true => "draft"
  | _ => "published"
  end.

Definition onePost : Posts.PostFiles :=
  fun path => if String.eqb path "hello.md" then Some (PatternDetection.RegularFile "published")
              else None.

End MoreExamples.

(** ** Proof steps *)

(** Case analysis on every condition of the goal. *)
Ltac split_ifs :=
  repeat match goal with
         | |- context [if ?b then _ else _] => destruct b eqn:?
         end.

(** An equivalence between a comparison of numbers and a conjunction of
    tests, once every test is a constant. *)
Ltac settle_indicators :=
  let H := fresh "H" in
  split;
  [ intro H; vm_compute in H; try discriminate H; repeat split;
    try reflexivity; discriminate
  | intro H; decompose [and] H; clear H;
    try congruence; try discriminate; vm_compute; reflexivity ].

(** * Properties *)

(** ** The pattern learner *)

Section PatternFacts.
Import PatternDetection Spec.

Lemma ofNat_succ (n : nat) : ofNat n + 1 = ofNat (S n).
Proof.
  unfold ofNat, inject_Z, Qplus. cbn [Qnum Qden].
  f_equal. rewrite Nat2Z.inj_succ. lia.
Qed.

Lemma observe_name (v : JsValue) (p : FieldPattern) :
  fieldName (observe v p) = fieldName p.
Proof. reflexivity. Qed.

Lemma find_mapAdjust_same (k : string) (f : FieldPattern -> FieldPattern) (m : FieldMap) :
  (forall p, fieldName (f p) = fieldName p) ->
  find (fun p => String.eqb (fieldName p) k) (mapAdjust k f m)
  = option_map f (find (fun p => String.eqb (fieldName p) k) m).
Proof.
  intros Hf. induction m as [|p rest IH]; [reflexivity|].
  simpl. destruct (String.eqb (fieldName p) k) eqn:E.
  - simpl. rewrite Hf, E. reflexivity.
  - simpl. rewrite E. exact IH.
Qed.

Lemma find_mapAdjust_other (k k' : string) (f : FieldPattern -> FieldPattern) (m : FieldMap) :
  (forall p, fieldName (f p) = fieldName p) ->
  k' <> k ->
  find (fun p => String.eqb (fieldName p) k) (mapAdjust k' f m)
  = find (fun p => String.eqb (fieldName p) k) m.
Proof.
  intros Hf Hne. induction m as [|p rest IH]; [reflexivity|].
  simpl. destruct (String.eqb (fieldName p) k') eqn:E.
  - apply String.eqb_eq in E. simpl. rewrite Hf.
    destruct (String.eqb (fieldName p) k) eqn:E2; [|reflexivity].
    apply String.eqb_eq in E2. congruence.
  - simpl. destruct (String.eqb (fieldName p) k); [reflexivity|exact IH].
Qed.

Lemma mapHas_find (k : string) (m : FieldMap) :
  mapHas k m = match find (fun p => String.eqb (fieldName p) k) m with
               | Some _ => true | None => false end.
Proof.
  unfold mapHas. induction m as [|p rest IH]; [reflexivity|].
  simpl. destruct (String.eqb (fieldName p) k); [reflexivity|exact IH].
Qed.

Lemma find_snoc (k k' : string) (m : FieldMap) :
  find (fun p => String.eqb (fieldName p) k) (m ++ [emptyPattern k'])
  = match find (fun p => String.eqb (fieldName p) k) m with
    | Some p => Some p
    | None => if String.eqb k' k then Some (emptyPattern k') else None
    end.
Proof.
  induction m as [|p rest IH]; [reflexivity|].
  simpl. destruct (String.eqb (fieldName p) k); [reflexivity|exact IH].
Qed.

Lemma heldCount_recordEntry (k : string) (m : FieldMap) (entry : string * JsValue) :
  heldCount k (recordEntry m entry)
  = if String.eqb (fst entry) k then heldCount k m + 1 else heldCount k m.
Proof.
  destruct entry as [k' v]. unfold heldCount, recordEntry. cbn [fst snd].
  destruct (String.eqb k' k) eqn:E.
  - apply String.eqb_eq in E. subst k'.
    rewrite find_mapAdjust_same by apply observe_name.
    rewrite mapHas_find.
    destruct (find (fun p => String.eqb (fieldName p) k) m) eqn:F.
    + rewrite F. reflexivity.
    + rewrite find_snoc, F, String.eqb_refl. reflexivity.
  - assert (k' <> k) by (intro; subst; rewrite String.eqb_refl in E; discriminate).
    rewrite find_mapAdjust_other by (auto using observe_name).
    destruct (mapHas k' m); [reflexivity|].
    rewrite find_snoc, E.
    destruct (find (fun p => String.eqb (fieldName p) k) m); reflexivity.
Qed.

Lemma heldCount_fold (es : list (string * JsValue)) :
  forall (m : FieldMap) (c : string -> nat),
    (forall k, heldCount k m = ofNat (c k)) ->
    forall k, heldCount k (fold_left recordEntry es m) = ofNat (c k + entryCount k es).
Proof.
  induction es as [|e rest IH]; intros m c Hm k.
  - simpl. rewrite Hm. unfold entryCount. simpl. f_equal. lia.
  - simpl.
    rewrite (IH (recordEntry m e)
                (fun k => (c k + if String.eqb (fst e) k then 1 else 0)%nat)).
    + unfold entryCount. simpl.
      destruct (String.eqb (fst e) k); simpl; f_equal; lia.
    + intro k0. rewrite heldCount_recordEntry, Hm.
      destruct (String.eqb (fst e) k0).
      * rewrite ofNat_succ. f_equal. lia.
      * f_equal. lia.
Qed.


Lemma mapAdjust_names (k : string) (f : FieldPattern -> FieldPattern) (m : FieldMap) :
  (forall p, fieldName (f p) = fieldName p) ->
  map fieldName (mapAdjust k f m) = map fieldName m.
Proof.
  intros Hf. induction m as [|p rest IH]; [reflexivity|].
  simpl. destruct (String.eqb (fieldName p) k); simpl; [rewrite Hf|rewrite IH]; reflexivity.
Qed.

Lemma mapHas_In (k : string) (m : FieldMap) :
  mapHas k m = true <-> In k (map fieldName m).
Proof.
  unfold mapHas. rewrite existsb_exists, in_map_iff. split.
  - intros [p [Hin E]]. apply String.eqb_eq in E. eauto.
  - intros [p [E Hin]]. exists p. split; [exact Hin|]. now apply String.eqb_eq.
Qed.

Lemma recordEntry_names (m : FieldMap) (entry : string * JsValue) :
  map fieldName (recordEntry m entry)
  = if mapHas (fst entry) m then map fieldName m else map fieldName m ++ [fst entry].
Proof.
  unfold recordEntry. rewrite mapAdjust_names by apply observe_name.
  destruct (mapHas (fst entry) m); [reflexivity|].
  rewrite map_app. reflexivity.
Qed.

Lemma recordEntry_NoDup (m : FieldMap) (entry : string * JsValue) :
  NoDup (map fieldName m) -> NoDup (map fieldName (recordEntry m entry)).
Proof.
  intros Hnd. rewrite recordEntry_names.
  destruct (mapHas (fst entry) m) eqn:E; [exact Hnd|].
  assert (~ In (fst entry) (map fieldName m)) as Hnot.
  { intro Hin. apply mapHas_In in Hin. congruence. }
  apply NoDup_app; repeat split.
  - exact Hnd.
  - repeat constructor. intros [].
  - intros x Hx [Hy|[]]. subst. contradiction.
Qed.

Lemma recordEntry_In (m : FieldMap) (entry : string * JsValue) (k : string) :
  In k (map fieldName (recordEntry m entry)) <-> In k (map fieldName m) \/ k = fst entry.
Proof.
  rewrite recordEntry_names. destruct (mapHas (fst entry) m) eqn:E.
  - apply mapHas_In in E. split; [tauto|]. intros [H|H]; [exact H|]. now subst.
  - rewrite in_app_iff. simpl. intuition (subst; auto).
Qed.

Lemma fold_recordEntry_NoDup (es : list (string * JsValue)) :
  forall m, NoDup (map fieldName m) ->
    NoDup (map fieldName (fold_left recordEntry es m)).
Proof.
  induction es as [|e rest IH]; intros m Hnd; [exact Hnd|].
  simpl. apply IH. now apply recordEntry_NoDup.
Qed.

Lemma fold_recordEntry_In (es : list (string * JsValue)) :
  forall m k, In k (map fieldName (fold_left recordEntry es m))
              <-> In k (map fieldName m) \/ In k (map fst es).
Proof.
  induction es as [|e rest IH]; intros m k; simpl; [tauto|].
  rewrite IH, recordEntry_In. split; intros H; intuition (subst; auto).
Qed.

Lemma countFields_concat (samples : list Obj) :
  countFields samples = fold_left recordEntry (List.concat samples) [].
Proof.
  unfold countFields. generalize (@nil FieldPattern).
  induction samples as [|s rest IH]; intros m; [reflexivity|].
  simpl. rewrite fold_left_app. apply IH.
Qed.

Lemma hasKey_In (k : string) (o : Obj) : hasKey k o = true <-> In k (keys o).
Proof.
  unfold hasKey, keys. rewrite existsb_exists, in_map_iff. split.
  - intros [e [Hin E]]. apply String.eqb_eq in E. eauto.
  - intros [e [E Hin]]. exists e. split; [exact Hin|]. now apply String.eqb_eq.
Qed.

Lemma entryCount_absent (k : string) (o : Obj) :
  ~ In k (keys o) -> entryCount k o = 0%nat.
Proof.
  unfold entryCount, keys. induction o as [|e rest IH]; intros Hnot; [reflexivity|].
  simpl in *. destruct (String.eqb (fst e) k) eqn:E.
  - apply String.eqb_eq in E. tauto.
  - apply IH. tauto.
Qed.

Lemma entryCount_sample (k : string) (o : Obj) :
  NoDup (keys o) -> entryCount k o = if hasKey k o then 1%nat else 0%nat.
Proof.
  unfold keys. induction o as [|e rest IH]; intros Hnd; [reflexivity|].
  inversion Hnd as [|x l Hnot Hnd']; subst.
  unfold entryCount, hasKey in *. simpl.
  destruct (String.eqb (fst e) k) eqn:E.
  - apply String.eqb_eq in E. subst k. simpl.
    f_equal. apply (entryCount_absent (fst e) rest Hnot).
  - simpl. now apply IH.
Qed.

Lemma entryCount_app (k : string) (a b : list (string * JsValue)) :
  entryCount k (a ++ b) = (entryCount k a + entryCount k b)%nat.
Proof. unfold entryCount. now rewrite filter_app, length_app. Qed.

Lemma entryCount_concat (k : string) (samples : list Obj) :
  wellFormed samples -> entryCount k (List.concat samples) = occurrences k samples.
Proof.
  unfold wellFormed, occurrences. induction samples as [|s rest IH]; intros Hwf; [reflexivity|].
  inversion Hwf as [|x l Hs Hrest]; subst. simpl.
  rewrite entryCount_app, (entryCount_sample k s Hs), (IH Hrest).
  destruct (hasKey k s); reflexivity.
Qed.

Lemma normalize_names (n : nat) (m : FieldMap) :
  map fieldName (normalize n m) = map fieldName m.
Proof. unfold normalize. rewrite map_map. reflexivity. Qed.

Lemma heldCount_In (m : FieldMap) (p : FieldPattern) :
  NoDup (map fieldName m) -> In p m -> heldCount (fieldName p) m = frequency p.
Proof.
  unfold heldCount. induction m as [|q rest IH]; intros Hnd Hin; [destruct Hin|].
  inversion Hnd as [|x l Hnot Hnd']; subst. simpl.
  destruct Hin as [->|Hin].
  - now rewrite String.eqb_refl.
  - destruct (String.eqb (fieldName q) (fieldName p)) eqn:E.
    + apply String.eqb_eq in E. exfalso. apply Hnot. rewrite E. now apply in_map.
    + now apply IH.
Qed.

(** What [commonFields] holds after the two phases. *)
Lemma commonFields_names_NoDup (samples : list Obj) :
  NoDup (map fieldName (commonFields (analyzeFrontmatterPatterns samples))).
Proof.
  unfold analyzeFrontmatterPatterns.
  destruct (categorize _) as [[req opt] rare]. cbn [commonFields].
  rewrite normalize_names, countFields_concat.
  apply fold_recordEntry_NoDup. constructor.
Qed.

Lemma commonFields_eq (samples : list Obj) :
  commonFields (analyzeFrontmatterPatterns samples)
  = normalize (List.length samples) (countFields samples).
Proof.
  unfold analyzeFrontmatterPatterns.
  destruct (categorize _) as [[req opt] rare]. reflexivity.
Qed.

Lemma fieldNames_In (samples : list Obj) (k : string) :
  In k (fieldNames samples) <-> exists s, In s samples /\ In k (keys s).
Proof.
  unfold fieldNames. rewrite nodup_In, in_concat. split.
  - intros [l [Hl Hk]]. apply in_map_iff in Hl. destruct Hl as [s [<- Hs]]. eauto.
  - intros [s [Hs Hk]]. exists (keys s). split; [now apply in_map|exact Hk].
Qed.

Lemma keys_concat (samples : list Obj) :
  map fst (List.concat samples) = List.concat (map keys samples).
Proof. unfold keys. now rewrite concat_map. Qed.

Lemma commonFields_names_In (samples : list Obj) (k : string) :
  In k (map fieldName (commonFields (analyzeFrontmatterPatterns samples)))
  <-> In k (fieldNames samples).
Proof.
  rewrite commonFields_eq, normalize_names, countFields_concat, fold_recordEntry_In.
  rewrite keys_concat. unfold fieldNames. rewrite nodup_In. simpl. tauto.
Qed.

Lemma commonFields_frequency (samples : list Obj) (p : FieldPattern) :
  wellFormed samples ->
  In p (commonFields (analyzeFrontmatterPatterns samples)) ->
  frequency p = sampleFrequency (fieldName p) samples.
Proof.
  intros Hwf Hin. rewrite commonFields_eq in Hin.
  unfold normalize in Hin. apply in_map_iff in Hin.
  destruct Hin as [q [<- Hq]]. cbn [frequency fieldName].
  unfold sampleFrequency. f_equal.
  rewrite <- (heldCount_In (countFields samples) q).
  - rewrite countFields_concat.
    rewrite (heldCount_fold (List.concat samples) [] (fun _ => 0%nat)) by reflexivity.
    simpl. now rewrite entryCount_concat.
  - rewrite countFields_concat. apply fold_recordEntry_NoDup. constructor.
  - exact Hq.
Qed.

Lemma categorize_fold (fields : list FieldPattern) :
  forall req opt rare,
    fold_left categorizeStep fields (req, opt, rare)
    = (req ++ map fieldName (filter (fun f => atLeast 0.8 (frequency f)) fields),
       opt ++ map fieldName
                (filter (fun f => negb (atLeast 0.8 (frequency f))
                                  && atLeast 0.2 (frequency f)) fields),
       rare ++ map fieldName
                 (filter (fun f => negb (atLeast 0.8 (frequency f))
                                   && negb (atLeast 0.2 (frequency f))) fields)).
Proof.
  induction fields as [|f rest IH]; intros req opt rare.
  - simpl. now rewrite !app_nil_r.
  - simpl. destruct (atLeast 0.8 (frequency f)); simpl.
    + rewrite IH, <- app_assoc. reflexivity.
    + destruct (atLeast 0.2 (frequency f)); simpl; rewrite IH, <- app_assoc; reflexivity.
Qed.

Lemma analysis_tiers (samples : list Obj) :
  let p := analyzeFrontmatterPatterns samples in
  requiredFields p
    = map fieldName (filter (fun f => atLeast 0.8 (frequency f)) (commonFields p))
  /\ optionalFields p
    = map fieldName (filter (fun f => negb (atLeast 0.8 (frequency f))
                                      && atLeast 0.2 (frequency f)) (commonFields p))
  /\ rareFields p
    = map fieldName (filter (fun f => negb (atLeast 0.8 (frequency f))
                                      && negb (atLeast 0.2 (frequency f))) (commonFields p)).
Proof.
  unfold analyzeFrontmatterPatterns, categorize. rewrite categorize_fold. simpl. auto.
Qed.

Lemma NoDup_map_filter {A B : Type} (f : A -> B) (keep : A -> bool) (l : list A) :
  NoDup (map f l) -> NoDup (map f (filter keep l)).
Proof.
  induction l as [|x rest IH]; intros Hnd; [constructor|].
  inversion Hnd as [|y l' Hnot Hnd']; subst. simpl.
  destruct (keep x); [|now apply IH].
  simpl. constructor; [|now apply IH].
  intro Hin. apply Hnot. apply in_map_iff in Hin. destruct Hin as [z [E Hz]].
  apply filter_In in Hz. rewrite <- E. apply in_map. tauto.
Qed.

Lemma NoDup_map_inj {A B : Type} (f : A -> B) (l : list A) (x y : A) :
  NoDup (map f l) -> In x l -> In y l -> f x = f y -> x = y.
Proof.
  induction l as [|z rest IH]; intros Hnd Hx Hy E; [destruct Hx|].
  inversion Hnd as [|w l' Hnot Hnd']; subst.
  destruct Hx as [->|Hx], Hy as [->|Hy]; auto.
  - exfalso. apply Hnot. rewrite E. now apply in_map.
  - exfalso. apply Hnot. rewrite <- E. now apply in_map.
Qed.

Lemma tiers_disjoint {A B : Type} (f : A -> B) (p q : A -> bool) (l : list A) (k : B) :
  NoDup (map f l) ->
  (forall x, p x = true -> q x = true -> False) ->
  In k (map f (filter p l)) -> In k (map f (filter q l)) -> False.
Proof.
  intros Hnd Hex Hp Hq.
  apply in_map_iff in Hp. destruct Hp as [x [Ex Hx]]. apply filter_In in Hx.
  apply in_map_iff in Hq. destruct Hq as [y [Ey Hy]]. apply filter_In in Hy.
  assert (x = y) by (apply (NoDup_map_inj f l); intuition congruence).
  subst y. apply (Hex x); tauto.
Qed.

Lemma atLeast_iff (t x : Q) : atLeast t x = true <-> t <= x.
Proof. apply Qle_bool_iff. Qed.

Lemma atLeast_false (t x : Q) : x < t -> atLeast t x = false.
Proof.
  intros Hlt. destruct (atLeast t x) eqn:E; [|reflexivity].
  apply atLeast_iff in E. exfalso. now apply (Qlt_not_le x t).
Qed.

Lemma In_commonFields (samples : list Obj) (k : string) :
  In k (fieldNames samples) ->
  exists p, In p (commonFields (analyzeFrontmatterPatterns samples)) /\ fieldName p = k.
Proof.
  intros Hk. apply commonFields_names_In in Hk. apply in_map_iff in Hk.
  destruct Hk as [p [E Hp]]. eauto.
Qed.

(** C3: in the pattern learned from any list of samples, every observed
    field name whose share of the samples is at least 0.8 is in
    [requiredFields], every one whose share is in [0.2, 0.8) is in
    [optionalFields], every one whose share is below 0.2 is in [rareFields],
    and no name is in two of the three lists. *)
Theorem frequency_partition (samples : list Obj) :
  wellFormed samples ->
  let p := analyzeFrontmatterPatterns samples in
  (forall k, In k (fieldNames samples) ->
     (0.8 <= sampleFrequency k samples -> In k (requiredFields p))
     /\ (0.2 <= sampleFrequency k samples /\ sampleFrequency k samples < 0.8 ->
         In k (optionalFields p))
     /\ (sampleFrequency k samples < 0.2 -> In k (rareFields p)))
  /\ NoDup (requiredFields p ++ optionalFields p ++ rareFields p).
Proof.
  intros Hwf p. destruct (analysis_tiers samples) as [Hreq [Hopt Hrare]].
  fold p in Hreq, Hopt, Hrare. split.
  - intros k Hk. destruct (In_commonFields samples k Hk) as [f [Hf Ek]].
    pose proof (commonFields_frequency samples f Hwf Hf) as Hfreq.
    rewrite Ek in Hfreq. fold p in Hf.
    repeat split.
    + intros H. rewrite Hreq. apply in_map_iff. exists f. split; [exact Ek|].
      apply filter_In. split; [exact Hf|]. rewrite Hfreq. now apply atLeast_iff.
    + intros [Hlo Hhi]. rewrite Hopt. apply in_map_iff. exists f. split; [exact Ek|].
      apply filter_In. split; [exact Hf|]. rewrite Hfreq.
      rewrite (atLeast_false _ _ Hhi). simpl. now apply atLeast_iff.
    + intros Hlo. rewrite Hrare. apply in_map_iff. exists f. split; [exact Ek|].
      apply filter_In. split; [exact Hf|]. rewrite Hfreq.
      assert (sampleFrequency k samples < 0.8) as Hhi.
      { eapply Qlt_trans; [exact Hlo|]. reflexivity. }
      now rewrite (atLeast_false _ _ Hhi), (atLeast_false _ _ Hlo).
  - pose proof (commonFields_names_NoDup samples) as Hnd. fold p in Hnd.
    rewrite Hreq, Hopt, Hrare.
    apply NoDup_app; repeat split.
    + now apply NoDup_map_filter.
    + apply NoDup_app; repeat split.
      * now apply NoDup_map_filter.
      * now apply NoDup_map_filter.
      * intros k H1 H2.
        eapply (tiers_disjoint fieldName); [exact Hnd| |exact H1|exact H2].
        cbv beta. intros x Hx Hy.
        destruct (atLeast 0.2 (frequency x)), (atLeast 0.8 (frequency x)); discriminate.
    + intros k H1 H2. apply in_app_iff in H2. destruct H2 as [H2|H2].
      * eapply (tiers_disjoint fieldName); [exact Hnd| |exact H1|exact H2].
        cbv beta. intros x Hx Hy. destruct (atLeast 0.8 (frequency x)); discriminate.
      * eapply (tiers_disjoint fieldName); [exact Hnd| |exact H1|exact H2].
        cbv beta. intros x Hx Hy. destruct (atLeast 0.8 (frequency x)); discriminate.
Qed.

Lemma confidence_eq (samples : list Obj) :
  confidence (analyzeFrontmatterPatterns samples)
  = calculateConfidence (commonFields (analyzeFrontmatterPatterns samples))
                        (List.length samples).
Proof.
  unfold analyzeFrontmatterPatterns.
  destruct (categorize _) as [[req opt] rare]. reflexivity.
Qed.

Lemma calculateConfidence_bounds (fields : list FieldPattern) (totalPosts : nat) :
  let c := calculateConfidence fields totalPosts in
  (c = 0.5 \/ (0.6 <= c /\ c <= 1.0)) /\ 0.5 <= c /\ c <= 1.0.
Proof.
  unfold calculateConfidence. cbv zeta.
  destruct (totalPosts <? 2)%nat.
  - split; [left; reflexivity|]. split; intro H; discriminate H.
  - destruct (existsb _ fields), (existsb _ fields),
      (3 <=? List.length _)%nat, (5 <=? totalPosts)%nat;
      (split; [right|]; split; vm_compute; intro H; discriminate H).
Qed.

Lemma confidence_few_samples (samples : list Obj) :
  (List.length samples < 2)%nat ->
  confidence (analyzeFrontmatterPatterns samples) = 0.5.
Proof.
  intros Hlen. rewrite confidence_eq. unfold calculateConfidence.
  apply Nat.ltb_lt in Hlen. now rewrite Hlen.
Qed.

(** C10: for every field list and every sample count,
    [calculateConfidence] returns 0.5 or a value between 0.6 and 1.0; so
    does the confidence of every learned pattern, which is therefore never
    below 0.5 and never above 1.0. *)
Theorem confidence_range :
  (forall (fields : list FieldPattern) (totalPosts : nat),
     let c := calculateConfidence fields totalPosts in
     (c = 0.5 \/ (0.6 <= c /\ c <= 1.0)) /\ 0.5 <= c /\ c <= 1.0)
  /\ (forall samples : list Obj,
        let c := confidence (analyzeFrontmatterPatterns samples) in
        (c = 0.5 \/ (0.6 <= c /\ c <= 1.0)) /\ 0.5 <= c /\ c <= 1.0).
Proof.
  split; [exact calculateConfidence_bounds|].
  intros samples. rewrite confidence_eq. apply calculateConfidence_bounds.
Qed.

Lemma occurrences_absent (samples : list Obj) (k : string) :
  ~ In k (fieldNames samples) -> occurrences k samples = 0%nat.
Proof.
  intros Hnot. unfold occurrences.
  induction samples as [|s rest IH]; [reflexivity|].
  simpl. destruct (hasKey k s) eqn:E.
  - exfalso. apply Hnot. apply fieldNames_In. exists s. split; [now left|].
    now apply hasKey_In.
  - apply IH. intro Hin. apply Hnot. apply fieldNames_In.
    apply fieldNames_In in Hin. destruct Hin as [s' [Hs Hk]]. exists s'. split; [now right|exact Hk].
Qed.

Lemma atLeast_zero_div (t x : Q) : 0 < t -> atLeast t (ofNat 0 / x) = false.
Proof.
  intros Ht. apply atLeast_false.
  unfold Qdiv. change (ofNat 0) with 0. rewrite Qmult_0_l. exact Ht.
Qed.

Lemma frequent_is_seen (samples : list Obj) (k : string) :
  atLeast 0.8 (sampleFrequency k samples) = true -> In k (fieldNames samples).
Proof.
  intros H. destruct (in_dec string_dec k (fieldNames samples)) as [Hin|Hnot]; [exact Hin|].
  unfold sampleFrequency in H. rewrite (occurrences_absent samples k Hnot) in H.
  rewrite atLeast_zero_div in H; [discriminate|reflexivity].
Qed.

(** The test [some(f => f.fieldName === k && f.frequency >= 0.8)] read on
    the samples. *)
Lemma frequent_field_spec (samples : list Obj) (k : string) :
  wellFormed samples ->
  existsb (fun f => String.eqb (fieldName f) k && atLeast 0.8 (frequency f))
          (commonFields (analyzeFrontmatterPatterns samples))
  = atLeast 0.8 (sampleFrequency k samples).
Proof.
  intros Hwf. apply eq_true_iff_eq. rewrite existsb_exists. split.
  - intros [f [Hf Hc]]. apply andb_true_iff in Hc. destruct Hc as [Ek Hfreq].
    apply String.eqb_eq in Ek.
    rewrite (commonFields_frequency samples f Hwf Hf), Ek in Hfreq. exact Hfreq.
  - intros H. destruct (In_commonFields samples k (frequent_is_seen samples k H)) as [f [Hf Ek]].
    exists f. split; [exact Hf|].
    rewrite (commonFields_frequency samples f Hwf Hf), Ek, String.eqb_refl. exact H.
Qed.

Lemma existsb_orb {A : Type} (p q : A -> bool) (l : list A) :
  existsb (fun x => p x || q x) l = existsb p l || existsb q l.
Proof.
  induction l as [|x rest IH]; [reflexivity|].
  simpl. rewrite IH. destruct (p x), (q x), (existsb p rest); reflexivity.
Qed.

Lemma existsb_pointwise {A : Type} (p q : A -> bool) (l : list A) :
  (forall x, p x = q x) -> existsb p l = existsb q l.
Proof.
  intros H. induction l as [|x rest IH]; [reflexivity|]. simpl. now rewrite H, IH.
Qed.

Lemma date_alias_spec (samples : list Obj) :
  wellFormed samples ->
  existsb (fun f => isDateAlias (fieldName f) && atLeast 0.8 (frequency f))
          (commonFields (analyzeFrontmatterPatterns samples))
  = existsb (fun alias => atLeast 0.8 (sampleFrequency alias samples))
            ["date"; "publishedAt"; "publishDate"].
Proof.
  intros Hwf. simpl. rewrite orb_false_r.
  rewrite <- !(frequent_field_spec samples _ Hwf), <- !existsb_orb.
  apply existsb_pointwise. intros f. unfold isDateAlias.
  destruct (fieldName f =? "date")%string, (fieldName f =? "publishedAt")%string,
    (fieldName f =? "publishDate")%string, (atLeast 0.8 (frequency f)); reflexivity.
Qed.

Lemma filter_Permutation {A : Type} (keep : A -> bool) (l l' : list A) :
  Permutation l l' -> Permutation (filter keep l) (filter keep l').
Proof.
  induction 1 as [|x l l' _ IH|x y l|l l' l'' _ IH1 _ IH2]; simpl.
  - constructor.
  - destruct (keep x); [now constructor|exact IH].
  - destruct (keep x), (keep y); try reflexivity. constructor.
  - now transitivity (filter keep l').
Qed.

Lemma map_filter_names (samples : list Obj) :
  wellFormed samples ->
  map fieldName (filter (fun f => atLeast 0.8 (frequency f))
                        (commonFields (analyzeFrontmatterPatterns samples)))
  = filter (fun k => atLeast 0.8 (sampleFrequency k samples))
           (map fieldName (commonFields (analyzeFrontmatterPatterns samples))).
Proof.
  intros Hwf. pose proof (commonFields_frequency samples) as Hfreq.
  induction (commonFields (analyzeFrontmatterPatterns samples)) as [|f rest IH];
    [reflexivity|].
  simpl. rewrite <- (Hfreq f Hwf (or_introl eq_refl)).
  destruct (atLeast 0.8 (frequency f)); simpl; rewrite IH; auto;
    intros p Hw Hp; apply Hfreq; simpl; auto.
Qed.

Lemma names_Permutation (samples : list Obj) :
  Permutation (map fieldName (commonFields (analyzeFrontmatterPatterns samples)))
              (fieldNames samples).
Proof.
  apply NoDup_Permutation.
  - apply commonFields_names_NoDup.
  - apply NoDup_nodup.
  - intro k. apply commonFields_names_In.
Qed.

Lemma required_count_spec (samples : list Obj) :
  wellFormed samples ->
  List.length (filter (fun f => atLeast 0.8 (frequency f))
                      (commonFields (analyzeFrontmatterPatterns samples)))
  = List.length (filter (fun k => atLeast 0.8 (sampleFrequency k samples))
                        (fieldNames samples)).
Proof.
  intros Hwf. rewrite <- (length_map fieldName), (map_filter_names samples Hwf).
  apply Permutation_length, filter_Permutation, names_Permutation.
Qed.

(** The score on two samples or more, as a function of the four tests. *)
Lemma confidence_by_tests (samples : list Obj) :
  wellFormed samples -> (2 <= List.length samples)%nat ->
  confidence (analyzeFrontmatterPatterns samples)
  = Qmin
      (let c := 0.6 in
       let c := if atLeast 0.8 (sampleFrequency "title" samples) then c + 0.2 else c in
       let c := if existsb (fun alias => atLeast 0.8 (sampleFrequency alias samples))
                           ["date"; "publishedAt"; "publishDate"]
                then c + 0.2 else c in
       let c := if (3 <=? List.length
                            (filter (fun k => atLeast 0.8 (sampleFrequency k samples))
                                    (fieldNames samples)))%nat
                then c + 0.1 else c in
       if (5 <=? List.length samples)%nat then c + 0.1 else c)
      1.0.
Proof.
  intros Hwf Hlen. rewrite confidence_eq. unfold calculateConfidence.
  assert ((List.length samples <? 2)%nat = false) as -> by (apply Nat.ltb_ge; exact Hlen).
  cbv zeta.
  rewrite (frequent_field_spec samples "title" Hwf), (date_alias_spec samples Hwf),
    (required_count_spec samples Hwf).
  reflexivity.
Qed.


Lemma sameFieldSet_prefix (a b : list Obj) : sameFieldSet (a ++ b) -> sameFieldSet a.
Proof.
  intros H s1 s2 H1 H2. apply H; apply in_app_iff; now left.
Qed.

Lemma wellFormed_prefix (a b : list Obj) : wellFormed (a ++ b) -> wellFormed a.
Proof. unfold wellFormed. intro H. now apply Forall_app in H. Qed.

Lemma filter_all {A : Type} (keep : A -> bool) (l : list A) :
  (forall x, In x l -> keep x = true) -> filter keep l = l.
Proof.
  induction l as [|x rest IH]; intros H; [reflexivity|].
  simpl. rewrite (H x (or_introl eq_refl)). f_equal. apply IH. intros y Hy. apply H. now right.
Qed.

Lemma occurrences_everywhere (samples : list Obj) (k : string) :
  sameFieldSet samples -> In k (fieldNames samples) ->
  occurrences k samples = List.length samples.
Proof.
  intros Hsame Hk. apply fieldNames_In in Hk. destruct Hk as [s0 [Hs0 Hk0]].
  unfold occurrences. rewrite filter_all; [reflexivity|].
  intros s Hs. apply hasKey_In. now apply (Hsame s0 s Hs0 Hs k).
Qed.

Lemma ofNat_nonzero (n : nat) : (1 <= n)%nat -> ~ ofNat n == 0.
Proof.
  intros Hn H. unfold ofNat, inject_Z, Qeq in H. simpl in H. lia.
Qed.

Lemma atLeast_whole (n : nat) : (1 <= n)%nat -> atLeast 0.8 (ofNat n / ofNat n) = true.
Proof.
  intros Hn. apply atLeast_iff. unfold Qdiv.
  rewrite (Qmult_inv_r _ (ofNat_nonzero n Hn)). intro H. discriminate H.
Qed.

Lemma seen_is_frequent (samples : list Obj) (k : string) :
  sameFieldSet samples -> In k (fieldNames samples) ->
  atLeast 0.8 (sampleFrequency k samples) = true.
Proof.
  intros Hsame Hk. unfold sampleFrequency.
  rewrite (occurrences_everywhere samples k Hsame Hk).
  apply atLeast_whole. apply fieldNames_In in Hk. destruct Hk as [s [Hs _]].
  destruct samples; [destruct Hs|simpl; lia].
Qed.

Lemma fieldNames_extension (a b : list Obj) (k : string) :
  a <> [] -> sameFieldSet (a ++ b) ->
  (In k (fieldNames a) <-> In k (fieldNames (a ++ b))).
Proof.
  intros Hne Hsame. rewrite !fieldNames_In. split.
  - intros [s [Hs Hk]]. exists s. split; [apply in_app_iff; now left|exact Hk].
  - intros [s [Hs Hk]]. destruct a as [|s0 rest]; [contradiction|].
    exists s0. split; [now left|].
    apply (Hsame s s0 Hs (or_introl eq_refl) k). exact Hk.
Qed.

Lemma frequent_extension (a b : list Obj) (k : string) :
  a <> [] -> sameFieldSet (a ++ b) ->
  atLeast 0.8 (sampleFrequency k a) = atLeast 0.8 (sampleFrequency k (a ++ b)).
Proof.
  intros Hne Hsame. pose proof (sameFieldSet_prefix a b Hsame) as Hsame'.
  apply eq_true_iff_eq. split; intros H.
  - apply seen_is_frequent; [exact Hsame|].
    apply (fieldNames_extension a b k Hne Hsame). now apply frequent_is_seen.
  - apply seen_is_frequent; [exact Hsame'|].
    apply (fieldNames_extension a b k Hne Hsame). now apply frequent_is_seen.
Qed.

Lemma required_count_extension (a b : list Obj) :
  a <> [] -> sameFieldSet (a ++ b) ->
  List.length (filter (fun k => atLeast 0.8 (sampleFrequency k a)) (fieldNames a))
  = List.length (filter (fun k => atLeast 0.8 (sampleFrequency k (a ++ b)))
                        (fieldNames (a ++ b))).
Proof.
  intros Hne Hsame. pose proof (sameFieldSet_prefix a b Hsame) as Hsame'.
  rewrite !filter_all by (intros k Hk; now apply seen_is_frequent).
  apply Permutation_length, NoDup_Permutation.
  - apply NoDup_nodup.
  - apply NoDup_nodup.
  - intro k. now apply fieldNames_extension.
Qed.

(** C5: when all samples carry the same field set, the confidence learned
    from a list extended by further samples is at least the confidence
    learned from the prefix; on no sample or one it is exactly 0.5.  The
    value types of the samples play no part. *)
Theorem confidence_monotone :
  (forall prefix extension : list Obj,
     wellFormed (prefix ++ extension) -> sameFieldSet (prefix ++ extension) ->
     confidence (analyzeFrontmatterPatterns prefix)
     <= confidence (analyzeFrontmatterPatterns (prefix ++ extension)))
  /\ (forall samples : list Obj,
        (List.length samples <= 1)%nat ->
        confidence (analyzeFrontmatterPatterns samples) = 0.5).
Proof.
  split.
  - intros a b Hwf Hsame.
    destruct (Nat.lt_ge_cases (List.length a) 2) as [Hshort|Hlong].
    + rewrite (confidence_few_samples a Hshort), confidence_eq.
      apply calculateConfidence_bounds.
    + assert (a <> []) as Hne by (intro; subst; simpl in Hlong; lia).
      rewrite (confidence_by_tests a (wellFormed_prefix a b Hwf) Hlong).
      rewrite (confidence_by_tests (a ++ b) Hwf)
        by (rewrite length_app; lia).
      cbv zeta. simpl existsb.
      rewrite <- !(frequent_extension a b _ Hne Hsame).
      rewrite <- (required_count_extension a b Hne Hsame).
      assert ((5 <=? List.length a)%nat = true -> (5 <=? List.length (a ++ b))%nat = true) as Hmono.
      { rewrite !Nat.leb_le, length_app. lia. }
      destruct (atLeast 0.8 (sampleFrequency "title" a)),
        (atLeast 0.8 (sampleFrequency "date" a)),
        (atLeast 0.8 (sampleFrequency "publishedAt" a)),
        (atLeast 0.8 (sampleFrequency "publishDate" a)),
        (3 <=? List.length _)%nat,
        (5 <=? List.length a)%nat, (5 <=? List.length (a ++ b))%nat;
        try (specialize (Hmono eq_refl); discriminate Hmono);
        vm_compute; intro H; discriminate H.
  - intros samples Hlen. apply confidence_few_samples. lia.
Qed.

End PatternFacts.

(** ** Template defaults *)

Section TemplateFacts.
Import PatternDetection Spec.










End TemplateFacts.

(** ** Detection and the choice of template *)

Section DetectionFacts.
Import PatternDetection Spec Index.

Lemma totalPosts_eq (samples : list Obj) :
  totalPosts (analyzeFrontmatterPatterns samples) = List.length samples.
Proof.
  unfold analyzeFrontmatterPatterns.
  destruct (categorize _) as [[req opt] rare]. reflexivity.
Qed.

(** What the detection returns on a path that is missing or a directory. *)
Lemma detect_on_directory (matter : string -> Completion string Obj) (now : JsDate)
    (fs : FileSystem) (contentDir : string) (maxPosts : nat) :
  detectFrontmatterPattern matter now fs contentDir maxPosts
  = match fs contentDir with
    | Missing => Returns (failure ("Directory not found: " ++ contentDir))
    | NotADirectory => Throws "ENOTDIR"
    | Directory listing =>
        let markdownFiles :=
          firstn maxPosts (filter (fun f => String.eqb (extname (fst f)) ".md") listing) in
        match markdownFiles with
        | [] => Returns (failure "No markdown files found to analyze")
        | _ =>
            match collectSamples matter markdownFiles with
            | [] => Returns (failure "No valid frontmatter found in existing posts")
            | samples =>
                Returns
                  {| pattern := Some (analyzeFrontmatterPatterns samples);
                     success := true;
                     message :=
                       "Analyzed " ++ showNat (List.length samples)
                       ++ " posts, confidence: "
                       ++ showNat (mathRound
                                     (confidence (analyzeFrontmatterPatterns samples) * 100))
                       ++ "%";
                     suggestedTemplate :=
                       Some (generateTemplate now (analyzeFrontmatterPatterns samples)) |}
            end
        end
    end.
Proof.
  unfold detectFrontmatterPattern, existsSync, readdirSync.
  destruct (fs contentDir) as [| |listing]; [reflexivity|reflexivity|].
  cbv zeta. simpl negb. cbv iota.
  destruct (firstn maxPosts _) as [|f files]; [reflexivity|].
  destruct (collectSamples matter (f :: files)) as [|s samples]; reflexivity.
Qed.

(** Only the files whose frontmatter parses to a non-empty map are kept. *)
Lemma collectSamples_kept (matter : string -> Completion string Obj)
    (files : list (string * DirEntry)) (data : Obj) :
  In data (collectSamples matter files)
  <-> exists name content,
        In (name, RegularFile content) files
        /\ matter content = Returns data /\ data <> [].
Proof.
  induction files as [|[name entry] rest IH]; simpl.
  - split; [intros []|intros [n [c [[] _]]]].
  - unfold sampleOf. destruct entry as [content|]; simpl.
    + destruct (matter content) as [d|err] eqn:Em.
      * destruct d as [|e d'] eqn:Ed; simpl.
        -- rewrite IH. split.
           ++ intros [n [c [Hin H]]]. exists n, c. split; [now right|exact H].
           ++ intros [n [c [[Heq|Hin] [Hm Hne]]]].
              ** inversion Heq; subst. rewrite Em in Hm. inversion Hm; subst. contradiction.
              ** exists n, c. auto.
        -- split.
           ++ intros [<-|Hin].
              ** exists name, content. split; [now left|]. split; [exact Em|discriminate].
              ** apply IH in Hin. destruct Hin as [n [c [Hin H]]]. exists n, c. split; [now right|exact H].
           ++ intros [n [c [[Heq|Hin] [Hm Hne]]]].
              ** inversion Heq; subst. rewrite Em in Hm. inversion Hm; subst. now left.
              ** right. apply IH. exists n, c. auto.
      * rewrite IH. split.
        -- intros [n [c [Hin H]]]. exists n, c. split; [now right|exact H].
        -- intros [n [c [[Heq|Hin] [Hm Hne]]]].
           ++ inversion Heq; subst. rewrite Em in Hm. discriminate Hm.
           ++ exists n, c. auto.
    + rewrite IH. split.
      * intros [n [c [Hin H]]]. exists n, c. split; [now right|exact H].
      * intros [n [c [[Heq|Hin] H]]]; [discriminate Heq|]. exists n, c. auto.
Qed.

(** C9, as amended: when [contentDir] is missing or is a directory,
    [detectFrontmatterPattern] returns a result.  A missing directory, a
    directory without markdown files and a directory whose files yield no
    non-empty frontmatter give [success = false] with three different
    messages; otherwise [success = true] and [totalPosts] counts the files
    that parsed, so one valid post next to one the codec rejects counts 1. *)
Theorem detection_reports_failures (matter : string -> Completion string Obj)
    (now : JsDate) (fs : FileSystem) (contentDir : string) (maxPosts : nat) :
  fs contentDir <> NotADirectory ->
  (exists result,
     detectFrontmatterPattern matter now fs contentDir maxPosts = Returns result
     /\ (fs contentDir = Missing ->
         success result = false
         /\ message result = ("Directory not found: " ++ contentDir)%string)
     /\ (forall listing, fs contentDir = Directory listing ->
         let markdownFiles :=
           firstn maxPosts (filter (fun f => String.eqb (extname (fst f)) ".md") listing) in
         (markdownFiles = [] ->
          success result = false
          /\ message result = "No markdown files found to analyze")
         /\ (markdownFiles <> [] -> collectSamples matter markdownFiles = [] ->
             success result = false
             /\ message result = "No valid frontmatter found in existing posts")
         /\ (collectSamples matter markdownFiles <> [] ->
             success result = true
             /\ exists p, pattern result = Some p
                  /\ totalPosts p = List.length (collectSamples matter markdownFiles))))
  /\ (("Directory not found: " ++ contentDir)%string <> "No markdown files found to analyze"
      /\ ("Directory not found: " ++ contentDir)%string
         <> "No valid frontmatter found in existing posts"
      /\ "No markdown files found to analyze"
         <> "No valid frontmatter found in existing posts")
  /\ (forall (files : list (string * DirEntry)) (data : Obj),
        In data (collectSamples matter files)
        <-> exists name content,
              In (name, RegularFile content) files
              /\ matter content = Returns data /\ data <> [])
  /\ (forall (good bad goodName badName : string) (data : Obj) (err : string)
             (result : DetectionResult),
        matter good = Returns data -> data <> [] -> matter bad = Throws err ->
        extname goodName = ".md" -> extname badName = ".md" -> (2 <= maxPosts)%nat ->
        fs contentDir = Directory [(badName, RegularFile bad); (goodName, RegularFile good)]
        \/ fs contentDir = Directory [(goodName, RegularFile good); (badName, RegularFile bad)] ->
        detectFrontmatterPattern matter now fs contentDir maxPosts = Returns result ->
        success result = true /\ option_map totalPosts (pattern result) = Some 1%nat).
Proof.
  intros Hdir. split; [|split; [|split]].
  - rewrite detect_on_directory.
    destruct (fs contentDir) as [| |listing] eqn:Efs; [| contradiction |].
    + eexists. split; [reflexivity|]. split.
      * intros _. split; reflexivity.
      * intros listing H. discriminate H.
    + cbv zeta.
      destruct (firstn maxPosts _) as [|f files] eqn:Emd.
      * eexists. split; [reflexivity|]. split; [intros H; discriminate H|].
        intros listing' H. inversion H; subst listing'. cbv zeta. rewrite Emd.
        split; [intros _; split; reflexivity|]. split; [intros H'; contradiction|].
        intros H'. simpl in H'. contradiction.
      * destruct (collectSamples matter (f :: files)) as [|smp samples] eqn:Ec.
        -- eexists. split; [reflexivity|]. split; [intros H; discriminate H|].
           intros listing' H. inversion H; subst listing'. cbv zeta. rewrite Emd, Ec.
           split; [intros H'; discriminate H'|]. split; [intros _ _; split; reflexivity|].
           intros H'. contradiction.
        -- eexists. split; [reflexivity|]. split; [intros H; discriminate H|].
           intros listing' H. inversion H; subst listing'. cbv zeta. rewrite Emd, Ec.
           split; [intros H'; discriminate H'|]. split; [intros _ H'; discriminate H'|].
           intros _. split; [reflexivity|]. eexists. split; [reflexivity|].
           apply totalPosts_eq.
  - repeat split; intro H; discriminate H.
  - apply collectSamples_kept.
  - intros good bad goodName badName data err result Hgood Hne Hbad Egood Ebad Hmax Hfs.
    rewrite detect_on_directory.
    destruct maxPosts as [|[|n]]; [lia|lia|].
    destruct data as [|e d]; [contradiction|].
    destruct Hfs as [-> | ->]; cbv zeta; cbn [filter fst]; rewrite Egood, Ebad;
      cbn [String.eqb Ascii.eqb Bool.eqb firstn]; rewrite firstn_nil;
      cbn [collectSamples]; unfold sampleOf, readFileSync; rewrite Hgood, Hbad;
      cbn [keys map List.length Nat.ltb Nat.leb];
      intros Hret; inversion Hret; subst result; cbn [success pattern option_map];
      rewrite totalPosts_eq; split; reflexivity.
Qed.

Lemma truthy_confidence (samples : list Obj) :
  truthy (confidence (analyzeFrontmatterPatterns samples)) = true.
Proof.
  unfold truthy. destruct (Qeq_bool _ 0) eqn:E; [|reflexivity].
  apply Qeq_bool_iff in E. exfalso.
  rewrite confidence_eq in E.
  destruct (calculateConfidence_bounds
              (commonFields (analyzeFrontmatterPatterns samples)) (List.length samples))
    as [_ [Hlo _]].
  rewrite E in Hlo. apply Hlo. reflexivity.
Qed.

Lemma lessThan_iff (x y : Q) : lessThan x y = true <-> x < y.
Proof.
  unfold lessThan. rewrite negb_true_iff. split.
  - intros H. apply Qnot_le_lt. intro Hle. apply Qle_bool_iff in Hle. congruence.
  - intros H. destruct (Qle_bool y x) eqn:E; [|reflexivity].
    apply Qle_bool_iff in E. exfalso. now apply (Qlt_not_le x y).
Qed.

Lemma truthy_above (q : Q) : lessThan 0.8 q = true -> truthy q = true.
Proof.
  intros H. apply lessThan_iff in H. unfold truthy.
  destruct (Qeq_bool q 0) eqn:E; [|reflexivity].
  apply Qeq_bool_iff in E. rewrite E in H. discriminate H.
Qed.

(** The choice once both models are there and no field conflicts. *)
Lemma prefer_by_confidence (detection : DetectionResult)
    (frameworkDetection : FrameworkDetectionResult) (framework : FrameworkInfo)
    (p : FrontmatterPattern) (template : Obj) :
  primary frameworkDetection = Some framework ->
  success detection = true ->
  suggestedTemplate detection = Some template ->
  pattern detection = Some p ->
  emptyObjectConflict detection frameworkDetection = false ->
  truthy (confidence p) = true ->
  shouldPreferFrameworkOverPattern detection frameworkDetection
  = lessThan (confidence p) 0.7 && lessThan 0.8 (frameworkConfidence framework).
Proof.
  intros Hprim Hsucc Htemp Hpat Hconf Htruthy.
  unfold shouldPreferFrameworkOverPattern, emptyObjectConflict in *.
  rewrite Hprim, Hsucc, Htemp, Hpat. rewrite Htemp in Hconf.
  assert ((match schemaAnalysis frameworkDetection with
           | Some analysis => analysisSuccess analysis && detectSchemaConflicts template analysis
           | None => false
           end) = false) as ->.
  { destruct (schemaAnalysis frameworkDetection); [exact Hconf|reflexivity]. }
  rewrite Htruthy. simpl.
  destruct (lessThan 0.8 (frameworkConfidence framework)) eqn:E.
  - rewrite (truthy_above _ E). now rewrite !andb_true_r.
  - now rewrite !andb_false_r.
Qed.

Lemma detection_success_shape (matter : string -> Completion string Obj) (now : JsDate)
    (fs : FileSystem) (contentDir : string) (maxPosts : nat) (result : DetectionResult) :
  detectFrontmatterPattern matter now fs contentDir maxPosts = Returns result ->
  success result = true ->
  exists samples,
    pattern result = Some (analyzeFrontmatterPatterns samples)
    /\ suggestedTemplate result
       = Some (generateTemplate now (analyzeFrontmatterPatterns samples)).
Proof.
  rewrite detect_on_directory. intros Hret Hsucc.
  destruct (fs contentDir) as [| |listing].
  - inversion Hret; subst. discriminate Hsucc.
  - discriminate Hret.
  - cbv zeta in Hret. destruct (firstn maxPosts _) as [|f files].
    + inversion Hret; subst. discriminate Hsucc.
    + destruct (collectSamples matter (f :: files)) as [|smp samples].
      * inversion Hret; subst. discriminate Hsucc.
      * inversion Hret; subst. exists (smp :: samples). split; reflexivity.
Qed.

(** C7: for a detection that succeeded, a framework that was found and a
    template without empty-object conflict, the framework is preferred
    exactly when the pattern confidence is below 0.7 and the framework
    confidence above 0.8; 0.5 against 0.9 selects the framework template,
    0.9 against 0.5 the pattern. *)
Theorem framework_preferred_on_low_confidence
    (matter : string -> Completion string Obj) (now : JsDate) (fs : FileSystem)
    (contentDir : string) (maxPosts : nat) (detection : DetectionResult)
    (frameworkDetection : FrameworkDetectionResult) (framework : FrameworkInfo) :
  detectFrontmatterPattern matter now fs contentDir maxPosts = Returns detection ->
  success detection = true ->
  primary frameworkDetection = Some framework ->
  emptyObjectConflict detection frameworkDetection = false ->
  exists p,
    pattern detection = Some p
    /\ (shouldPreferFrameworkOverPattern detection frameworkDetection = true
        <-> confidence p < 0.7 /\ 0.8 < frameworkConfidence framework)
    /\ (confidence p == 0.5 -> frameworkConfidence framework == 0.9 ->
        shouldPreferFrameworkOverPattern detection frameworkDetection = true
        /\ (frameworkTemplate frameworkDetection <> None ->
            selectTemplateSource detection frameworkDetection = FromFramework))
    /\ (confidence p == 0.9 -> frameworkConfidence framework == 0.5 ->
        shouldPreferFrameworkOverPattern detection frameworkDetection = false
        /\ selectTemplateSource detection frameworkDetection = FromPattern).
Proof.
  intros Hret Hsucc Hprim Hconf.
  destruct (detection_success_shape matter now fs contentDir maxPosts detection Hret Hsucc)
    as [samples [Hpat Htemp]].
  exists (analyzeFrontmatterPatterns samples). split; [exact Hpat|].
  pose proof (prefer_by_confidence detection frameworkDetection framework _ _
                Hprim Hsucc Htemp Hpat Hconf (truthy_confidence samples)) as Heq.
  split; [|split].
  - rewrite Heq, andb_true_iff, !lessThan_iff. tauto.
  - intros Hc Hf.
    assert (shouldPreferFrameworkOverPattern detection frameworkDetection = true) as Hpref.
    { rewrite Heq. apply andb_true_iff. rewrite !lessThan_iff, Hc, Hf. split; reflexivity. }
    split; [exact Hpref|]. intros Htpl.
    unfold selectTemplateSource. rewrite Hpref, Hsucc, Htemp, Hprim. simpl.
    destruct (frameworkTemplate frameworkDetection); [reflexivity|contradiction].
  - intros Hc Hf.
    assert (shouldPreferFrameworkOverPattern detection frameworkDetection = false) as Hpref.
    { rewrite Heq. apply andb_false_iff. left.
      destruct (lessThan (confidence (analyzeFrontmatterPatterns samples)) 0.7) eqn:E;
        [|reflexivity].
      apply lessThan_iff in E. rewrite Hc in E. discriminate E. }
    split; [exact Hpref|].
    unfold selectTemplateSource. rewrite Hpref, Hsucc, Htemp. reflexivity.
Qed.

End DetectionFacts.

(** ** Schema fields *)

Section SchemaFacts.
Import SchemaIntrospection Spec.

Lemma mockCoerceDate_overflows (stack : nat) : mockCoerceDate stack = Throws RangeError.
Proof.
  induction stack as [|frames IH]; [reflexivity|]. simpl. now rewrite IH.
Qed.

Lemma evalMock_object (stack : nat) (shape : list (string * ZExpr)) :
  evalMock stack (EObject shape)
  = match evalMembers stack shape with
    | Returns s => Returns (addChaining (bare (ZodObject s)))
    | Throws err => Throws err
    end.
Proof.
  simpl.
  match goal with
  | |- match ?f shape with _ => _ end = _ =>
      assert (f shape = evalMembers stack shape) as ->; [|reflexivity]
  end.
  induction shape as [|[k e] rest IH]; [reflexivity|].
  simpl. destruct (evalMock stack e); [|reflexivity]. now rewrite IH.
Qed.

Lemma evalMembers_coerce_date (stack : nat) (shape : list (string * ZExpr)) (k : string) :
  In (k, ECoerceDate) shape -> exists err, evalMembers stack shape = Throws err.
Proof.
  induction shape as [|[k' e] rest IH]; intros Hin; [destruct Hin|].
  simpl. destruct Hin as [Heq|Hin].
  - inversion Heq; subst. simpl. rewrite mockCoerceDate_overflows. eauto.
  - destruct (evalMock stack e); [|eauto].
    destruct (IH Hin) as [err ->]. eauto.
Qed.

(** The mock path on a schema that coerces a date: nothing is analysed. *)
Lemma mock_fails_on_coerce_date (stack : nat) (shape : list (string * ZExpr)) (k : string) :
  In (k, ECoerceDate) shape ->
  analyzeSchemaFromConfig stack (EObject shape) = failedAnalysis.
Proof.
  intros Hin. unfold analyzeSchemaFromConfig, extractAndExecuteZodSchema.
  rewrite evalMock_object.
  destruct (evalMembers_coerce_date stack shape k Hin) as [err ->]. reflexivity.
Qed.

Lemma parse_required (k : string) (d : ZodDef) :
  required (parseZodFieldDefinition k d) = negb (isZodFieldOptional d).
Proof. unfold parseZodFieldDefinition. destruct (getZodFieldType d). reflexivity. Qed.

Lemma parse_default (k : string) (d : ZodDef) :
  defaultValue (parseZodFieldDefinition k d) = snd (getZodFieldType d).
Proof. unfold parseZodFieldDefinition. destruct (getZodFieldType d). reflexivity. Qed.

Lemma unwrapped_default (d : ZodDef) :
  isZodFieldOptional d = false ->
  snd (getZodFieldType d) = VUndefined /\ snd (getZodFieldType (ZodOptional d)) = VUndefined.
Proof.
  destruct d; intros H; try discriminate H; unfold getZodFieldType; simpl;
    try (destruct d); try (destruct (shapeHas "src" shape && shapeHas "alt" shape));
    split; reflexivity.
Qed.

Lemma default_is_read (value : JsValue) (inner : ZodDef) :
  snd (getZodFieldType (ZodDefault value inner)) = value
  /\ snd (getZodFieldType (ZodOptional (ZodDefault value inner))) = value.
Proof.
  unfold getZodFieldType; simpl.
  destruct inner as [| | | |elem|shape|schema|inner'|value' inner']; simpl;
    try (split; reflexivity).
  - destruct (shapeHas "src" shape && shapeHas "alt" shape); split; reflexivity.
  - destruct schema as [| | | |elem|shape| | |]; simpl; try (split; reflexivity).
    destruct (shapeHas "src" shape && shapeHas "alt" shape); split; reflexivity.
Qed.

Lemma chainable_is_unwrapped (stack : nat) (e : ZExpr) (v : MockValue) :
  evalMock stack e = Returns v -> chainable v = true ->
  declaredRequired e = true /\ declaredDefault e = VUndefined
  /\ isZodFieldOptional (def v) = false.
Proof.
  destruct e; intros Hev Hch.
  - inversion Hev; subst. repeat split.
  - inversion Hev; subst. repeat split.
  - inversion Hev; subst. repeat split.
  - inversion Hev; subst. repeat split.
  - simpl in Hev. rewrite mockCoerceDate_overflows in Hev. discriminate Hev.
  - simpl in Hev. destruct (evalMock stack e); inversion Hev; subst. repeat split.
  - rewrite evalMock_object in Hev.
    destruct (evalMembers stack shape); inversion Hev; subst. repeat split.
  - simpl in Hev. destruct (evalMock stack e) as [v'|]; [|discriminate Hev].
    destruct (chainable v'); inversion Hev; subst; discriminate Hch.
  - simpl in Hev. destruct (evalMock stack e) as [v'|]; [|discriminate Hev].
    destruct (chainable v'); inversion Hev; subst; discriminate Hch.
Qed.

(** What the mock evaluation leaves of a member's declaration. *)
Lemma mock_field_of_declaration (stack : nat) (k : string) (e : ZExpr) (v : MockValue) :
  evalMock stack e = Returns v ->
  required (parseZodFieldDefinition k (def v)) = declaredRequired e
  /\ defaultValue (parseZodFieldDefinition k (def v)) = declaredDefault e.
Proof.
  rewrite parse_required, parse_default. intros Hev.
  destruct (chainable v) eqn:Ech.
  - destruct (chainable_is_unwrapped stack e v Hev Ech) as [-> [-> Hd]].
    rewrite Hd. split; [reflexivity|]. apply (unwrapped_default _ Hd).
  - destruct e.
    + inversion Hev; subst; discriminate Ech.
    + inversion Hev; subst; discriminate Ech.
    + inversion Hev; subst; discriminate Ech.
    + inversion Hev; subst; discriminate Ech.
    + simpl in Hev. rewrite mockCoerceDate_overflows in Hev. discriminate Hev.
    + simpl in Hev. destruct (evalMock stack e); inversion Hev; subst; discriminate Ech.
    + rewrite evalMock_object in Hev.
      destruct (evalMembers stack shape); inversion Hev; subst; discriminate Ech.
    + simpl in Hev. destruct (evalMock stack e) as [v'|] eqn:Ev; [|discriminate Hev].
      destruct (chainable v') eqn:Ech'; inversion Hev; subst.
      destruct (chainable_is_unwrapped stack e v' Ev Ech') as [_ [Hdd Hd]].
      simpl. rewrite Hdd. split; [reflexivity|]. apply (unwrapped_default _ Hd).
    + simpl in Hev. destruct (evalMock stack e) as [v'|] eqn:Ev; [|discriminate Hev].
      destruct (chainable v') eqn:Ech'; inversion Hev; subst.
      destruct (chainable_is_unwrapped stack e v' Ev Ech') as [_ [_ Hd]].
      simpl. split; [reflexivity|]. apply default_is_read.
Qed.

(** C2, against the claim: the text fallback reports [draft] with its
    default [false] and as required. *)
Lemma text_fallback_keeps_default_required :
  option_map (fun f => (name f, required f, defaultValue f))
             (parseSchemaField Examples.parseEmptyArray "draft: z.boolean().default(false),")
  = Some ("draft", true, VBool false).
Proof. vm_compute. reflexivity. Qed.

Lemma zodIsOptional_declared (e : ZExpr) :
  AstroSchemaAnalyzer.zodIsOptional e = negb (declaredRequired e).
Proof. destruct e; reflexivity. Qed.

Lemma jdefault_declared (e : ZExpr) :
  AstroSchemaAnalyzer.jdefault (AstroSchemaAnalyzer.zodToJson true e) = declaredDefault e.
Proof.
  induction e; try reflexivity.
  simpl. exact IHe.
Qed.

Lemma defined_default_not_required (e : ZExpr) :
  isDefined (declaredDefault e) = true -> declaredRequired e = false.
Proof. destruct e; simpl; intro H; try discriminate H; reflexivity. Qed.

Lemma includesStr_In (k : string) (l : list string) : includesStr k l = true <-> In k l.
Proof.
  unfold includesStr. rewrite existsb_exists. split.
  - intros [x [Hx E]]. apply String.eqb_eq in E. now subst.
  - intros H. exists k. split; [exact H|apply String.eqb_refl].
Qed.

Lemma required_member (shape : list (string * ZExpr)) (m : string * ZExpr) :
  NoDup (map fst shape) -> In m shape ->
  includesStr (fst m)
    (map fst (filter (fun m => negb (AstroSchemaAnalyzer.zodIsOptional (snd m))) shape))
  = declaredRequired (snd m).
Proof.
  intros Hnd Hin. apply eq_true_iff_eq. rewrite includesStr_In, in_map_iff. split.
  - intros [m' [E Hm']]. apply filter_In in Hm'. destruct Hm' as [Hin' Hreq].
    assert (m' = m) by (apply (NoDup_map_inj fst shape); auto). subst m'.
    rewrite zodIsOptional_declared, negb_involutive in Hreq. exact Hreq.
  - intros Hreq. exists m. split; [reflexivity|]. apply filter_In. split; [exact Hin|].
    now rewrite zodIsOptional_declared, negb_involutive.
Qed.

(** The fields the JSON-Schema path reports, member by member. *)
Lemma json_fields (collection : string) (shape : list (string * ZExpr)) :
  NoDup (map fst shape) ->
  AstroSchemaAnalyzer.fields (AstroSchemaAnalyzer.parseCollection collection (EObject shape))
  = map (fun m => AstroSchemaAnalyzer.parseJsonSchemaField
                    (fst m) (AstroSchemaAnalyzer.zodToJson true (snd m))
                    (declaredRequired (snd m))) shape.
Proof.
  intros Hnd. unfold AstroSchemaAnalyzer.parseCollection. cbn [AstroSchemaAnalyzer.fields].
  unfold AstroSchemaAnalyzer.extractFieldsFromJsonSchema, AstroSchemaAnalyzer.zodToJsonSchema.
  cbn [AstroSchemaAnalyzer.ref AstroSchemaAnalyzer.definitions].
  assert ((("#/definitions/" ++ (collection ++ "Collection")) =? "")%string = false)
    as -> by reflexivity.
  assert (Text.replaceFirst "#/definitions/" "" ("#/definitions/" ++ (collection ++ "Collection"))
          = (collection ++ "Collection")%string) as -> by reflexivity.
  unfold AstroSchemaAnalyzer.lookupSchema. cbn [find fst snd]. rewrite String.eqb_refl.
  cbn [AstroSchemaAnalyzer.zodToJson AstroSchemaAnalyzer.properties AstroSchemaAnalyzer.jrequired].
  set (required := map fst (filter (fun m => negb (AstroSchemaAnalyzer.zodIsOptional (snd m))) shape)).
  cbn [snd AstroSchemaAnalyzer.properties AstroSchemaAnalyzer.jrequired].
  assert (match match required with [] => None | _ :: _ => Some required end with
          | Some l => l | None => [] end = required) as ->
      by (destruct required; reflexivity).
  rewrite map_map. apply map_ext_in. intros m Hm. cbn [fst snd].
  unfold required. now rewrite (required_member shape m Hnd Hm).
Qed.

Lemma length_filter_map {A B : Type} (f : A -> B) (p : B -> bool) (l : list A) :
  List.length (filter p (map f l)) = List.length (filter (fun x => p (f x)) l).
Proof.
  induction l as [|x rest IH]; [reflexivity|].
  simpl. destruct (p (f x)); simpl; now rewrite IH.
Qed.

(** C1, as amended: for every object schema with the six round-trip
    declarations, under any names and in any order, the JSON-Schema analysis
    reports exactly 4 required fields and 2 optional ones, each field
    required exactly when its declaration has no wrapper, and the optional
    ones carry the literal defaults [[]] and [false]. *)
Theorem round_trip_classification (collection : string) (shape : list (string * ZExpr)) :
  NoDup (map fst shape) ->
  Permutation (map snd shape) roundTripDeclarations ->
  let c := AstroSchemaAnalyzer.parseCollection collection (EObject shape) in
  List.length (AstroSchemaAnalyzer.requiredFields c) = 4%nat
  /\ List.length (AstroSchemaAnalyzer.optionalFields c) = 2%nat
  /\ map (fun f => (AstroSchemaAnalyzer.name f, AstroSchemaAnalyzer.required f,
                    AstroSchemaAnalyzer.defaultValue f))
         (AstroSchemaAnalyzer.fields c)
     = map (fun m => (fst m, declaredRequired (snd m), declaredDefault (snd m))) shape
  /\ (forall f, In f (AstroSchemaAnalyzer.optionalFields c) ->
        AstroSchemaAnalyzer.defaultValue f = VArray []
        \/ AstroSchemaAnalyzer.defaultValue f = VBool false).
Proof.
  intros Hnd Hperm c.
  pose proof (json_fields collection shape Hnd) as Hfields. fold c in Hfields.
  assert (AstroSchemaAnalyzer.requiredFields c
          = filter (fun f => AstroSchemaAnalyzer.required f) (AstroSchemaAnalyzer.fields c))
    as Hreq by reflexivity.
  assert (AstroSchemaAnalyzer.optionalFields c
          = filter (fun f => negb (AstroSchemaAnalyzer.required f)) (AstroSchemaAnalyzer.fields c))
    as Hopt by reflexivity.
  rewrite Hreq, Hopt, Hfields. clear Hreq Hopt Hfields.
  repeat split.
  - rewrite length_filter_map. cbn [AstroSchemaAnalyzer.required AstroSchemaAnalyzer.parseJsonSchemaField].
    rewrite <- (length_filter_map snd declaredRequired).
    rewrite (Permutation_length (filter_Permutation declaredRequired _ _ Hperm)). reflexivity.
  - rewrite length_filter_map. cbn [AstroSchemaAnalyzer.required AstroSchemaAnalyzer.parseJsonSchemaField].
    rewrite <- (length_filter_map snd (fun e => negb (declaredRequired e))).
    rewrite (Permutation_length (filter_Permutation _ _ _ Hperm)). reflexivity.
  - rewrite map_map. apply map_ext. intros m.
    cbn [AstroSchemaAnalyzer.name AstroSchemaAnalyzer.required AstroSchemaAnalyzer.defaultValue
         AstroSchemaAnalyzer.parseJsonSchemaField].
    now rewrite jdefault_declared.
  - intros f Hf. apply filter_In in Hf. destruct Hf as [Hf Hopt].
    apply in_map_iff in Hf. destruct Hf as [m [<- Hm]].
    cbn [AstroSchemaAnalyzer.required AstroSchemaAnalyzer.defaultValue
         AstroSchemaAnalyzer.parseJsonSchemaField] in *.
    rewrite jdefault_declared.
    assert (In (snd m) roundTripDeclarations) as Hdecl.
    { apply (Permutation_in _ Hperm). now apply in_map. }
    simpl in Hdecl.
    destruct Hdecl as [E|[E|[E|[E|[E|[E|[]]]]]]]; rewrite <- E in *; simpl in *;
      try discriminate Hopt; auto.
Qed.

(** C1, against the claim: the round-trip schema has four required fields,
    not two. *)
Lemma round_trip_reports_four_required :
  List.length (AstroSchemaAnalyzer.requiredFields
                 (AstroSchemaAnalyzer.parseCollection "blog" Examples.roundTripSchema)) = 4%nat
  /\ List.length (AstroSchemaAnalyzer.requiredFields
                    (AstroSchemaAnalyzer.parseCollection "blog" Examples.roundTripSchema)) <> 2%nat.
Proof. split; [reflexivity|]. intro H. discriminate H. Qed.

Lemma parseSchemaField_required (JSON_parse : string -> option JsValue)
    (fieldLine : string) (f : SchemaField) :
  parseSchemaField JSON_parse fieldLine = Some f ->
  exists fieldDefinition,
    matchFieldLine
      (Text.trim (if Text.endsWithChar "," fieldLine then Text.dropLast fieldLine else fieldLine))
    = Some (name f, fieldDefinition)
    /\ required f = negb (Text.strIncludes ".optional()" fieldDefinition).
Proof.
  unfold parseSchemaField. cbv zeta.
  destruct (matchFieldLine _) as [[fieldName fieldDefinition]|]; [|discriminate].
  destruct (parseFieldType JSON_parse fieldDefinition) as [ty dv].
  intros H. inversion H; subst. exists fieldDefinition. split; reflexivity.
Qed.

(** C2, as amended: on the mock-Zod path and on the JSON-Schema path a field
    with a default value is not required, and a field is required exactly
    when its declaration carries neither an optional wrapper nor a default;
    on the text fallback a field is required exactly when its definition
    text does not contain [.optional()]. *)
Theorem default_means_optional_at_run_time :
  (forall (k : string) (fieldDef : ZodDef),
     let f := parseZodFieldDefinition k fieldDef in
     (isDefined (defaultValue f) = true -> required f = false)
     /\ required f = negb (isZodFieldOptional fieldDef))
  /\ (forall (stack : nat) (k : string) (e : ZExpr) (v : MockValue),
        evalMock stack e = Returns v ->
        required (parseZodFieldDefinition k (def v)) = declaredRequired e)
  /\ (forall (collection : string) (shape : list (string * ZExpr))
             (f : AstroSchemaAnalyzer.AstroCollectionField),
        NoDup (map fst shape) ->
        In f (AstroSchemaAnalyzer.fields
                (AstroSchemaAnalyzer.parseCollection collection (EObject shape))) ->
        (isDefined (AstroSchemaAnalyzer.defaultValue f) = true ->
         AstroSchemaAnalyzer.required f = false)
        /\ exists e, In (AstroSchemaAnalyzer.name f, e) shape
                     /\ AstroSchemaAnalyzer.required f = declaredRequired e)
  /\ (forall (JSON_parse : string -> option JsValue) (fieldLine : string) (f : SchemaField),
        parseSchemaField JSON_parse fieldLine = Some f ->
        exists fieldDefinition,
          matchFieldLine
            (Text.trim (if Text.endsWithChar "," fieldLine
                        then Text.dropLast fieldLine else fieldLine))
          = Some (name f, fieldDefinition)
          /\ required f = negb (Text.strIncludes ".optional()" fieldDefinition)).
Proof.
  split; [|split; [|split]].
  - intros k fieldDef f. unfold f. rewrite parse_required, parse_default.
    split; [|reflexivity].
    destruct (isZodFieldOptional fieldDef) eqn:E; [reflexivity|].
    rewrite (proj1 (unwrapped_default fieldDef E)). intro H. discriminate H.
  - intros stack k e v Hev. apply (mock_field_of_declaration stack k e v Hev).
  - intros collection shape f Hnd Hf. rewrite (json_fields collection shape Hnd) in Hf.
    apply in_map_iff in Hf. destruct Hf as [[k e] [<- Hm]].
    cbn [AstroSchemaAnalyzer.required AstroSchemaAnalyzer.defaultValue AstroSchemaAnalyzer.name
         AstroSchemaAnalyzer.parseJsonSchemaField fst snd].
    split.
    + rewrite jdefault_declared. apply defined_default_not_required.
    + exists e. split; [exact Hm|reflexivity].
  - exact parseSchemaField_required.
Qed.

Lemma evalMembers_keys (stack : nat) (shape : list (string * ZExpr)) :
  forall s, evalMembers stack shape = Returns s -> map fst s = map fst shape.
Proof.
  induction shape as [|[k e] rest IH]; intros s Hev.
  - inversion Hev. reflexivity.
  - simpl in Hev. destruct (evalMock stack e); [|discriminate Hev].
    destruct (evalMembers stack rest) as [vs|]; [|discriminate Hev].
    inversion Hev; subst. simpl. f_equal. now apply IH.
Qed.

Lemma shapeHas_keys {A B : Type} (k : string) (s : list (string * A)) (t : list (string * B)) :
  map fst s = map fst t -> shapeHas k s = shapeHas k t.
Proof.
  revert t. induction s as [|[k1 a] rest IH]; intros [|[k2 b] rest'] H; try discriminate H.
  - reflexivity.
  - simpl in H. inversion H; subst. unfold shapeHas in *. simpl. f_equal. now apply IH.
Qed.

Lemma object_type_by_keys (shape : list (string * ZodDef)) :
  fst (getZodFieldType (ZodObject shape))
  = if shapeHas "src" shape && shapeHas "alt" shape then TImage else TObject.
Proof.
  unfold getZodFieldType. simpl.
  destruct (shapeHas "src" shape && shapeHas "alt" shape); reflexivity.
Qed.

(** C6, as amended: on both paths an object member is classified [image]
    exactly when its members include a key [src] and a key [alt], whatever
    else it holds, and [object] otherwise. *)
Theorem image_when_src_and_alt :
  (forall shape : list (string * ZodDef),
     fst (getZodFieldType (ZodObject shape))
     = if shapeHas "src" shape && shapeHas "alt" shape then TImage else TObject)
  /\ (forall (stack : nat) (members : list (string * ZExpr)) (v : MockValue),
        evalMock stack (EObject members) = Returns v ->
        fst (getZodFieldType (def v))
        = if shapeHas "src" members && shapeHas "alt" members then TImage else TObject)
  /\ (forall schema : AstroSchemaAnalyzer.JsonSchema,
        AstroSchemaAnalyzer.jtype schema = Some "object" ->
        AstroSchemaAnalyzer.mapJsonSchemaType schema
        = if AstroSchemaAnalyzer.hasProperty "src" schema
             && AstroSchemaAnalyzer.hasProperty "alt" schema
          then TImage else TObject)
  /\ (forall members : list (string * ZExpr),
        AstroSchemaAnalyzer.mapJsonSchemaType
          (AstroSchemaAnalyzer.zodToJson true (EObject members))
        = if shapeHas "src" members && shapeHas "alt" members then TImage else TObject).
Proof.
  split; [exact object_type_by_keys|split; [|split]].
  - intros stack members v Hev. rewrite evalMock_object in Hev.
    destruct (evalMembers stack members) as [s|] eqn:Es; [|discriminate Hev].
    inversion Hev; subst. cbn [def addChaining bare].
    rewrite object_type_by_keys.
    pose proof (evalMembers_keys stack members s Es) as Hk.
    now rewrite (shapeHas_keys "src" s members Hk), (shapeHas_keys "alt" s members Hk).
  - intros schema Ht. unfold AstroSchemaAnalyzer.mapJsonSchemaType. rewrite Ht. reflexivity.
  - intros members. unfold AstroSchemaAnalyzer.mapJsonSchemaType.
    cbn [AstroSchemaAnalyzer.zodToJson AstroSchemaAnalyzer.jtype]. simpl String.eqb. cbv iota.
    unfold AstroSchemaAnalyzer.hasProperty. cbn [AstroSchemaAnalyzer.properties].
    assert (forall k, shapeHas k (map (fun m => (fst m, AstroSchemaAnalyzer.zodToJson true (snd m))) members)
                      = shapeHas k members) as Hk.
    { intro k. apply shapeHas_keys. rewrite map_map. reflexivity. }
    now rewrite !Hk.
Qed.

(** C6, against the claim: an object with [src], [alt] and a third member
    is an image on both paths, and one with [url] and [alt] is an object. *)
Lemma captioned_image_is_image :
  onlySourceAndAlt (map fst Examples.captionedImage) = false
  /\ AstroSchemaAnalyzer.mapJsonSchemaType
       (AstroSchemaAnalyzer.zodToJson true (EObject Examples.captionedImage)) = TImage
  /\ option_map (fun f => type f)
                (hd_error (fields (analyzeSchemaFromConfig 0
                                     (EObject [("cover", EObject Examples.captionedImage)]))))
     = Some TImage
  /\ onlySourceAndAlt (map fst Examples.urlImage) = true
  /\ AstroSchemaAnalyzer.mapJsonSchemaType
       (AstroSchemaAnalyzer.zodToJson true (EObject Examples.urlImage)) = TObject.
Proof. repeat split. Qed.

End SchemaFacts.

(** ** The properties on the sample data *)

Section Instances.
Import SchemaIntrospection PatternDetection Spec Index.

Lemma mixedPosts_wellFormed : wellFormed Examples.mixedPosts.
Proof. repeat constructor; simpl; intuition discriminate. Qed.

Lemma consistentPosts_wellFormed : wellFormed Examples.consistentPosts.
Proof. repeat constructor; simpl; intuition discriminate. Qed.

Lemma consistentPosts_sameFieldSet : sameFieldSet Examples.consistentPosts.
Proof.
  intros s1 s2 H1 H2 k.
  assert (forall s, In s Examples.consistentPosts ->
                    keys s = ["title"; "date"; "author"; "tags"; "draft"]) as Hkeys.
  { intros s Hs. simpl in Hs. intuition (subst; reflexivity). }
  rewrite (Hkeys s1 H1), (Hkeys s2 H2). tauto.
Qed.

(** C3 on the posts of the mixed-pattern test. *)
Lemma frequency_partition_witness :
  In "title" (requiredFields (analyzeFrontmatterPatterns Examples.mixedPosts))
  /\ In "author" (optionalFields (analyzeFrontmatterPatterns Examples.mixedPosts)).
Proof.
  pose proof (frequency_partition Examples.mixedPosts mixedPosts_wellFormed) as H.
  cbv zeta in H. destruct H as [Hk _].
  assert (In "title" (fieldNames Examples.mixedPosts)) as H1 by (vm_compute; auto).
  assert (0.8 <= sampleFrequency "title" Examples.mixedPosts) as H2
    by (vm_compute; intro H; discriminate H).
  assert (In "author" (fieldNames Examples.mixedPosts)) as H3 by (vm_compute; auto 6).
  assert (0.2 <= sampleFrequency "author" Examples.mixedPosts
          /\ sampleFrequency "author" Examples.mixedPosts < 0.8) as H4
    by (split; [vm_compute; intro H; discriminate H|vm_compute; reflexivity]).
  exact (conj (proj1 (Hk "title" H1) H2) (proj1 (proj2 (Hk "author" H3)) H4)).
Defined.


(** C5 on two of the consistent posts, against all five. *)
Lemma confidence_monotone_witness :
  confidence (analyzeFrontmatterPatterns (firstn 2 Examples.consistentPosts))
  <= confidence (analyzeFrontmatterPatterns
                   (firstn 2 Examples.consistentPosts ++ skipn 2 Examples.consistentPosts)).
Proof.
  apply (proj1 confidence_monotone).
  - rewrite firstn_skipn. exact consistentPosts_wellFormed.
  - rewrite firstn_skipn. exact consistentPosts_sameFieldSet.
Defined.


(** C9, against the claim: a path that exists and is no directory. *)
Lemma detection_throws_on_a_file :
  detectFrontmatterPattern Examples.matter Examples.now Examples.disk "README.md" 10
  = Throws "ENOTDIR".
Proof. reflexivity. Qed.

(** C9 on the directory of the malformed-sample test. *)
Lemma detection_witness :
  exists result,
    detectFrontmatterPattern Examples.matter Examples.now Examples.disk
      "pattern-test-output" 10 = Returns result
    /\ success result = true
    /\ exists p, pattern result = Some p /\ totalPosts p = 1%nat.
Proof.
  assert (Examples.disk "pattern-test-output" <> NotADirectory) as Hdir
    by (vm_compute; intro H; discriminate H).
  destruct (detection_reports_failures Examples.matter Examples.now Examples.disk
              "pattern-test-output" 10 Hdir) as [[result [Hret [_ Hlist]]] _].
  exists result. split; [exact Hret|].
  destruct (Hlist _ eq_refl) as [_ [_ Hok]].
  apply Hok. vm_compute. intro H. discriminate H.
Defined.

(** C7 on the same directory, against an Astro project found at 0.9. *)
Lemma framework_preferred_witness :
  exists detection,
    detectFrontmatterPattern Examples.matter Examples.now Examples.disk
      "pattern-test-output" 10 = Returns detection
    /\ shouldPreferFrameworkOverPattern detection Examples.astro = true
    /\ selectTemplateSource detection Examples.astro = FromFramework.
Proof.
  eexists. split; [reflexivity|].
  match goal with
  | |- shouldPreferFrameworkOverPattern ?d _ = _ /\ _ =>
      destruct (framework_preferred_on_low_confidence
                  Examples.matter Examples.now Examples.disk "pattern-test-output" 10
                  d Examples.astro _ eq_refl eq_refl eq_refl eq_refl)
        as [p [Hp [_ [Hlow _]]]]
  end.
  inversion Hp; subst p.
  destruct (Hlow ltac:(vm_compute; reflexivity) ltac:(vm_compute; reflexivity)) as [H1 H2].
  split; [exact H1|]. apply H2. intro H. discriminate H.
Defined.

(** C1 on the round-trip schema as the examples name it. *)
Lemma round_trip_witness :
  List.length (AstroSchemaAnalyzer.requiredFields
                 (AstroSchemaAnalyzer.parseCollection "blog" Examples.roundTripSchema)) = 4%nat.
Proof.
  refine (proj1 (round_trip_classification "blog" _ _ _)).
  - repeat constructor; simpl; intuition discriminate.
  - apply Permutation_refl.
Defined.

(** C2 on [z.boolean().default(false)] under the mock. *)
Lemma default_means_optional_witness :
  SchemaIntrospection.required
    (parseZodFieldDefinition "draft" (ZodDefault (VBool false) ZodBoolean)) = false.
Proof.
  exact (proj1 (proj2 default_means_optional_at_run_time) 0%nat "draft"
               (EDefault EBoolean (VBool false)) _ eq_refl).
Defined.

(** C6 on the image object with a caption. *)
Lemma image_witness :
  fst (getZodFieldType (ZodObject [("src", ZodString); ("alt", ZodString); ("caption", ZodString)]))
  = TImage.
Proof.
  exact (proj1 (proj2 image_when_src_and_alt) 0%nat Examples.captionedImage _ eq_refl).
Defined.

(** The mock-Zod path analyses nothing of the round-trip schema, whatever
    the stack: [z.coerce.date()] never returns.  With [z.date()] in its
    place it reports the same four required fields as the JSON-Schema path. *)
Remark mock_path_on_round_trip_schema :
  (forall stack, analyzeSchemaFromConfig stack Examples.roundTripSchema = failedAnalysis)
  /\ (forall stack,
        map (fun f => (SchemaIntrospection.name f, SchemaIntrospection.required f,
                       SchemaIntrospection.defaultValue f))
            (SchemaIntrospection.fields
               (analyzeSchemaFromConfig stack Examples.plainDateSchema))
        = [("title", true, VUndefined); ("priority", true, VUndefined);
           ("featured", true, VUndefined); ("date", true, VUndefined);
           ("tags", false, VArray []); ("draft", false, VBool false)]).
Proof.
  split.
  - intro stack. apply (mock_fails_on_coerce_date stack _ "date"). simpl. auto 6.
  - intro stack. reflexivity.
Qed.

(** A field seen only with [Date] values never reaches the date default:
    [shouldSkipField] counts a [Date] as an empty object. *)
Remark date_instants_are_skipped :
  generateTemplate Examples.now
    (analyzeFrontmatterPatterns
       [ [("title", VStr "a"); ("date", VDate Examples.now)];
         [("title", VStr "b"); ("date", VDate Examples.now)] ])
  = [("title", VStr "")].
Proof. reflexivity. Qed.

End Instances.

(** * Further properties of the code *)

Section LearnerFacts.
Import PatternDetection Spec Reference.

Lemma find_recordEntry (k : string) (m : FieldMap) (entry : string * JsValue) :
  find (fun p => String.eqb (fieldName p) k) (recordEntry m entry)
  = if String.eqb (fst entry) k
    then Some (observe (snd entry)
                 (match find (fun p => String.eqb (fieldName p) k) m with
                  | Some p => p
                  | None => emptyPattern k
                  end))
    else find (fun p => String.eqb (fieldName p) k) m.
Proof.
  unfold recordEntry. destruct entry as [k' v]. cbn [fst snd].
  destruct (String.eqb k' k) eqn:E.
  - apply String.eqb_eq in E. subst k'.
    rewrite find_mapAdjust_same by (intro; apply observe_name).
    rewrite (mapHas_find k m).
    destruct (find (fun p => String.eqb (fieldName p) k) m) eqn:F.
    + rewrite F. reflexivity.
    + rewrite find_snoc, F, String.eqb_refl. reflexivity.
  - assert (k' <> k) as Hne by (intro; subst; rewrite String.eqb_refl in E; discriminate).
    rewrite find_mapAdjust_other by (auto using observe_name).
    destruct (mapHas k' m); [reflexivity|].
    rewrite find_snoc, E.
    destruct (find (fun p => String.eqb (fieldName p) k) m); reflexivity.
Qed.

Lemma valuesOf_app (k : string) (a b : list (string * JsValue)) :
  valuesOf k (a ++ b) = valuesOf k a ++ valuesOf k b.
Proof. unfold valuesOf. now rewrite filter_app, map_app. Qed.

(** The entry of a field is what [observe] makes of its values, one after
    the other. *)
Lemma find_fold_recordEntry (k : string) (es : list (string * JsValue)) :
  forall m,
    find (fun p => String.eqb (fieldName p) k) (fold_left recordEntry es m)
    = match valuesOf k es with
      | [] => find (fun p => String.eqb (fieldName p) k) m
      | vs => Some (fold_left (fun p v => observe v p) vs
                      (match find (fun p => String.eqb (fieldName p) k) m with
                       | Some p => p
                       | None => emptyPattern k
                       end))
      end.
Proof.
  induction es as [|[k' v] rest IH]; intro m; [reflexivity|].
  cbn [fold_left]. rewrite IH, find_recordEntry. cbn [fst snd].
  unfold valuesOf. cbn [filter fst].
  destruct (String.eqb k' k) eqn:E; cbn [map snd].
  - destruct (map snd (filter (fun e => String.eqb (fst e) k) rest)); reflexivity.
  - reflexivity.
Qed.

Lemma find_countFields (k : string) (samples : list Obj) :
  find (fun p => String.eqb (fieldName p) k) (countFields samples)
  = match valuesUnder k samples with
    | [] => None
    | vs => Some (fold_left (fun p v => observe v p) vs (emptyPattern k))
    end.
Proof. rewrite countFields_concat, find_fold_recordEntry. reflexivity. Qed.

Lemma find_NoDup (m : FieldMap) (p : FieldPattern) :
  NoDup (map fieldName m) -> In p m ->
  find (fun q => String.eqb (fieldName q) (fieldName p)) m = Some p.
Proof.
  induction m as [|q rest IH]; intros Hnd Hin; [destruct Hin|].
  inversion Hnd as [|x l Hnot Hnd']; subst. cbn [find].
  destruct Hin as [->|Hin].
  - now rewrite String.eqb_refl.
  - destruct (String.eqb (fieldName q) (fieldName p)) eqn:E.
    + apply String.eqb_eq in E. exfalso. apply Hnot. rewrite E. now apply in_map.
    + now apply IH.
Qed.

Lemma countFields_NoDup (samples : list Obj) : NoDup (map fieldName (countFields samples)).
Proof. rewrite countFields_concat. apply fold_recordEntry_NoDup. constructor. Qed.

(** Every entry of the map is the fold of [observe] over the values of its
    field, and the field has a value. *)
Lemma countFields_entry (samples : list Obj) (p : FieldPattern) :
  In p (countFields samples) ->
  valuesUnder (fieldName p) samples <> []
  /\ p = fold_left (fun q v => observe v q) (valuesUnder (fieldName p) samples)
                   (emptyPattern (fieldName p)).
Proof.
  intro Hin.
  pose proof (find_NoDup _ p (countFields_NoDup samples) Hin) as F.
  rewrite find_countFields in F.
  destruct (valuesUnder (fieldName p) samples) as [|v vs]; [discriminate|].
  split; [discriminate|]. now injection F.
Qed.

Lemma commonFields_entry (samples : list Obj) (p : FieldPattern) :
  In p (commonFields (analyzeFrontmatterPatterns samples)) ->
  exists p0,
    fieldName p0 = fieldName p /\ types p0 = types p /\ examples p0 = examples p
    /\ valuesUnder (fieldName p) samples <> []
    /\ p0 = fold_left (fun q v => observe v q) (valuesUnder (fieldName p) samples)
                      (emptyPattern (fieldName p)).
Proof.
  rewrite commonFields_eq. unfold normalize. intro Hin.
  apply in_map_iff in Hin. destruct Hin as [p0 [<- Hin]]. cbn.
  exists p0. destruct (countFields_entry samples p0 Hin) as [H1 H2]. auto.
Qed.

Lemma firstAppearances_snoc (l : list string) (x : string) :
  firstAppearances (l ++ [x])
  = if includesStr x (firstAppearances l) then firstAppearances l
    else firstAppearances l ++ [x].
Proof. unfold firstAppearances. now rewrite fold_left_app. Qed.

Lemma fold_observe_snoc (vs : list JsValue) (v : JsValue) (p : FieldPattern) :
  fold_left (fun q x => observe x q) (vs ++ [v]) p
  = observe v (fold_left (fun q x => observe x q) vs p).
Proof. now rewrite fold_left_app. Qed.

Lemma fold_observe_types (k : string) (vs : list JsValue) :
  types (fold_left (fun q v => observe v q) vs (emptyPattern k))
  = firstAppearances (map valueTypeOf vs).
Proof.
  induction vs as [|v vs IH] using rev_ind; [reflexivity|].
  rewrite fold_observe_snoc, map_app. cbn [map]. rewrite firstAppearances_snoc.
  cbn [observe types]. now rewrite IH.
Qed.

Lemma fold_observe_examples (k : string) (vs : list JsValue) :
  let ex := examples (fold_left (fun q v => observe v q) vs (emptyPattern k)) in
  (List.length ex <= 3)%nat
  /\ (forall e, In e ex -> In e vs)
  /\ hd_error ex = hd_error vs.
Proof.
  induction vs as [|v vs IH] using rev_ind.
  - cbn. repeat split; auto. 
  - cbv zeta in *. rewrite fold_observe_snoc. cbn [observe examples].
    destruct IH as [Hlen [Hsub Hhd]].
    set (ex := examples (fold_left (fun q x => observe x q) vs (emptyPattern k))) in *.
    destruct ((List.length ex <? 3)%nat && negb (includes v ex)) eqn:E.
    + apply andb_prop in E. destruct E as [E _]. apply Nat.ltb_lt in E.
      split; [rewrite length_app; cbn; lia|]. split.
      * intros e He. apply in_app_iff in He. apply in_app_iff.
        destruct He as [He|He]; [left; auto|right; exact He].
      * destruct vs as [|w ws].
        -- reflexivity.
        -- cbn [app hd_error] in *. destruct ex; [discriminate|]. exact Hhd.
    + split; [exact Hlen|]. split.
      * intros e He. apply in_app_iff. left. auto.
      * destruct vs as [|w ws]; [|exact Hhd].
        cbn in E. discriminate.
Qed.

Lemma includesStr_names (k : string) (m : FieldMap) :
  mapHas k m = includesStr k (map fieldName m).
Proof.
  unfold mapHas, includesStr. induction m as [|p rest IH]; [reflexivity|].
  cbn. now rewrite IH.
Qed.

Lemma fold_recordEntry_names (es : list (string * JsValue)) :
  forall m,
    map fieldName (fold_left recordEntry es m)
    = fold_left (fun seen k => if includesStr k seen then seen else seen ++ [k])
                (map fst es) (map fieldName m).
Proof.
  induction es as [|e rest IH]; intro m; [reflexivity|].
  cbn [fold_left map]. rewrite IH, recordEntry_names, includesStr_names.
  destruct (includesStr (fst e) (map fieldName m)); reflexivity.
Qed.

Lemma firstAppearances_hd (l : list string) :
  hd_error (firstAppearances l) = hd_error l.
Proof.
  destruct l as [|x l]; [reflexivity|].
  unfold firstAppearances. cbn [fold_left includesStr existsb app hd_error].
  assert (forall seen, hd_error (fold_left
            (fun seen k => if includesStr k seen then seen else seen ++ [k]) l
            (x :: seen)) = Some x) as H.
  { induction l as [|y l IH]; intro seen; [reflexivity|].
    cbn [fold_left]. destruct (includesStr y (x :: seen)); [apply IH|].
    cbn [app]. apply IH. }
  apply H.
Qed.

(** X1: the pattern lists the fields in the order in which the samples
    first show them, each once. *)
Theorem fields_in_first_seen_order (samples : list Obj) :
  map fieldName (commonFields (analyzeFrontmatterPatterns samples))
  = firstAppearances (List.concat (map keys samples)).
Proof.
  rewrite commonFields_eq, normalize_names, countFields_concat, fold_recordEntry_names.
  unfold firstAppearances. now rewrite keys_concat.
Qed.

(** X2: the types recorded for a field are the distinct types of the values
    the samples hold under it, in the order of their first appearance; the
    first of them, which picks the default of the template, is the type of
    the first value read. *)
Theorem field_types_in_first_seen_order (samples : list Obj) :
  Forall (fun p =>
            types p = firstAppearances (map valueTypeOf (valuesUnder (fieldName p) samples))
            /\ hd_error (types p)
               = option_map valueTypeOf (hd_error (valuesUnder (fieldName p) samples)))
         (commonFields (analyzeFrontmatterPatterns samples)).
Proof.
  apply Forall_forall. intros p Hin.
  destruct (commonFields_entry samples p Hin) as [p0 [Hn [Ht [He [Hne Hp0]]]]].
  assert (types p = firstAppearances (map valueTypeOf (valuesUnder (fieldName p) samples)))
    as Htypes.
  { rewrite <- Ht, Hp0. apply fold_observe_types. }
  split; [exact Htypes|]. rewrite Htypes, firstAppearances_hd.
  destruct (valuesUnder (fieldName p) samples); reflexivity.
Qed.

(** X3: a field keeps between one and three examples, each of them a value
    some sample holds under the field, and the first example is the first
    value read. *)
Theorem examples_are_observed (samples : list Obj) :
  Forall (fun p =>
            (1 <= List.length (examples p) <= 3)%nat
            /\ (forall ex, In ex (examples p) ->
                  exists sample, In sample samples /\ In (fieldName p, ex) sample)
            /\ hd_error (examples p) = hd_error (valuesUnder (fieldName p) samples))
         (commonFields (analyzeFrontmatterPatterns samples)).
Proof.
  apply Forall_forall. intros p Hin.
  destruct (commonFields_entry samples p Hin) as [p0 [Hn [Ht [He [Hne Hp0]]]]].
  pose proof (fold_observe_examples (fieldName p) (valuesUnder (fieldName p) samples)) as H.
  cbv zeta in H. rewrite <- Hp0, He in H. destruct H as [Hlen [Hsub Hhd]].
  split; [|split].
  - split; [|exact Hlen].
    destruct (examples p) as [|e es]; [|cbn; lia].
    destruct (valuesUnder (fieldName p) samples); [now elim Hne|discriminate].
  - intros ex Hex. apply Hsub in Hex. unfold valuesUnder, valuesOf in Hex.
    apply in_map_iff in Hex. destruct Hex as [[k v] [Hv Hf]]. cbn in Hv. subst v.
    apply filter_In in Hf. destruct Hf as [Hc Hk]. cbn in Hk. apply String.eqb_eq in Hk.
    subst k. apply in_concat in Hc. destruct Hc as [sample [Hs Hm]].
    exists sample. split; assumption.
  - exact Hhd.
Qed.

Lemma occurrences_bounds (samples : list Obj) (k : string) :
  In k (fieldNames samples) ->
  (1 <= occurrences k samples <= List.length samples)%nat.
Proof.
  intro Hk. split; [|apply filter_length_le].
  apply fieldNames_In in Hk. destruct Hk as [s [Hs Hks]].
  unfold occurrences.
  assert (In s (filter (hasKey k) samples)) as Hin.
  { apply filter_In. split; [exact Hs|]. now apply hasKey_In. }
  destruct (filter (hasKey k) samples); [destruct Hin|cbn; lia].
Qed.

Lemma sampleFrequency_bounds (samples : list Obj) (k : string) :
  In k (fieldNames samples) ->
  0 < sampleFrequency k samples /\ sampleFrequency k samples <= 1.
Proof.
  intro Hk. destruct (occurrences_bounds samples k Hk) as [H1 H2].
  unfold sampleFrequency, ofNat.
  assert (0 < inject_Z (Z.of_nat (List.length samples))) as Hpos.
  { rewrite <- (Zlt_Qlt 0). lia. }
  split.
  - apply Qlt_shift_div_l; [exact Hpos|]. rewrite Qmult_0_l.
    rewrite <- (Zlt_Qlt 0). lia.
  - apply Qle_shift_div_r; [exact Hpos|]. rewrite Qmult_1_l.
    rewrite <- Zle_Qle. lia.
Qed.

(** X4: the frequency of a field is the share of the samples that hold it,
    more than zero and at most one. *)
Theorem frequency_is_a_share (samples : list Obj) :
  wellFormed samples ->
  Forall (fun p =>
            frequency p = sampleFrequency (fieldName p) samples
            /\ 0 < frequency p /\ frequency p <= 1)
         (commonFields (analyzeFrontmatterPatterns samples)).
Proof.
  intro Hwf. apply Forall_forall. intros p Hin.
  pose proof (commonFields_frequency samples p Hwf Hin) as Hf.
  split; [exact Hf|]. rewrite Hf. apply sampleFrequency_bounds.
  apply commonFields_names_In. now apply in_map.
Qed.

Lemma frequency_is_a_share_witness :
  wellFormed Examples.mixedPosts
  /\ Forall (fun p =>
               frequency p = sampleFrequency (fieldName p) Examples.mixedPosts
               /\ 0 < frequency p /\ frequency p <= 1)
            (commonFields (analyzeFrontmatterPatterns Examples.mixedPosts)).
Proof.
  split.
  - exact mixedPosts_wellFormed.
  - exact (frequency_is_a_share Examples.mixedPosts mixedPosts_wellFormed).
Defined.

Lemma tier_by_test (samples : list Obj) (test : Q -> bool) (k : string) :
  wellFormed samples ->
  In k (map fieldName (filter (fun f => test (frequency f))
                              (commonFields (analyzeFrontmatterPatterns samples))))
  <-> In k (fieldNames samples) /\ test (sampleFrequency k samples) = true.
Proof.
  intro Hwf. rewrite in_map_iff. split.
  - intros [f [Hn Hf]]. apply filter_In in Hf. destruct Hf as [Hin Ht]. subst k.
    split.
    + apply commonFields_names_In. now apply in_map.
    + now rewrite <- (commonFields_frequency samples f Hwf Hin).
  - intros [Hk Ht]. destruct (In_commonFields samples k Hk) as [f [Hin Hn]].
    exists f. split; [exact Hn|]. apply filter_In. split; [exact Hin|].
    rewrite (commonFields_frequency samples f Hwf Hin), Hn. exact Ht.
Qed.

Lemma below_iff (t x : Q) : negb (atLeast t x) = true <-> x < t.
Proof.
  rewrite negb_true_iff. split.
  - intro H. apply Qnot_le_lt. intro Hle. apply atLeast_iff in Hle. congruence.
  - apply atLeast_false.
Qed.

(** X5: a tier holds the observed fields of its range of frequency and
    nothing else. *)
Theorem tier_membership (samples : list Obj) (k : string) :
  wellFormed samples ->
  let p := analyzeFrontmatterPatterns samples in
  (In k (requiredFields p)
     <-> In k (fieldNames samples) /\ 0.8 <= sampleFrequency k samples)
  /\ (In k (optionalFields p)
      <-> In k (fieldNames samples)
          /\ 0.2 <= sampleFrequency k samples /\ sampleFrequency k samples < 0.8)
  /\ (In k (rareFields p)
      <-> In k (fieldNames samples) /\ sampleFrequency k samples < 0.2).
Proof.
  intros Hwf p. destruct (analysis_tiers samples) as [Hr [Ho Ha]]. fold p in Hr, Ho, Ha.
  rewrite Hr, Ho, Ha. unfold p.
  rewrite (tier_by_test samples (fun x => atLeast 0.8 x) k Hwf).
  rewrite (tier_by_test samples (fun x => negb (atLeast 0.8 x) && atLeast 0.2 x) k Hwf).
  rewrite (tier_by_test samples (fun x => negb (atLeast 0.8 x) && negb (atLeast 0.2 x)) k Hwf).
  rewrite !andb_true_iff, !below_iff, !atLeast_iff.
  split; [reflexivity|]. split.
  - tauto.
  - split.
    + intros [H1 [H2 H3]]. split; assumption.
    + intros [H1 H2]. split; [exact H1|]. split; [|exact H2].
      apply Qlt_trans with (y := 0.2); [exact H2|reflexivity].
Qed.

Lemma tier_membership_witness :
  wellFormed Examples.mixedPosts
  /\ In "author" (optionalFields (analyzeFrontmatterPatterns Examples.mixedPosts))
  /\ 0.2 <= sampleFrequency "author" Examples.mixedPosts
  /\ sampleFrequency "author" Examples.mixedPosts < 0.8.
Proof.
  pose proof (tier_membership Examples.mixedPosts "author" mixedPosts_wellFormed) as H.
  cbv zeta in H.
  assert (In "author" (optionalFields (analyzeFrontmatterPatterns Examples.mixedPosts))) as Hin.
  { vm_compute. left. reflexivity. }
  exact (conj mixedPosts_wellFormed
           (conj Hin (proj2 (proj1 (proj1 (proj2 H)) Hin)))).
Defined.

End LearnerFacts.

Section SuggestedTemplateFacts.
Import PatternDetection Spec Reference PatternValidation.

Lemma setKey_fresh (k : string) (v : JsValue) (o : Obj) :
  ~ In k (keys o) -> setKey k v o = o ++ [(k, v)].
Proof.
  induction o as [|[k' v'] rest IH]; intro Hnot; [reflexivity|].
  cbn [setKey]. destruct (String.eqb k' k) eqn:E.
  - apply String.eqb_eq in E. subst. exfalso. apply Hnot. now left.
  - cbn [app]. rewrite IH; [reflexivity|]. intro H. apply Hnot. now right.
Qed.

Lemma templateEntry_In (now : JsDate) (fields : list FieldPattern) (k k' : string)
    (v : JsValue) :
  In (k', v) (templateEntry now fields k) ->
  k' = k /\ exists fp, find (fun f => String.eqb (fieldName f) k) fields = Some fp
                       /\ shouldSkipField fp = false
                       /\ v = getDefaultValueForField now k fp.
Proof.
  unfold templateEntry. destruct (find _ fields) as [fp|]; [|intros []].
  destruct (shouldSkipField fp) eqn:E; [intros []|].
  intros [H|[]]. injection H as <- <-. split; [reflexivity|]. exists fp. auto.
Qed.

Lemma addTemplateField_fresh (now : JsDate) (fields : list FieldPattern)
    (template : Obj) (k : string) :
  ~ In k (keys template) ->
  addTemplateField now fields template k = template ++ templateEntry now fields k.
Proof.
  intro Hnot. unfold addTemplateField, templateEntry.
  destruct (find _ fields) as [fp|]; [|now rewrite app_nil_r].
  destruct (shouldSkipField fp); [now rewrite app_nil_r|].
  now apply setKey_fresh.
Qed.

Lemma templateEntry_key (now : JsDate) (fields : list FieldPattern) (k k' : string) :
  In k' (keys (templateEntry now fields k)) -> k' = k.
Proof.
  unfold keys. rewrite in_map_iff. intros [[k0 v] [E H]]. cbn in E. subst k0.
  now apply templateEntry_In in H.
Qed.

Lemma fold_addTemplateField (now : JsDate) (fields : list FieldPattern)
    (names : list string) :
  forall template,
    NoDup names -> (forall k, In k names -> ~ In k (keys template)) ->
    fold_left (addTemplateField now fields) names template
    = template ++ flat_map (templateEntry now fields) names.
Proof.
  induction names as [|k rest IH]; intros template Hnd Hfresh.
  - cbn. now rewrite app_nil_r.
  - inversion Hnd as [|x l Hnot Hnd']; subst. cbn [fold_left flat_map].
    rewrite addTemplateField_fresh by (apply Hfresh; now left).
    rewrite IH; [now rewrite <- app_assoc|exact Hnd'|].
    intros k' Hk' Hin. unfold keys in Hin. rewrite map_app in Hin.
    apply in_app_iff in Hin. destruct Hin as [Hin|Hin].
    + apply (Hfresh k'); [now right|exact Hin].
    + apply templateEntry_key in Hin. subst k'. contradiction.
Qed.

Lemma flat_map_templateEntry_keys (now : JsDate) (p : FrontmatterPattern)
    (names : list string) :
  keys (flat_map (templateEntry now (commonFields p)) names)
  = filter (fun k => negb (leftOut p k)) names.
Proof.
  induction names as [|k rest IH]; [reflexivity|].
  cbn [flat_map filter]. unfold keys in *. rewrite map_app, IH.
  unfold templateEntry, leftOut.
  destruct (find _ (commonFields p)) as [fp|]; [|reflexivity].
  destruct (shouldSkipField fp); reflexivity.
Qed.

Lemma tiers_NoDup (samples : list Obj) :
  let p := analyzeFrontmatterPatterns samples in
  NoDup (requiredFields p ++ optionalFields p ++ rareFields p).
Proof.
  intro p. destruct (analysis_tiers samples) as [Hreq [Hopt Hrare]].
  fold p in Hreq, Hopt, Hrare.
  pose proof (commonFields_names_NoDup samples) as Hnd. fold p in Hnd.
  rewrite Hreq, Hopt, Hrare.
  apply NoDup_app; repeat split.
  - now apply NoDup_map_filter.
  - apply NoDup_app; repeat split.
    + now apply NoDup_map_filter.
    + now apply NoDup_map_filter.
    + intros k H1 H2.
      eapply (tiers_disjoint fieldName); [exact Hnd| |exact H1|exact H2].
      cbv beta. intros x Hx Hy.
      destruct (atLeast 0.2 (frequency x)), (atLeast 0.8 (frequency x)); discriminate.
  - intros k H1 H2. apply in_app_iff in H2. destruct H2 as [H2|H2].
    + eapply (tiers_disjoint fieldName); [exact Hnd| |exact H1|exact H2].
      cbv beta. intros x Hx Hy. destruct (atLeast 0.8 (frequency x)); discriminate.
    + eapply (tiers_disjoint fieldName); [exact Hnd| |exact H1|exact H2].
      cbv beta. intros x Hx Hy. destruct (atLeast 0.8 (frequency x)); discriminate.
Qed.

Lemma NoDup_app_parts {A : Type} (a b : list A) :
  NoDup (a ++ b) -> NoDup a /\ NoDup b /\ (forall x, In x a -> ~ In x b).
Proof.
  induction a as [|x a IH]; intro H.
  - cbn in H. repeat split; [constructor|exact H|intros x []].
  - cbn in H. inversion H as [|y l Hnot Hnd]; subst.
    destruct (IH Hnd) as [Ha [Hb Hab]]. repeat split.
    + constructor; [|exact Ha]. intro Hx. apply Hnot. apply in_app_iff. now left.
    + exact Hb.
    + intros y [->|Hy]; [|now apply Hab]. intro Hy. apply Hnot. apply in_app_iff. now right.
Qed.

(** The template is the entries of the frequent fields, required ones
    first. *)
Lemma generateTemplate_entries (now : JsDate) (samples : list Obj) :
  let p := analyzeFrontmatterPatterns samples in
  generateTemplate now p
  = flat_map (templateEntry now (commonFields p)) (requiredFields p ++ optionalFields p).
Proof.
  intro p. pose proof (tiers_NoDup samples) as Hnd. cbv zeta in Hnd. fold p in Hnd.
  rewrite app_assoc in Hnd. apply NoDup_app_parts in Hnd. destruct Hnd as [Hnd _].
  apply NoDup_app_parts in Hnd. destruct Hnd as [Hr [Ho Hro]].
  unfold generateTemplate.
  rewrite (fold_addTemplateField now (commonFields p) (requiredFields p) [] Hr)
    by (intros k _ []).
  cbn [app]. rewrite fold_addTemplateField; [now rewrite flat_map_app|exact Ho|].
  intros k Hk Hin. rewrite flat_map_templateEntry_keys in Hin.
  apply filter_In in Hin. apply (Hro k); tauto.
Qed.

Lemma generateTemplate_keys (now : JsDate) (samples : list Obj) :
  let p := analyzeFrontmatterPatterns samples in
  keys (generateTemplate now p)
  = filter (fun k => negb (leftOut p k)) (requiredFields p ++ optionalFields p).
Proof.
  intro p. unfold p. rewrite generateTemplate_entries. apply flat_map_templateEntry_keys.
Qed.


Lemma find_normalize (n : nat) (k : string) (m : FieldMap) :
  find (fun f => String.eqb (fieldName f) k) (normalize n m)
  = option_map (fun p => {| fieldName := fieldName p;
                            frequency := frequency p / ofNat n;
                            types := types p;
                            examples := examples p |})
               (find (fun f => String.eqb (fieldName f) k) m).
Proof.
  unfold normalize. induction m as [|p rest IH]; [reflexivity|].
  cbn [map find fieldName]. destruct (String.eqb (fieldName p) k); [reflexivity|exact IH].
Qed.

(** Whether a field is left out is decided by the values read under it. *)
Lemma leftOut_by_values (samples : list Obj) (k : string) :
  leftOut (analyzeFrontmatterPatterns samples) k
  = match valuesUnder k samples with
    | [] => true
    | vs => shouldSkipField (fold_left (fun q v => observe v q) vs (emptyPattern k))
    end.
Proof.
  unfold leftOut. rewrite commonFields_eq, find_normalize, find_countFields.
  destruct (valuesUnder k samples); reflexivity.
Qed.

Lemma valuesUnder_In (samples : list Obj) (k : string) (v : JsValue) :
  In v (valuesUnder k samples) <-> exists sample, In sample samples /\ In (k, v) sample.
Proof.
  unfold valuesUnder, valuesOf. rewrite in_map_iff. split.
  - intros [[k' v'] [E H]]. cbn in E. subst v'. apply filter_In in H.
    destruct H as [Hc Hk]. cbn in Hk. apply String.eqb_eq in Hk. subst k'.
    apply in_concat in Hc. destruct Hc as [s [Hs Hm]]. eauto.
  - intros [s [Hs Hm]]. exists (k, v). split; [reflexivity|]. apply filter_In.
    split; [|apply String.eqb_refl]. apply in_concat. eauto.
Qed.

Lemma dateOrEmptyRecord_type (v : JsValue) :
  isDateOrEmptyRecord v = true -> valueTypeOf v = "object" /\ isEmptyObject v = true.
Proof. destruct v as [| | | | | |items|members]; try discriminate; [now split|].
  destruct members; [now split|discriminate]. Qed.

Lemma empty_valued_leftOut (samples : list Obj) (k : string) :
  (forall sample v, In sample samples -> In (k, v) sample -> isDateOrEmptyRecord v = true) ->
  leftOut (analyzeFrontmatterPatterns samples) k = true.
Proof.
  intros Hall. rewrite leftOut_by_values.
  assert (forall v, In v (valuesUnder k samples) -> isDateOrEmptyRecord v = true) as Hvs.
  { intros v Hv. apply valuesUnder_In in Hv. destruct Hv as [s [Hs Hm]]. eauto. }
  destruct (valuesUnder k samples) as [|v vs]; [reflexivity|].
  unfold shouldSkipField.
  pose proof (fold_observe_types k (v :: vs)) as Ht.
  pose proof (fold_observe_examples k (v :: vs)) as He. cbv zeta in He.
  destruct He as [_ [Hsub _]].
  set (fp := fold_left (fun q x => observe x q) (v :: vs) (emptyPattern k)) in *.
  assert (includesStr "object" (types fp) = true) as H1.
  { pose proof (firstAppearances_hd (map valueTypeOf (v :: vs))) as Hhd.
    rewrite <- Ht in Hhd. cbn [map hd_error] in Hhd.
    destruct (dateOrEmptyRecord_type v (Hvs v (or_introl eq_refl))) as [Hty _].
    rewrite Hty in Hhd. destruct (types fp) as [|t ts]; [discriminate|].
    cbn [hd_error] in Hhd. injection Hhd as ->. reflexivity. }
  assert (forallb isEmptyObject (examples fp) = true) as H2.
  { apply forallb_forall. intros ex Hex. apply Hsub in Hex.
    now apply dateOrEmptyRecord_type, Hvs. }
  now rewrite H1, H2.
Qed.

(** X7: a field under which the samples hold nothing but [Date] values and
    objects without members is not in the suggested template, however
    frequent it is. *)
Theorem empty_valued_field_is_left_out (now : JsDate) (samples : list Obj) (k : string) :
  (forall sample v, In sample samples -> In (k, v) sample -> isDateOrEmptyRecord v = true) ->
  ~ In k (keys (generateTemplate now (analyzeFrontmatterPatterns samples))).
Proof.
  intros Hall Hin.
  pose proof (generateTemplate_keys now samples) as Hkeys. cbv zeta in Hkeys.
  rewrite Hkeys in Hin. apply filter_In in Hin. destruct Hin as [_ Hout].
  rewrite (empty_valued_leftOut samples k Hall) in Hout. discriminate.
Qed.

Lemma empty_valued_field_witness :
  (forall sample v, In sample MoreExamples.datedPosts -> In ("date", v) sample ->
                    isDateOrEmptyRecord v = true)
  /\ ~ In "date" (keys (generateTemplate Examples.now
                          (analyzeFrontmatterPatterns MoreExamples.datedPosts))).
Proof.
  assert (forall sample v, In sample MoreExamples.datedPosts -> In ("date", v) sample ->
                           isDateOrEmptyRecord v = true) as H.
  { intros sample v [<-|[<-|[]]] [E|[E|[]]]; try discriminate E;
      injection E as <-; reflexivity. }
  exact (conj H (empty_valued_field_is_left_out Examples.now MoreExamples.datedPosts "date" H)).
Defined.



Lemma hasKey_keys (k : string) (o : Obj) : hasKey k o = includesStr k (keys o).
Proof.
  unfold hasKey, includesStr, keys. induction o as [|e rest IH]; [reflexivity|].
  cbn. now rewrite IH.
Qed.






End SuggestedTemplateFacts.

Section ObjectFacts.
Import Objects.

Lemma hasKey_setKey (k k' : string) (v : JsValue) (o : Obj) :
  hasKey k (setKey k' v o) = hasKey k o || String.eqb k' k.
Proof.
  unfold hasKey. induction o as [|[k0 v0] rest IH].
  - cbn. now rewrite orb_false_r.
  - cbn [setKey]. destruct (String.eqb k0 k') eqn:E.
    + apply String.eqb_eq in E. subst k0. cbn.
      destruct (String.eqb k' k); [reflexivity|]. cbn. now rewrite orb_false_r.
    + cbn. rewrite IH. now rewrite orb_assoc.
Qed.

Lemma getKey_setKey_same (k : string) (v : JsValue) (o : Obj) :
  getKey k (setKey k v o) = Some v.
Proof.
  unfold getKey. induction o as [|[k0 v0] rest IH].
  - cbn. now rewrite String.eqb_refl.
  - cbn [setKey]. destruct (String.eqb k0 k) eqn:E.
    + cbn. now rewrite String.eqb_refl.
    + cbn. rewrite E. exact IH.
Qed.

Lemma getKey_setKey_other (k k' : string) (v : JsValue) (o : Obj) :
  k' <> k -> getKey k (setKey k' v o) = getKey k o.
Proof.
  intro Hne. unfold getKey. induction o as [|[k0 v0] rest IH].
  - cbn. destruct (String.eqb k' k) eqn:E; [|reflexivity].
    apply String.eqb_eq in E. contradiction.
  - cbn [setKey]. destruct (String.eqb k0 k') eqn:E.
    + apply String.eqb_eq in E. subst k0. cbn.
      destruct (String.eqb k' k) eqn:E'; [|reflexivity].
      apply String.eqb_eq in E'. contradiction.
    + cbn. destruct (String.eqb k0 k); [reflexivity|exact IH].
Qed.

Lemma getKey_setKey (k k' : string) (v : JsValue) (o : Obj) :
  getKey k (setKey k' v o) = if String.eqb k' k then Some v else getKey k o.
Proof.
  destruct (String.eqb k' k) eqn:E.
  - apply String.eqb_eq in E. subst. apply getKey_setKey_same.
  - apply getKey_setKey_other. intro H. subst. rewrite String.eqb_refl in E. discriminate.
Qed.

Lemma hasKey_getKey (k : string) (o : Obj) :
  hasKey k o = match getKey k o with Some _ => true | None => false end.
Proof.
  unfold hasKey, getKey. induction o as [|[k0 v0] rest IH]; [reflexivity|].
  cbn. destruct (String.eqb k0 k); [reflexivity|exact IH].
Qed.

Lemma lookup_setKey (k k' : string) (v : JsValue) (o : Obj) :
  lookup k (setKey k' v o) = if String.eqb k' k then v else lookup k o.
Proof.
  unfold lookup. rewrite getKey_setKey. destruct (String.eqb k' k); reflexivity.
Qed.

Lemma getKey_In (k : string) (v : JsValue) (o : Obj) :
  getKey k o = Some v -> In (k, v) o.
Proof.
  unfold getKey. destruct (find _ o) as [[k0 v0]|] eqn:F; [|discriminate].
  intro H. injection H as ->. apply find_some in F. destruct F as [Hin E].
  cbn in E. apply String.eqb_eq in E. now subst.
Qed.

Lemma getKey_app (k : string) (a b : Obj) :
  getKey k (a ++ b) = match getKey k a with Some v => Some v | None => getKey k b end.
Proof.
  unfold getKey. induction a as [|[k0 v0] rest IH]; [reflexivity|].
  cbn. destruct (String.eqb k0 k); [reflexivity|exact IH].
Qed.

End ObjectFacts.

Section SchemaServiceFacts.
Import Objects SchemaIntrospection SchemaService Reference.
















Lemma hasKey_setKey_other (k k' : string) (v : JsValue) (o : Obj) :
  k' <> k -> hasKey k (setKey k' v o) = hasKey k o.
Proof.
  intro Hne. rewrite hasKey_setKey.
  destruct (String.eqb k' k) eqn:E; [|now rewrite orb_false_r].
  apply String.eqb_eq in E. contradiction.
Qed.

Lemma lookup_setKey_other (k k' : string) (v : JsValue) (o : Obj) :
  k' <> k -> lookup k (setKey k' v o) = lookup k o.
Proof. intro Hne. unfold lookup. now rewrite getKey_setKey_other. Qed.

Lemma flat_map_pointwise {A B : Type} (f g : A -> list B) (l : list A) :
  (forall x, In x l -> f x = g x) -> flat_map f l = flat_map g l.
Proof.
  induction l as [|x rest IH]; intro H; [reflexivity|].
  cbn. rewrite (H x) by now left. rewrite IH; [reflexivity|].
  intros y Hy. apply H. now right.
Qed.

(** X15: the validation reads the frontmatter only under the names the
    schema declares: setting any other key changes nothing of the
    outcome. *)
Theorem undeclared_keys_are_ignored (frontmatter : Obj) (analysis : SchemaAnalysis)
    (k : string) (v : JsValue) :
  ~ In k (map name (fields analysis)) ->
  ~ In k (map name (requiredFields analysis)) ->
  validateFrontmatter (setKey k v frontmatter) analysis
  = validateFrontmatter frontmatter analysis.
Proof.
  intros Hf Hr. unfold validateFrontmatter.
  assert (filter (isMissing (setKey k v frontmatter)) (requiredFields analysis)
          = filter (isMissing frontmatter) (requiredFields analysis)) as ->.
  { apply filter_ext_in. intros f Hin. unfold isMissing.
    assert (k <> name f) as Hne by (intro; subst; apply Hr; now apply in_map).
    now rewrite hasKey_setKey_other, lookup_setKey_other. }
  assert (flat_map (invalidEntry (setKey k v frontmatter)) (fields analysis)
          = flat_map (invalidEntry frontmatter) (fields analysis)) as ->.
  { apply flat_map_pointwise. intros f Hin. unfold invalidEntry.
    assert (k <> name f) as Hne by (intro; subst; apply Hf; now apply in_map).
    now rewrite lookup_setKey_other. }
  assert (flat_map (imageWarning (setKey k v frontmatter)) (fields analysis)
          = flat_map (imageWarning frontmatter) (fields analysis)) as ->.
  { apply flat_map_pointwise. intros f Hin. unfold imageWarning.
    assert (k <> name f) as Hne by (intro; subst; apply Hf; now apply in_map).
    now rewrite lookup_setKey_other. }
  reflexivity.
Qed.

Lemma undeclared_keys_witness :
  validateFrontmatter (setKey "layout" (VStr "post") [("title", VStr "Hello")])
                      (analysisOf MoreExamples.titleAndDraft)
  = validateFrontmatter [("title", VStr "Hello")] (analysisOf MoreExamples.titleAndDraft).
Proof.
  refine (undeclared_keys_are_ignored [("title", VStr "Hello")]
            (analysisOf MoreExamples.titleAndDraft) "layout" (VStr "post") _ _);
    cbn; intuition discriminate.
Defined.

End SchemaServiceFacts.

Section AstroTemplateFacts.
Import Objects SchemaIntrospection Spec Reference.

Lemma collectionEntry_key (now : JsDate) (f : AstroSchemaAnalyzer.AstroCollectionField)
    (k : string) :
  In k (keys (collectionEntry now f)) -> k = AstroSchemaAnalyzer.name f.
Proof.
  unfold collectionEntry.
  destruct (isDefined (AstroSchemaAnalyzer.defaultValue f)).
  - intros [H|[]]. now symmetry.
  - destruct (AstroSchemaAnalyzer.required f); [|intros []].
    intros [H|[]]. now symmetry.
Qed.

Lemma addCollectionField_fresh (now : JsDate) (template : Obj)
    (f : AstroSchemaAnalyzer.AstroCollectionField) :
  ~ In (AstroSchemaAnalyzer.name f) (keys template) ->
  AstroTemplates.addCollectionField now template f = template ++ collectionEntry now f.
Proof.
  intro Hnot. unfold AstroTemplates.addCollectionField, collectionEntry.
  destruct (isDefined (AstroSchemaAnalyzer.defaultValue f)),
           (AstroSchemaAnalyzer.required f); cbn [negb andb];
    try (now apply setKey_fresh); now rewrite app_nil_r.
Qed.

Lemma fold_addCollectionField (now : JsDate)
    (fs : list AstroSchemaAnalyzer.AstroCollectionField) :
  forall template,
    NoDup (map AstroSchemaAnalyzer.name fs) ->
    (forall f, In f fs -> ~ In (AstroSchemaAnalyzer.name f) (keys template)) ->
    fold_left (AstroTemplates.addCollectionField now) fs template
    = template ++ flat_map (collectionEntry now) fs.
Proof.
  induction fs as [|f rest IH]; intros template Hnd Hfresh.
  - cbn. now rewrite app_nil_r.
  - inversion Hnd as [|x l Hnot Hnd']; subst. cbn [fold_left flat_map].
    rewrite addCollectionField_fresh by (apply Hfresh; now left).
    rewrite IH; [now rewrite <- app_assoc|exact Hnd'|].
    intros g Hg Hin. unfold keys in Hin. rewrite map_app in Hin.
    apply in_app_iff in Hin. destruct Hin as [Hin|Hin].
    + apply (Hfresh g); [now right|exact Hin].
    + apply collectionEntry_key in Hin. apply Hnot. rewrite <- Hin. now apply in_map.
Qed.

(** The field the analysis makes of a member of the schema. *)
Lemma member_field (m : string * ZExpr) :
  let f := AstroSchemaAnalyzer.parseJsonSchemaField
             (fst m) (AstroSchemaAnalyzer.zodToJson true (snd m)) (declaredRequired (snd m)) in
  AstroSchemaAnalyzer.name f = fst m
  /\ AstroSchemaAnalyzer.required f = declaredRequired (snd m)
  /\ AstroSchemaAnalyzer.defaultValue f = declaredDefault (snd m).
Proof.
  cbv zeta. unfold AstroSchemaAnalyzer.parseJsonSchemaField.
  cbn [AstroSchemaAnalyzer.name AstroSchemaAnalyzer.required AstroSchemaAnalyzer.defaultValue].
  repeat split. apply jdefault_declared.
Qed.

Lemma collection_template (now : JsDate) (collection : string)
    (shape : list (string * ZExpr)) :
  NoDup (map fst shape) ->
  AstroTemplates.generateTemplate now
    (AstroSchemaAnalyzer.parseCollection collection (EObject shape))
  = flat_map (fun m => collectionEntry now
                         (AstroSchemaAnalyzer.parseJsonSchemaField
                            (fst m) (AstroSchemaAnalyzer.zodToJson true (snd m))
                            (declaredRequired (snd m)))) shape.
Proof.
  intro Hnd. unfold AstroTemplates.generateTemplate. rewrite json_fields by exact Hnd.
  rewrite fold_addCollectionField.
  - cbn [app]. now rewrite flat_map_concat_map, map_map, <- flat_map_concat_map.
  - rewrite map_map. cbn [AstroSchemaAnalyzer.parseJsonSchemaField AstroSchemaAnalyzer.name].
    exact Hnd.
  - intros f _ [].
Qed.

Lemma getKey_of_entry (k : string) (v : JsValue) (o : Obj) :
  NoDup (keys o) -> In (k, v) o -> getKey k o = Some v.
Proof.
  unfold getKey. induction o as [|[k0 v0] rest IH]; intros Hnd Hin; [destruct Hin|].
  inversion Hnd as [|x l Hnot Hnd']; subst. cbn [find fst].
  destruct Hin as [E|Hin].
  - injection E as -> ->. now rewrite String.eqb_refl.
  - destruct (String.eqb k0 k) eqn:E.
    + apply String.eqb_eq in E. subst k0. exfalso. apply Hnot.
      change k with (fst (k, v)). now apply in_map.
    + now apply IH.
Qed.

(** X16: the template of a collection holds, in the order of the schema,
    the members declared without a wrapper and those that have a default;
    a default is carried over as it is; an optional member without a
    default is not in the template. *)
Theorem collection_template_of_schema (now : JsDate) (collection : string)
    (shape : list (string * ZExpr)) :
  NoDup (map fst shape) ->
  let template :=
    AstroTemplates.generateTemplate now
      (AstroSchemaAnalyzer.parseCollection collection (EObject shape)) in
  keys template = map fst (filter (fun m => declaredInTemplate (snd m)) shape)
  /\ (forall k e, In (k, e) shape -> isDefined (declaredDefault e) = true ->
        getKey k template = Some (declaredDefault e))
  /\ (forall k e, In (k, e) shape -> declaredInTemplate e = false ->
        hasKey k template = false).
Proof.
  intros Hnd template.
  assert (keys template = map fst (filter (fun m => declaredInTemplate (snd m)) shape))
    as Hkeys.
  { unfold template. rewrite collection_template by exact Hnd.
    clear Hnd template. induction shape as [|m rest IH]; [reflexivity|].
    cbn [flat_map filter]. unfold keys in *. rewrite map_app, IH.
    unfold collectionEntry, declaredInTemplate.
    destruct (member_field m) as [Hn [Hr Hd]]. rewrite Hn, Hr, Hd.
    destruct (isDefined (declaredDefault (snd m))) eqn:D.
    - rewrite orb_true_r. reflexivity.
    - rewrite orb_false_r. destruct (declaredRequired (snd m)); reflexivity. }
  assert (NoDup (keys template)) as Hnd'.
  { rewrite Hkeys. now apply NoDup_map_filter. }
  split; [exact Hkeys|]. split.
  - intros k e Hin Hdef. apply getKey_of_entry; [exact Hnd'|].
    unfold template. rewrite collection_template by exact Hnd.
    apply in_flat_map. exists (k, e). split; [exact Hin|].
    unfold collectionEntry. destruct (member_field (k, e)) as [Hn [Hr Hd]].
    cbn [fst snd] in *. rewrite Hn, Hd, Hdef. now left.
  - intros k e Hin Hno. destruct (hasKey k template) eqn:E; [|reflexivity].
    apply hasKey_In in E. rewrite Hkeys in E. apply in_map_iff in E.
    destruct E as [m [Ek Hm]]. apply filter_In in Hm. destruct Hm as [Hm Hd].
    assert (m = (k, e)) by (apply (NoDup_map_inj fst shape); auto).
    subst m. cbn in Hd. congruence.
Qed.

Lemma collection_template_witness :
  keys (AstroTemplates.generateTemplate Examples.now
          (AstroSchemaAnalyzer.parseCollection "blog" (EObject MoreExamples.blogSchema)))
  = ["title"; "tags"; "draft"; "date"].
Proof.
  assert (NoDup (map fst MoreExamples.blogSchema)) as Hnd.
  { cbn. repeat constructor; cbn; intuition discriminate. }
  exact (proj1 (collection_template_of_schema Examples.now "blog" MoreExamples.blogSchema Hnd)).
Defined.

End AstroTemplateFacts.

Section FrameworkFacts.
Import Objects FrameworkDetection.

Lemma insertByConfidence_In (x q : FrameworkInfo) (l : list FrameworkInfo) :
  In q (insertByConfidence x l) <-> q = x \/ In q l.
Proof.
  induction l as [|y rest IH]; cbn.
  - intuition.
  - destruct (Qle_bool (confidence y) (confidence x)); cbn; [intuition|].
    rewrite IH. intuition.
Qed.

Lemma sortByConfidence_In (q : FrameworkInfo) (l : list FrameworkInfo) :
  In q (sortByConfidence l) <-> In q l.
Proof.
  induction l as [|x rest IH]; [reflexivity|].
  cbn [sortByConfidence]. rewrite insertByConfidence_In, IH. cbn. intuition.
Qed.

Lemma sortByConfidence_nil (l : list FrameworkInfo) :
  sortByConfidence l = [] -> l = [].
Proof.
  destruct l as [|x rest]; [reflexivity|]. cbn [sortByConfidence].
  destruct (sortByConfidence rest) as [|y t]; cbn; [discriminate|].
  destruct (Qle_bool (confidence y) (confidence x)); discriminate.
Qed.

(** The head of the sorted list is the first of the most confident. *)
Lemma sortByConfidence_head (l : list FrameworkInfo) (p : FrameworkInfo) :
  hd_error (sortByConfidence l) = Some p ->
  exists before after,
    l = before ++ p :: after
    /\ (forall q, In q before -> confidence q < confidence p)
    /\ (forall q, In q after -> confidence q <= confidence p).
Proof.
  revert p. induction l as [|x rest IH]; intros p Hhd; [discriminate|].
  cbn [sortByConfidence] in Hhd.
  destruct (sortByConfidence rest) as [|h t] eqn:S.
  - apply sortByConfidence_nil in S. subst rest. cbn in Hhd. injection Hhd as <-.
    exists [], []. repeat split; intros q [].
  - destruct (IH h eq_refl) as [b [a [Hrest [Hb Ha]]]].
    cbn [insertByConfidence] in Hhd.
    destruct (Qle_bool (confidence h) (confidence x)) eqn:E.
    + cbn in Hhd. injection Hhd as <-. apply Qle_bool_iff in E.
      exists [], rest. split; [reflexivity|]. split; [intros q []|].
      intros q Hq. rewrite Hrest in Hq. apply in_app_iff in Hq.
      destruct Hq as [Hq|[<-|Hq]].
      * apply Qlt_le_weak. eapply Qlt_le_trans; [apply Hb; exact Hq|exact E].
      * exact E.
      * eapply Qle_trans; [apply Ha; exact Hq|exact E].
    + cbn in Hhd. injection Hhd as <-.
      assert (confidence x < confidence h) as Hlt.
      { apply Qnot_le_lt. intro H. apply Qle_bool_iff in H. congruence. }
      exists (x :: b), a. split; [now rewrite Hrest|]. split; [|exact Ha].
      intros q [<-|Hq]; [exact Hlt|now apply Hb].
Qed.

(** X17: the primary framework is the first, in the order Astro, Hugo,
    Jekyll, Eleventy, Next.js, Gatsby, of the detected frameworks with the
    greatest confidence; there is none exactly when nothing is detected. *)
Theorem primary_is_first_of_most_confident (present dependsOn : string -> bool)
    (parsedConfig : Completion string (list AstroSchemaAnalyzer.AstroCollection))
    (now : JsDate) :
  let result := detectFramework present dependsOn parsedConfig now in
  let detected := detectedFrameworks present dependsOn parsedConfig now in
  (forall p, primary result = Some p ->
     exists before after,
       detected = before ++ p :: after
       /\ (forall q, In q before -> confidence q < confidence p)
       /\ (forall q, In q after -> confidence q <= confidence p))
  /\ (primary result = None <-> detected = [])
  /\ (forall q, In q (frameworks result) <-> In q detected).
Proof.
  intros result detected. split; [|split].
  - intros p Hp. apply sortByConfidence_head. exact Hp.
  - unfold result, detectFramework. cbn [primary]. fold detected. split.
    + intro H. apply sortByConfidence_nil.
      destruct (sortByConfidence detected); [reflexivity|discriminate].
    + intros ->. reflexivity.
  - intro q. apply sortByConfidence_In.
Qed.

(** X18: Hugo and Jekyll are found with a confidence above 0.8 only when
    all three of their indicators are there. *)
Theorem full_confidence_needs_three_indicators (present : string -> bool) (now : JsDate) :
  (forall info, detectHugo present now = Some info ->
     (0.8 < confidence info
      <-> firstPresent present ["hugo.toml"; "hugo.yaml"; "hugo.json"; "config.toml";
                                "config.yaml"; "config.json"] <> None
          /\ present "content" = true /\ present "themes" = true))
  /\ (forall info, detectJekyll present now = Some info ->
        (0.8 < confidence info
         <-> present "_config.yml" = true /\ present "_posts" = true
             /\ present "Gemfile" = true)).
Proof.
  split; intros info.
  - unfold detectHugo.
    destruct (firstPresent present _), (present "content"), (present "themes");
      cbn; intro E; try discriminate E; injection E as <-; cbn [confidence];
      settle_indicators.
  - unfold detectJekyll.
    destruct (present "_config.yml"), (present "_posts"), (present "Gemfile");
      cbn; intro E; try discriminate E; injection E as <-; cbn [confidence];
      settle_indicators.
Qed.

(** X19: Eleventy, Next.js and Gatsby are found with a confidence above
    0.8 only when both the configuration file and the dependency are
    there. *)
Theorem full_confidence_needs_both_indicators (present dependsOn : string -> bool)
    (now : JsDate) :
  (forall info, detectEleventy present dependsOn now = Some info ->
     (0.8 < confidence info
      <-> firstPresent present [".eleventy.js"; "eleventy.config.js";
                                ".eleventy.config.js"] <> None
          /\ dependsOn "@11ty/eleventy" = true))
  /\ (forall info, detectNextJS present dependsOn now = Some info ->
        (0.8 < confidence info
         <-> firstPresent present ["next.config.js"; "next.config.mjs"; "next.config.ts"]
             <> None
             /\ dependsOn "next" = true))
  /\ (forall info, detectGatsby present dependsOn now = Some info ->
        (0.8 < confidence info
         <-> firstPresent present ["gatsby-config.js"; "gatsby-config.ts"] <> None
             /\ dependsOn "gatsby" = true)).
Proof.
  split; [|split]; intros info.
  - unfold detectEleventy.
    destruct (firstPresent present _), (dependsOn "@11ty/eleventy");
      cbn; intro E; try discriminate E; injection E as <-; cbn [confidence];
      settle_indicators.
  - unfold detectNextJS.
    destruct (firstPresent present _), (dependsOn "next");
      cbn; intro E; try discriminate E; injection E as <-; cbn [confidence];
      settle_indicators.
  - unfold detectGatsby.
    destruct (firstPresent present _), (dependsOn "gatsby");
      cbn; intro E; try discriminate E; injection E as <-; cbn [confidence];
      settle_indicators.
Qed.

End FrameworkFacts.

Section PostFacts.
Import Objects PatternDetection Posts Reference.

Lemma withUserValues_title (title author : string) (tags : list string)
    (description : string) (frontmatter : Obj) :
  getKey "title" (withUserValues title author tags description frontmatter)
  = Some (VStr title).
Proof.
  unfold withUserValues. split_ifs;
    rewrite ?getKey_setKey_other by discriminate; apply getKey_setKey_same.
Qed.

Lemma withUserValues_other (title author : string) (tags : list string)
    (description : string) (frontmatter : Obj) (k : string) :
  k <> "title" -> k <> "author" -> k <> "tags" -> k <> "description" ->
  getKey k (withUserValues title author tags description frontmatter)
  = getKey k frontmatter.
Proof.
  intros H1 H2 H3 H4. unfold withUserValues. split_ifs;
    rewrite ?getKey_setKey_other by congruence; reflexivity.
Qed.

Lemma hasKey_withUserValues (title author : string) (tags : list string)
    (description : string) (frontmatter : Obj) (k : string) :
  k <> "title" -> k <> "author" -> k <> "tags" -> k <> "description" ->
  hasKey k (withUserValues title author tags description frontmatter)
  = hasKey k frontmatter.
Proof.
  intros H1 H2 H3 H4. rewrite !hasKey_getKey. now rewrite withUserValues_other.
Qed.

Lemma fromPattern_title (currentDate : JsDate) (title author : string) (tags : list string)
    (description : string) (draft : bool) (template : Obj) :
  getKey "title" (fromPattern currentDate title author tags description draft template)
  = Some (VStr title).
Proof.
  unfold fromPattern. cbv zeta. split_ifs;
    rewrite ?getKey_setKey_other by discriminate; apply withUserValues_title.
Qed.

Lemma fromFramework_title (currentDate : JsDate) (title author : string) (tags : list string)
    (description : string) (draft : bool) (config : FrameworkDetection.ContentConfig)
    (template : Obj) :
  (FrameworkDetection.dateField config = "date"
   \/ FrameworkDetection.dateField config = "publishedAt"
   \/ FrameworkDetection.dateField config = "publishDate") ->
  (FrameworkDetection.draftField config = Some "draft"
   \/ FrameworkDetection.draftField config = None) ->
  (FrameworkDetection.publishedField config = Some "published"
   \/ FrameworkDetection.publishedField config = None) ->
  getKey "title" (fromFramework currentDate title author tags description draft config template)
  = Some (VStr title).
Proof.
  intros Hd Hf Hp. unfold fromFramework. cbv zeta.
  destruct Hd as [-> | [-> | ->]], Hf as [-> | ->], Hp as [-> | ->]; cbn [orElse namedIn];
    split_ifs; rewrite ?getKey_setKey_other by discriminate; apply withUserValues_title.
Qed.

Lemma astro_configured (present dependsOn : string -> bool)
    (parsedConfig : Completion string (list AstroSchemaAnalyzer.AstroCollection))
    (now : JsDate) (f : FrameworkDetection.FrameworkInfo) :
  FrameworkDetection.framework
    (FrameworkDetection.detectAstroWithCollections present dependsOn parsedConfig now) = Some f ->
  configured f.
Proof.
  unfold FrameworkDetection.detectAstroWithCollections. cbv zeta.
  destruct (Qeq_bool _ 0); [discriminate|].
  destruct (AstroTemplates.success _); [destruct (AstroTemplates.collections _)|];
    cbn [FrameworkDetection.framework]; intro E; injection E as <-;
    eexists; cbn [FrameworkDetection.contentConfig]; (split; [reflexivity|]); cbn; auto.
Qed.

Lemma simple_detectors_configured (present dependsOn : string -> bool) (now : JsDate)
    (f : FrameworkDetection.FrameworkInfo) :
  FrameworkDetection.detectHugo present now = Some f
  \/ FrameworkDetection.detectJekyll present now = Some f
  \/ FrameworkDetection.detectEleventy present dependsOn now = Some f
  \/ FrameworkDetection.detectNextJS present dependsOn now = Some f
  \/ FrameworkDetection.detectGatsby present dependsOn now = Some f ->
  configured f.
Proof.
  unfold FrameworkDetection.detectHugo, FrameworkDetection.detectJekyll,
    FrameworkDetection.detectEleventy, FrameworkDetection.detectNextJS,
    FrameworkDetection.detectGatsby. cbv zeta.
  intros [E|[E|[E|[E|E]]]];
    (destruct (Qeq_bool _ 0); [discriminate E|]); injection E as <-;
    eexists; cbn [FrameworkDetection.contentConfig]; (split; [reflexivity|]); cbn; auto.
Qed.

Lemma pushed_In (found : option FrameworkDetection.FrameworkInfo)
    (f : FrameworkDetection.FrameworkInfo) :
  In f (FrameworkDetection.pushed found) <-> found = Some f.
Proof.
  destruct found as [g|]; cbn; [|intuition discriminate].
  split; [intros [->|[]]; reflexivity|intro E; injection E as ->; now left].
Qed.

Lemma detected_configured (present dependsOn : string -> bool)
    (parsedConfig : Completion string (list AstroSchemaAnalyzer.AstroCollection))
    (now : JsDate) (f : FrameworkDetection.FrameworkInfo) :
  In f (FrameworkDetection.detectedFrameworks present dependsOn parsedConfig now) ->
  configured f.
Proof.
  unfold FrameworkDetection.detectedFrameworks. rewrite !in_app_iff, !pushed_In.
  intros [H|H].
  - eapply astro_configured; exact H.
  - eapply simple_detectors_configured; exact H.
Qed.

Lemma hd_error_In {A : Type} (l : list A) (x : A) : hd_error l = Some x -> In x l.
Proof. destruct l; [discriminate|]. intro E. injection E as ->. now left. Qed.

Lemma primary_configured (present dependsOn : string -> bool)
    (parsedConfig : Completion string (list AstroSchemaAnalyzer.AstroCollection))
    (now : JsDate) (f : FrameworkDetection.FrameworkInfo) :
  FrameworkDetection.primary
    (FrameworkDetection.detectFramework present dependsOn parsedConfig now) = Some f ->
  configured f.
Proof.
  intro H. apply (detected_configured present dependsOn parsedConfig now).
  apply sortByConfidence_In. apply hd_error_In. exact H.
Qed.

(** X20: with the frameworks [detectFramework] reports, [createPost] always
    comes to a frontmatter, and the title in it is the title asked for. *)
Theorem createPost_returns_with_title (currentDate now : JsDate) (options : PostOptions)
    (detection : DetectionResult) (present dependsOn : string -> bool)
    (parsedConfig : Completion string (list AstroSchemaAnalyzer.AstroCollection))
    (detectedAt : JsDate) :
  exists frontmatter dir,
    createPost currentDate now options detection
      (FrameworkDetection.detectFramework present dependsOn parsedConfig detectedAt)
    = Returns (frontmatter, dir)
    /\ getKey "title" frontmatter = Some (VStr (title options)).
Proof.
  assert (exists frontmatter dir,
            fromFrameworkOrDefault currentDate now options (title options)
              (orElse (author options) "") (orElse (tags options) [])
              (orElse (description options) "") (orElse (draft options) true)
              (orElse (contentDir options) "src/content/blog")
              (FrameworkDetection.detectFramework present dependsOn parsedConfig detectedAt)
            = Returns (frontmatter, dir)
            /\ getKey "title" frontmatter = Some (VStr (title options))) as Helse.
  { unfold fromFrameworkOrDefault.
    pose proof (primary_configured present dependsOn parsedConfig detectedAt) as Hc.
    set (r := FrameworkDetection.detectFramework present dependsOn parsedConfig detectedAt)
      in *.
    assert (FrameworkDetection.suggestedTemplate r
            = match FrameworkDetection.primary r with
              | Some info =>
                  match FrameworkDetection.contentConfig info with
                  | Some config => Some (FrameworkDetection.frontmatterTemplate config)
                  | None => None
                  end
              | None => None
              end) as Hs by reflexivity.
    rewrite Hs.
    destruct (FrameworkDetection.primary r) as [f|].
    - destruct (Hc f eq_refl) as [config [Hcfg [Hd [Hf Hp]]]]. rewrite Hcfg.
      destruct (frameworkBase _ _ _ _ _ _) as [base dir].
      eexists. eexists. split; [reflexivity|].
      now apply fromFramework_title.
    - eexists. eexists. split; reflexivity. }
  unfold createPost. cbv zeta.
  destruct (suggestedTemplate detection) as [template|]; [|exact Helse].
  destruct (success detection && negb _); [|exact Helse].
  eexists. eexists. split; [reflexivity|]. apply fromPattern_title.
Qed.

Lemma lessThan_false (x y : Q) : y <= x -> Index.lessThan x y = false.
Proof.
  intro H. unfold Index.lessThan. apply Qle_bool_iff in H. now rewrite H.
Qed.

(** The template's fields are never compared with the schema: the
    analysis [detectFramework] hands over has no [fields]. *)
Lemma no_conflict_is_seen (r : FrameworkDetection.FrameworkDetectionResult)
    (template : Obj) :
  match Index.schemaAnalysis (FrameworkDetection.choiceView r) with
  | Some analysis => Index.analysisSuccess analysis
                     && Index.detectSchemaConflicts template analysis
  | None => false
  end = false.
Proof.
  unfold FrameworkDetection.choiceView. cbn [Index.schemaAnalysis].
  destruct (FrameworkDetection.schemaAnalysis r); [|reflexivity].
  cbn. apply andb_false_r.
Qed.

(** X21: a detection that succeeded with a pattern of confidence 0.7 or
    more is always the base of the new post, whatever framework is found
    and whatever its schema says of the fields of the template. *)
Theorem confident_pattern_is_always_used (currentDate now : JsDate) (options : PostOptions)
    (detection : DetectionResult) (r : FrameworkDetection.FrameworkDetectionResult)
    (template : Obj) (p : FrontmatterPattern) :
  success detection = true ->
  suggestedTemplate detection = Some template ->
  pattern detection = Some p ->
  0.7 <= confidence p ->
  createPost currentDate now options detection r
  = Returns (fromPattern currentDate (title options) (orElse (author options) "")
               (orElse (tags options) []) (orElse (description options) "")
               (orElse (draft options) true) template,
             orElse (contentDir options) "src/content/blog").
Proof.
  intros Hs Ht Hp Hc.
  assert (Index.shouldPreferFrameworkOverPattern detection (FrameworkDetection.choiceView r)
          = false) as Hpref.
  { unfold Index.shouldPreferFrameworkOverPattern.
    destruct (Index.primary (FrameworkDetection.choiceView r)) as [f|]; [|reflexivity].
    rewrite Hs, Ht, no_conflict_is_seen, Hp, (lessThan_false _ _ Hc).
    now rewrite andb_false_r. }
  unfold createPost. cbv zeta. rewrite Ht, Hs, Hpref. reflexivity.
Qed.

Lemma confident_pattern_witness :
  exists frontmatter,
    createPost Examples.now Examples.now MoreExamples.helloPost MoreExamples.consistentDetection
      (FrameworkDetection.detectFramework MoreExamples.astroSite MoreExamples.noDependencies
         MoreExamples.unreadableConfig Examples.now)
    = Returns (frontmatter, "src/content/blog").
Proof.
  eexists.
  refine (confident_pattern_is_always_used Examples.now Examples.now MoreExamples.helloPost
            MoreExamples.consistentDetection _ _ _ eq_refl eq_refl eq_refl _).
  vm_compute. discriminate.
Defined.

Lemma fromPattern_date (currentDate : JsDate) (title author : string) (tags : list string)
    (description : string) (draft : bool) (template : Obj) :
  hasKey "date" template = true ->
  getKey "date" (fromPattern currentDate title author tags description draft template)
  = Some (VDate currentDate).
Proof.
  intro Hd. unfold fromPattern. cbv zeta.
  set (base := withUserValues title author tags description template).
  assert (hasKey "date" base = true) as Hb.
  { unfold base. rewrite hasKey_withUserValues by discriminate. exact Hd. }
  destruct (hasKey "draft" base).
  - rewrite hasKey_setKey_other by discriminate. rewrite Hb. apply getKey_setKey_same.
  - destruct (hasKey "published" base).
    + rewrite hasKey_setKey_other by discriminate. rewrite Hb. apply getKey_setKey_same.
    + rewrite Hb. apply getKey_setKey_same.
Qed.

(** X22: when the new post starts from the detected pattern and the
    template has a [date], the post gets the current instant as a [Date]
    under that key, whatever value the template held there. *)
Theorem pattern_date_is_overwritten (currentDate now : JsDate) (options : PostOptions)
    (detection : DetectionResult) (r : FrameworkDetection.FrameworkDetectionResult)
    (template : Obj) :
  success detection = true ->
  suggestedTemplate detection = Some template ->
  Index.shouldPreferFrameworkOverPattern detection (FrameworkDetection.choiceView r) = false ->
  hasKey "date" template = true ->
  exists frontmatter dir,
    createPost currentDate now options detection r = Returns (frontmatter, dir)
    /\ getKey "date" frontmatter = Some (VDate currentDate).
Proof.
  intros Hs Ht Hpref Hd. unfold createPost. cbv zeta. rewrite Ht, Hs, Hpref.
  eexists. eexists. split; [reflexivity|]. now apply fromPattern_date.
Qed.

Lemma pattern_date_witness :
  getKey "date" (generateTemplate Examples.now
                   (analyzeFrontmatterPatterns Examples.consistentPosts))
  = Some (VStr "2025-07-20")
  /\ exists frontmatter dir,
       createPost Examples.now Examples.now MoreExamples.helloPost
         MoreExamples.consistentDetection
         (FrameworkDetection.detectFramework MoreExamples.astroSite MoreExamples.noDependencies
            MoreExamples.unreadableConfig Examples.now)
       = Returns (frontmatter, dir)
       /\ getKey "date" frontmatter = Some (VDate Examples.now).
Proof.
  split; [reflexivity|].
  refine (pattern_date_is_overwritten Examples.now Examples.now MoreExamples.helloPost
            MoreExamples.consistentDetection _ _ eq_refl eq_refl _ _);
    vm_compute; reflexivity.
Defined.

Section Rewriting.

Variable matter : string -> Completion string (string * Obj).
Variable stringify : string -> Obj -> string.

Lemma rewritePost_writes (update : Obj -> Obj) (files : PostFiles) (filePath text : string)
    (content : string) (data : Obj) :
  files filePath = Some (RegularFile text) ->
  matter text = Returns (content, data) ->
  rewritePost matter stringify update files filePath
  = Returns (writeFileSync filePath (stringify content (update data)) files).
Proof.
  intros Hf Hm. unfold rewritePost. rewrite Hf. cbn [readFileSync]. now rewrite Hm.
Qed.

Lemma writeFileSync_same (filePath content : string) (files : PostFiles) :
  writeFileSync filePath content files filePath = Some (RegularFile content).
Proof. unfold writeFileSync. now rewrite String.eqb_refl. Qed.

(** Two rewritings in a row, with a codec that reads back what it wrote
    the first time. *)
Lemma rewritePost_twice (first second : Obj -> Obj) (files : PostFiles)
    (filePath text content : string) (data : Obj) :
  files filePath = Some (RegularFile text) ->
  matter text = Returns (content, data) ->
  matter (stringify content (first data)) = Returns (content, first data) ->
  exists files1 files2,
    rewritePost matter stringify first files filePath = Returns files1
    /\ rewritePost matter stringify second files1 filePath = Returns files2
    /\ files2 filePath = Some (RegularFile (stringify content (second (first data)))).
Proof.
  intros Hf Hm Hback.
  exists (writeFileSync filePath (stringify content (first data)) files).
  exists (writeFileSync filePath (stringify content (second (first data)))
            (writeFileSync filePath (stringify content (first data)) files)).
  split; [now apply rewritePost_writes with (text := text)|]. split.
  - apply rewritePost_writes with (text := stringify content (first data)).
    + apply writeFileSync_same.
    + exact Hback.
  - apply writeFileSync_same.
Qed.

End Rewriting.

Lemma setKey_present (k : string) (v : JsValue) (o : Obj) :
  getKey k o = Some v -> NoDup (keys o) -> setKey k v o = o.
Proof.
  unfold getKey. induction o as [|[k0 v0] rest IH]; intros Hget Hnd; [discriminate|].
  inversion Hnd as [|x l Hnot Hnd']; subst. cbn [setKey]. cbn [find fst] in Hget.
  destruct (String.eqb k0 k) eqn:E.
  - apply String.eqb_eq in E. subst k0. cbn in Hget. now injection Hget as ->.
  - f_equal. now apply IH.
Qed.

Lemma setKey_setKey (k : string) (v w : JsValue) (o : Obj) :
  setKey k w (setKey k v o) = setKey k w o.
Proof.
  induction o as [|[k0 v0] rest IH].
  - cbn. now rewrite String.eqb_refl.
  - cbn [setKey]. destruct (String.eqb k0 k) eqn:E.
    + cbn [setKey]. now rewrite String.eqb_refl.
    + cbn [setKey]. rewrite E. now rewrite IH.
Qed.

(** Unpublishing and publishing again, on the data. *)
Lemma republished_data (data : Obj) :
  NoDup (keys data) ->
  getKey "draft" data = Some (VBool false) ->
  hasKey "published" data = false ->
  publishedData None (unpublishedData data) = data.
Proof.
  intros Hnd Hdraft Hpub. unfold publishedData, unpublishedData. cbv zeta.
  rewrite hasKey_setKey_other by discriminate. rewrite Hpub.
  rewrite setKey_setKey. now apply setKey_present.
Qed.

Lemma republished_flags (publishDate : option JsDate) (data : Obj) :
  hasKey "published" data = true ->
  getKey "draft" (publishedData publishDate (unpublishedData data)) = Some (VBool false)
  /\ getKey "published" (publishedData publishDate (unpublishedData data))
     = Some (VBool false).
Proof.
  intro Hpub. unfold publishedData, unpublishedData. cbv zeta.
  rewrite hasKey_setKey_other by discriminate. rewrite Hpub.
  destruct publishDate as [d|].
  - rewrite !(getKey_setKey_other _ "date") by discriminate.
    split; [apply getKey_setKey_same|].
    rewrite getKey_setKey_other by discriminate. apply getKey_setKey_same.
  - split; [apply getKey_setKey_same|].
    rewrite getKey_setKey_other by discriminate. apply getKey_setKey_same.
Qed.

(** X23: unpublishing a post and publishing it again without a date
    leaves the file with the frontmatter it had, when that frontmatter had
    [draft: false] and no [published] key and the codec reads back what it
    wrote. *)
Theorem unpublish_then_publish_restores (matter : string -> Completion string (string * Obj))
    (stringify : string -> Obj -> string) (files : PostFiles)
    (filePath text content : string) (data : Obj) :
  files filePath = Some (RegularFile text) ->
  matter text = Returns (content, data) ->
  matter (stringify content (unpublishedData data))
  = Returns (content, unpublishedData data) ->
  NoDup (keys data) ->
  getKey "draft" data = Some (VBool false) ->
  hasKey "published" data = false ->
  exists files1 files2,
    unpublishPost matter stringify files filePath = Returns files1
    /\ publishPost matter stringify files1 filePath None = Returns files2
    /\ files2 filePath = Some (RegularFile (stringify content data)).
Proof.
  intros Hf Hm Hback Hnd Hdraft Hpub.
  destruct (rewritePost_twice matter stringify unpublishedData (publishedData None)
              files filePath text content data Hf Hm Hback) as [f1 [f2 [H1 [H2 H3]]]].
  exists f1, f2. split; [exact H1|]. split; [exact H2|].
  now rewrite republished_data in H3.
Qed.

Lemma unpublish_then_publish_witness :
  exists files1 files2,
    unpublishPost (MoreExamples.toyMatter MoreExamples.publishedPost)
                  MoreExamples.toyStringify MoreExamples.onePost "hello.md" = Returns files1
    /\ publishPost (MoreExamples.toyMatter MoreExamples.publishedPost)
                   MoreExamples.toyStringify files1 "hello.md" None
       = Returns files2
    /\ files2 "hello.md" = Some (RegularFile "published").
Proof.
  refine (unpublish_then_publish_restores
            (MoreExamples.toyMatter MoreExamples.publishedPost) MoreExamples.toyStringify
            MoreExamples.onePost "hello.md" "published" "body" MoreExamples.publishedPost
            eq_refl eq_refl eq_refl _ eq_refl eq_refl).
  cbn. repeat constructor; cbn; intuition discriminate.
Defined.

(** X24: publishing never sets [published]: a post that has the key, once
    unpublished and published again, is left with [draft: false] and
    [published: false] at once. *)
Theorem publish_does_not_restore_published
    (matter : string -> Completion string (string * Obj))
    (stringify : string -> Obj -> string) (files : PostFiles)
    (filePath text content : string) (data : Obj) (publishDate : option JsDate) :
  files filePath = Some (RegularFile text) ->
  matter text = Returns (content, data) ->
  matter (stringify content (unpublishedData data))
  = Returns (content, unpublishedData data) ->
  hasKey "published" data = true ->
  exists files1 files2 written,
    unpublishPost matter stringify files filePath = Returns files1
    /\ publishPost matter stringify files1 filePath publishDate = Returns files2
    /\ files2 filePath = Some (RegularFile (stringify content written))
    /\ getKey "draft" written = Some (VBool false)
    /\ getKey "published" written = Some (VBool false).
Proof.
  intros Hf Hm Hback Hpub.
  destruct (rewritePost_twice matter stringify unpublishedData (publishedData publishDate)
              files filePath text content data Hf Hm Hback) as [f1 [f2 [H1 [H2 H3]]]].
  exists f1, f2, (publishedData publishDate (unpublishedData data)).
  split; [exact H1|]. split; [exact H2|]. split; [exact H3|].
  now apply republished_flags.
Qed.

Lemma publish_does_not_restore_witness :
  exists files1 files2 written,
    unpublishPost (MoreExamples.toyMatter MoreExamples.jekyllPost)
                  MoreExamples.toyStringify MoreExamples.onePost "hello.md" = Returns files1
    /\ publishPost (MoreExamples.toyMatter MoreExamples.jekyllPost)
                   MoreExamples.toyStringify files1 "hello.md" None
       = Returns files2
    /\ files2 "hello.md" = Some (RegularFile (MoreExamples.toyStringify "body" written))
    /\ getKey "draft" written = Some (VBool false)
    /\ getKey "published" written = Some (VBool false).
Proof.
  exact (publish_does_not_restore_published
           (MoreExamples.toyMatter MoreExamples.jekyllPost) MoreExamples.toyStringify
           MoreExamples.onePost "hello.md" "published" "body" MoreExamples.jekyllPost None
           eq_refl eq_refl eq_refl eq_refl).
Defined.

End PostFacts.

Section ValidationFacts.
Import Objects Posts Validation.

Lemma date_object_is_refused (parsesAsDate : string -> bool) (frontmatter : Obj)
    (d : JsDate) :
  getKey "date" frontmatter = Some (VDate d) ->
  In "Date must be in YYYY-MM-DD format"
     (errors (validateFrontmatter parsesAsDate frontmatter))
  /\ isValid (validateFrontmatter parsesAsDate frontmatter) = false.
Proof.
  intro Hd.
  assert (In "Date must be in YYYY-MM-DD format"
             (errors (validateFrontmatter parsesAsDate frontmatter))) as Hin.
  { unfold validateFrontmatter. cbn [errors]. apply in_app_iff. right.
    apply in_app_iff. left. unfold dateErrors, lookup. rewrite Hd. cbn. now left. }
  split; [exact Hin|].
  unfold validateFrontmatter in *. cbn [errors isValid] in *.
  match type of Hin with In _ ?l => destruct l; [destruct Hin|reflexivity] end.
Qed.

(** X25: the frontmatter [createPost] assembles by default or from a
    pattern with a [date], and the one [publishPost] writes with a
    publication date, hold a [Date] under [date]; [validateFrontmatter]
    refuses each of them: the date is not a string. *)
Theorem written_dates_fail_validation (parsesAsDate : string -> bool) :
  (forall currentDate title author tags description draft,
     let result :=
       validateFrontmatter parsesAsDate
         (defaultStructure currentDate title author tags description draft) in
     In "Date must be in YYYY-MM-DD format" (errors result) /\ isValid result = false)
  /\ (forall currentDate title author tags description draft template,
        hasKey "date" template = true ->
        let result :=
          validateFrontmatter parsesAsDate
            (fromPattern currentDate title author tags description draft template) in
        In "Date must be in YYYY-MM-DD format" (errors result) /\ isValid result = false)
  /\ (forall publishDate data,
        let result :=
          validateFrontmatter parsesAsDate (publishedData (Some publishDate) data) in
        In "Date must be in YYYY-MM-DD format" (errors result) /\ isValid result = false).
Proof.
  split; [|split].
  - intros. apply (date_object_is_refused parsesAsDate _ currentDate). reflexivity.
  - intros currentDate title author tags description draft template Hd result.
    apply (date_object_is_refused parsesAsDate _ currentDate). now apply fromPattern_date.
  - intros publishDate data result.
    apply (date_object_is_refused parsesAsDate _ publishDate).
    unfold publishedData. apply getKey_setKey_same.
Qed.

End ValidationFacts.

Section DetectionBounds.
Import PatternDetection.

Lemma collectSamples_length (matter : string -> Completion string Obj)
    (files : list (string * DirEntry)) :
  (List.length (collectSamples matter files) <= List.length files)%nat.
Proof.
  induction files as [|[n e] rest IH]; [apply Nat.le_refl|].
  cbn [collectSamples]. destruct (sampleOf matter e); cbn [List.length]; lia.
Qed.

(** X26: a detection that returns carries a pattern exactly when it
    succeeded, and then the pattern counts at least one post and at most
    [maxPosts], and the template is the one made from the pattern. *)
Theorem detection_reads_at_most_maxPosts (matter : string -> Completion string Obj)
    (now : JsDate) (fs : FileSystem) (contentDir : string) (maxPosts : nat)
    (result : DetectionResult) :
  detectFrontmatterPattern matter now fs contentDir maxPosts = Returns result ->
  match pattern result with
  | Some p =>
      success result = true
      /\ (1 <= totalPosts p <= maxPosts)%nat
      /\ suggestedTemplate result = Some (generateTemplate now p)
  | None => success result = false /\ suggestedTemplate result = None
  end.
Proof.
  rewrite detect_on_directory. intro Hret.
  destruct (fs contentDir) as [| |listing].
  - injection Hret as <-. split; reflexivity.
  - discriminate Hret.
  - cbv zeta in Hret.
    pose proof (firstn_le_length maxPosts
                  (filter (fun f => String.eqb (extname (fst f)) ".md") listing)) as Hle.
    destruct (firstn maxPosts _) as [|f files] eqn:F.
    + injection Hret as <-. split; reflexivity.
    + pose proof (collectSamples_length matter (f :: files)) as Hc.
      destruct (collectSamples matter (f :: files)) as [|smp samples].
      * injection Hret as <-. split; reflexivity.
      * injection Hret as <-. cbn [pattern success suggestedTemplate].
        split; [reflexivity|]. split; [|reflexivity].
        rewrite totalPosts_eq. cbn [List.length] in *. lia.
Qed.

Lemma detection_bound_witness :
  exists result p,
    detectFrontmatterPattern Examples.matter Examples.now Examples.disk
                             "pattern-test-output" 10 = Returns result
    /\ pattern result = Some p
    /\ (1 <= totalPosts p <= 10)%nat.
Proof.
  destruct (detectFrontmatterPattern Examples.matter Examples.now Examples.disk
              "pattern-test-output" 10) as [result|e] eqn:E;
    [|vm_compute in E; discriminate E].
  pose proof (detection_reads_at_most_maxPosts Examples.matter Examples.now Examples.disk
                "pattern-test-output" 10 result E) as H.
  destruct (pattern result) as [p|] eqn:P.
  - exists result, p. split; [reflexivity|]. split; [exact P|]. exact (proj1 (proj2 H)).
  - exfalso. destruct H as [H _]. vm_compute in E. injection E as <-.
    discriminate H.
Defined.

End DetectionBounds.

Section DirectoryFacts.
Import Objects PatternDetection Posts.

Lemma frameworkBase_directory (now : JsDate) (options : PostOptions) (contentDir : string)
    (framework : FrameworkDetection.FrameworkInfo) (suggested : Obj)
    (astroCollections : option (list AstroSchemaAnalyzer.AstroCollection)) :
  collectionName options = None ->
  frameworkBase now options contentDir framework suggested astroCollections
  = (suggested, contentDir).
Proof.
  intro Hn. unfold frameworkBase. rewrite Hn. cbn [orElse nonEmpty String.eqb negb].
  destruct (String.eqb _ "Astro"); [|reflexivity].
  destruct astroCollections; reflexivity.
Qed.

(** X27: unless a collection is asked for by name, the post goes to the
    directory of the options, or to [src/content/blog] when they name
    none: the default directory of the framework found is not used. *)
Theorem post_directory_is_the_callers (currentDate now : JsDate) (options : PostOptions)
    (detection : DetectionResult) (r : FrameworkDetection.FrameworkDetectionResult)
    (frontmatter : Obj) (dir : string) :
  collectionName options = None ->
  createPost currentDate now options detection r = Returns (frontmatter, dir) ->
  dir = orElse (contentDir options) "src/content/blog".
Proof.
  intros Hn. unfold createPost. cbv zeta.
  assert (fromFrameworkOrDefault currentDate now options (title options)
            (orElse (author options) "") (orElse (tags options) [])
            (orElse (description options) "") (orElse (draft options) true)
            (orElse (contentDir options) "src/content/blog") r
          = Returns (frontmatter, dir) ->
          dir = orElse (contentDir options) "src/content/blog") as Helse.
  { unfold fromFrameworkOrDefault.
    destruct (FrameworkDetection.primary r) as [f|].
    - destruct (FrameworkDetection.suggestedTemplate r) as [suggested|].
      + rewrite frameworkBase_directory by exact Hn.
        destruct (FrameworkDetection.contentConfig f); [|discriminate].
        intro E. now injection E as _ <-.
      + intro E. now injection E as _ <-.
    - intro E. now injection E as _ <-. }
  destruct (suggestedTemplate detection) as [template|]; [|exact Helse].
  destruct (success detection && negb _); [|exact Helse].
  intro E. now injection E as _ <-.
Qed.

Lemma post_directory_witness :
  FrameworkDetection.contentDir
    (FrameworkDetection.detectFramework MoreExamples.jekyllSite MoreExamples.noDependencies
       MoreExamples.unreadableConfig Examples.now) = "_posts"
  /\ exists frontmatter,
       createPost Examples.now Examples.now MoreExamples.helloPost
         (failure "No markdown files found to analyze")
         (FrameworkDetection.detectFramework MoreExamples.jekyllSite
            MoreExamples.noDependencies MoreExamples.unreadableConfig Examples.now)
       = Returns (frontmatter, "src/content/blog").
Proof.
  split; [reflexivity|].
  destruct (createPost Examples.now Examples.now MoreExamples.helloPost
              (failure "No markdown files found to analyze")
              (FrameworkDetection.detectFramework MoreExamples.jekyllSite
                 MoreExamples.noDependencies MoreExamples.unreadableConfig Examples.now))
    as [[frontmatter dir]|e] eqn:E; [|vm_compute in E; discriminate E].
  exists frontmatter.
  rewrite (post_directory_is_the_callers Examples.now Examples.now MoreExamples.helloPost
             _ _ frontmatter dir eq_refl E).
  reflexivity.
Defined.

End DirectoryFacts.

Section AstroDetectionFacts.
Import FrameworkDetection.

(** X28: [detectFramework] reports collections only when the project has
    a [src/content/config.ts], its [package.json] lists [astro], and the
    configuration parses into at least one collection; the collections
    are then the parsed ones. *)
Theorem collections_need_the_dependency (present dependsOn : string -> bool)
    (parsedConfig : Completion string (list AstroSchemaAnalyzer.AstroCollection))
    (now : JsDate) (collections : list AstroSchemaAnalyzer.AstroCollection) :
  astroCollections (detectFramework present dependsOn parsedConfig now) = Some collections ->
  present "src/content/config.ts" = true
  /\ dependsOn "astro" = true
  /\ parsedConfig = Returns collections
  /\ collections <> [].
Proof.
  unfold detectFramework. cbv zeta. cbn [astroCollections].
  unfold detectAstroWithCollections. cbv zeta.
  destruct (Qeq_bool _ 0); [cbn; discriminate|].
  unfold AstroTemplates.analyzeConfig.
  destruct (present "src/content/config.ts"); cbn [negb]; [|cbn; discriminate].
  destruct (dependsOn "astro"); cbn [negb]; [|cbn; discriminate].
  destruct parsedConfig as [cs|e]; [|cbn; discriminate].
  cbn [AstroTemplates.success AstroTemplates.collections].
  destruct cs as [|c cs]; [cbn; discriminate|].
  cbn. intro E. injection E as <-. repeat split. discriminate.
Qed.

Lemma collections_witness :
  MoreExamples.astroProject "src/content/config.ts" = true
  /\ MoreExamples.astroDependency "astro" = true
  /\ MoreExamples.blogConfig
     = Returns [AstroSchemaAnalyzer.parseCollection "blog"
                  (SchemaIntrospection.EObject MoreExamples.blogSchema)]
  /\ [AstroSchemaAnalyzer.parseCollection "blog"
        (SchemaIntrospection.EObject MoreExamples.blogSchema)] <> [].
Proof.
  refine (collections_need_the_dependency MoreExamples.astroProject
            MoreExamples.astroDependency MoreExamples.blogConfig Examples.now _ _).
  vm_compute. reflexivity.
Defined.

End AstroDetectionFacts.

Section NameFacts.
Import PatternDetection.

Lemma lowerChar_idempotent (c : ascii) : lowerChar (lowerChar c) = lowerChar c.
Proof. destruct c as [[] [] [] [] [] [] [] []]; reflexivity. Qed.

Lemma toLowerCase_idempotent (s : string) : toLowerCase (toLowerCase s) = toLowerCase s.
Proof.
  induction s as [|c rest IH]; [reflexivity|].
  cbn [toLowerCase]. now rewrite lowerChar_idempotent, IH.
Qed.

(** X29: the default of a field depends on its name only up to the case
    of its letters: [Draft], [DRAFT] and [draft] get the same default. *)
Theorem default_ignores_letter_case (now : JsDate) (name : string) (pattern : FieldPattern) :
  getDefaultValueForField now name pattern
  = getDefaultValueForField now (toLowerCase name) pattern.
Proof.
  unfold getDefaultValueForField. now rewrite toLowerCase_idempotent.
Qed.

End NameFacts.

Section FrontmatterKeys.
Import Objects PatternDetection Posts Reference.

Lemma keys_setKey (k : string) (v : JsValue) (o : Obj) :
  keys (setKey k v o) = if hasKey k o then keys o else keys o ++ [k].
Proof.
  unfold keys, hasKey. induction o as [|[k0 v0] rest IH]; [reflexivity|].
  cbn [setKey existsb map fst]. destruct (String.eqb k0 k) eqn:E.
  - apply String.eqb_eq in E. subst k0. reflexivity.
  - cbn [map fst orb]. rewrite IH.
    destruct (existsb _ rest); reflexivity.
Qed.

Lemma keys_setKey_present (k : string) (v : JsValue) (o : Obj) :
  hasKey k o = true -> keys (setKey k v o) = keys o.
Proof. intro H. now rewrite keys_setKey, H. Qed.

Lemma withUserValues_keys (title author : string) (tags : list string)
    (description : string) (template : Obj) :
  keys (withUserValues title author tags description template)
  = keys template
    ++ filter (fun k => negb (hasKey k template)) (suppliedNames author tags description).
Proof.
  unfold withUserValues, suppliedNames.
  destruct (nonEmpty author), (0 <? List.length tags)%nat, (nonEmpty description);
    rewrite ?keys_setKey, ?hasKey_setKey; cbn [filter app];
    destruct (hasKey "title" template), (hasKey "author" template),
             (hasKey "tags" template), (hasKey "description" template);
    cbn; rewrite ?app_nil_r, <- ?app_assoc; reflexivity.
Qed.

(** X30: the frontmatter made from a pattern has the keys of the
    template, in the template's order, followed by those of [title],
    [author], [tags] and [description] that the caller supplied and the
    template lacks; no key is dropped, and neither a draft flag nor a date
    is added to a template that has none. *)
Theorem pattern_frontmatter_keys (currentDate : JsDate) (title author : string)
    (tags : list string) (description : string) (draft : bool) (template : Obj) :
  keys (fromPattern currentDate title author tags description draft template)
  = keys template
    ++ filter (fun k => negb (hasKey k template)) (suppliedNames author tags description).
Proof.
  unfold fromPattern. cbv zeta.
  set (base := withUserValues title author tags description template).
  assert (forall k v o, hasKey k o = true -> keys (setKey k v o) = keys o) as Hkeep
    by (intros; now apply keys_setKey_present).
  assert (keys (if hasKey "draft" base then setKey "draft" (VBool draft) base
                else if hasKey "published" base
                     then setKey "published" (VBool (negb draft)) base else base)
          = keys base) as Hflag.
  { destruct (hasKey "draft" base) eqn:D; [now apply Hkeep|].
    destruct (hasKey "published" base) eqn:P; [now apply Hkeep|reflexivity]. }
  set (flagged := if hasKey "draft" base then _ else _) in *.
  assert (keys (if hasKey "date" flagged then setKey "date" (VDate currentDate) flagged
                else if hasKey "publishedAt" flagged
                     then setKey "publishedAt" (VDate currentDate) flagged
                     else if hasKey "publishDate" flagged
                          then setKey "publishDate" (VDate currentDate) flagged
                          else flagged)
          = keys flagged) as Hdate.
  { destruct (hasKey "date" flagged) eqn:D; [now apply Hkeep|].
    destruct (hasKey "publishedAt" flagged) eqn:P; [now apply Hkeep|].
    destruct (hasKey "publishDate" flagged) eqn:Q; [now apply Hkeep|reflexivity]. }
  rewrite Hdate, Hflag. apply withUserValues_keys.
Qed.

End FrontmatterKeys.
